(** * Flight-school auditor: a shallow embedding of the rule engine

    The development follows the Python sources module by module
    ([utils], [pilots], [violations], [endorsements], [inspections]).

    Modelling conventions.
    - A Python exception is an explicit outcome: every function that can
      raise returns a [result].
    - CSV rows are lists of strings, tables are lists of rows, and an index
      out of range raises [IndexError] as it does in Python.
    - Values read from JSON are [pyval]s.
    - A [float] is kept as the rational it denotes, and every comparison
      of the sources is the corresponding comparison of rationals.  The
      arithmetic on floats of the inspection scan (the duration of a flight
      and the running sum of hours) and of the conversion of wind speeds
      rounds to the nearest double as IEEE 754 does ([round_double]); the
      one quotient of [bad_visibility] is kept exact, which is within half
      a unit in the last place of the quotient the code computes.
    - A [datetime] is either naive (a wall-clock reading) or aware (a UTC
      instant and the offset of its fixed-offset tzinfo), both counted in
      microseconds.  Aware datetimes compare and subtract by instant, naive
      ones by wall clock, and ordering a naive against an aware one raises
      [TypeError].
    - What the code delegates to [dateutil], [pytz], [datetime] and the
      builtin [float] is collected in the class [Library].

    The embedding comes first, then the vocabulary of the statements and a
    small concrete data set, then the lemmas and theorems. *)

From Stdlib Require Import ZArith QArith Qround Qabs String Ascii List Bool Lia
  Sorted.
From stdpp Require Import base option gmap strings list fin_maps pretty.

Set Warnings "-register-all".
Local Open Scope string_scope.
Local Open Scope Z_scope.

(** ** Python values, exceptions and rows *)

Module Py.

Inductive exn : Type :=
  | TypeError | KeyError | IndexError | AttributeError | ValueError.

Inductive result (A : Type) : Type :=
  | Ok (a : A)
  | Raise (e : exn).
Arguments Ok {A} a.
Arguments Raise {A} e.

Definition bind {A B : Type} (m : result A) (f : A -> result B) : result B :=
  match m with
  | Ok a => f a
  | Raise e => Raise e
  end.

Notation "'let*' x ':=' m 'in' k" := (bind m (fun x => k))
  (at level 10, x name, m at level 100, k at level 200).

(** Python's short-circuit [a and b] and [a or b] on conditions that may
    raise: [b] is only looked at when [a] does not decide. *)
Definition py_and (a b : result bool) : result bool :=
  let* x := a in if x then b else Ok false.
Definition py_or (a b : result bool) : result bool :=
  let* x := a in if x then Ok true else b.

(** [x is None] and [x is not None]. *)
Definition is_None {A : Type} (x : option A) : bool :=
  match x with None => true | Some _ => false end.
Definition is_not_None {A : Type} (x : option A) : bool := negb (is_None x).

Definition returns {A : Type} (m : result A) : Prop := exists a, m = Ok a.

(** The values [json.load] produces.  An object is kept as the list of its
    members in file order; its keys are taken to be distinct. *)
Inductive pyval : Type :=
  | PNone
  | PBool (b : bool)
  | PNum (q : Q)
  | PStr (s : string)
  | PList (l : list pyval)
  | PDict (d : list (string * pyval)).

Inductive datetime : Type :=
  | Naive (wall : Z)
  | Aware (utc : Z) (utcoffset : Z).

(** [dt.tzinfo], as the offset it stands for. *)
Definition tzinfo (d : datetime) : option Z :=
  match d with
  | Naive _ => None
  | Aware _ off => Some off
  end.

(** [dt.replace(tzinfo=tz)]: the wall clock is kept, the zone is swapped. *)
Definition replace_tzinfo (d : datetime) (tz : option Z) : datetime :=
  let wall := match d with Naive w => w | Aware u off => u + off end in
  match tz with
  | None => Naive wall
  | Some off => Aware (wall - off) off
  end.

(** [a < b] on values that are a datetime or [None]. *)
Definition dt_lt (a b : option datetime) : result bool :=
  match a, b with
  | Some (Aware x _), Some (Aware y _) => Ok (x <? y)
  | Some (Naive x), Some (Naive y) => Ok (x <? y)
  | _, _ => Raise TypeError
  end.

(** [a >= b] on values that are a datetime or [None]. *)
Definition dt_ge (a b : option datetime) : result bool :=
  match a, b with
  | Some (Aware x _), Some (Aware y _) => Ok (y <=? x)
  | Some (Naive x), Some (Naive y) => Ok (y <=? x)
  | _, _ => Raise TypeError
  end.

(** [row[i]] on a list. *)
Definition index {A : Type} (row : list A) (i : nat) : result A :=
  match row !! i with
  | Some x => Ok x
  | None => Raise IndexError
  end.

(** [d.get(k)] and [k in d] on a JSON object. *)
Fixpoint dict_get (d : list (string * pyval)) (k : string) : option pyval :=
  match d with
  | [] => None
  | (k', v) :: d' => if String.eqb k' k then Some v else dict_get d' k
  end.

(** [v == s] for a string literal [s]. *)
Definition is_str (v : pyval) (s : string) : bool :=
  match v with
  | PStr s' => String.eqb s' s
  | _ => false
  end.

(** [d.get(k)] with Python's default [None], and [d.get(k, default)]. *)
Definition get_or_None (d : list (string * pyval)) (k : string) : pyval :=
  default PNone (dict_get d k).

(** [d[k]]. *)
Definition subscript (d : list (string * pyval)) (k : string) : result pyval :=
  match dict_get d k with
  | Some v => Ok v
  | None => Raise KeyError
  end.

(** A value used in arithmetic or ordered against a float: numbers (and
    booleans, which are integers) go through, anything else raises
    [TypeError]. *)
Definition as_number (v : pyval) : result Q :=
  match v with
  | PNum q => Ok q
  | PBool b => Ok (if b then 1%Q else 0%Q)
  | _ => Raise TypeError
  end.

(** A [for] loop that may append one item per pass and stops at the first
    exception. *)
Fixpoint for_each {A B : Type} (body : A -> result (option B)) (l : list A)
  : result (list B) :=
  match l with
  | [] => Ok []
  | x :: rest =>
      let* item := body x in
      let* items := for_each body rest in
      Ok (match item with Some y => y :: items | None => items end)
  end.

(** [str.strip()], [str.upper()] and [str.lower()] on ASCII text. *)
Definition is_space (c : ascii) : bool :=
  let n := nat_of_ascii c in
  ((9 <=? n)%nat && (n <=? 13)%nat) || ((28 <=? n)%nat && (n <=? 32)%nat).

Fixpoint lstrip (s : string) : string :=
  match s with
  | String c s' => if is_space c then lstrip s' else s
  | EmptyString => EmptyString
  end.

Fixpoint rstrip (s : string) : string :=
  match s with
  | String c s' =>
      match rstrip s' with
      | EmptyString => if is_space c then EmptyString else String c EmptyString
      | r => String c r
      end
  | EmptyString => EmptyString
  end.

Definition strip (s : string) : string := rstrip (lstrip s).

Definition upper_char (c : ascii) : ascii :=
  let n := nat_of_ascii c in
  if ((97 <=? n)%nat && (n <=? 122)%nat) then ascii_of_nat (n - 32) else c.

Definition lower_char (c : ascii) : ascii :=
  let n := nat_of_ascii c in
  if ((65 <=? n)%nat && (n <=? 90)%nat) then ascii_of_nat (n + 32) else c.

Fixpoint map_string (f : ascii -> ascii) (s : string) : string :=
  match s with
  | String c s' => String (f c) (map_string f s')
  | EmptyString => EmptyString
  end.

Definition upper : string -> string := map_string upper_char.
Definition lower : string -> string := map_string lower_char.

(** Comparisons of floats, as booleans. *)
Definition Qltb (x y : Q) : bool := negb (Qle_bool y x).
Definition Qgtb (x y : Q) : bool := Qltb y x.
Definition Qgeb (x y : Q) : bool := Qle_bool y x.

(** *** Arithmetic of floats

    A Python float is an IEEE 754 binary64 number, and a sum, a product or
    a quotient of floats is the exact result rounded to the nearest such
    number, ties going to the even significand.  [round_double] is that
    rounding on the rationals: the significand has 53 bits, the unit in the
    last place is never below [2 ^ -1074], and a result that rounds to
    [2 ^ 1024] or beyond is infinite.  Infinity is written [INFINITY], the
    rational [2 ^ 1024], which is above every double as infinity is. *)

(** [floor (log2 q)], for [q > 0]. *)
Definition Qlog2 (q : Q) : Z :=
  let e := Z.log2 (Qnum q) - Z.log2 (Zpos (Qden q)) in
  if Qle_bool (2 ^ e) q then e else e - 1.

(** The integer nearest to [m >= 0], the even one of two that are as near. *)
Definition round_half_even (m : Q) : Z :=
  let n := Qfloor m in
  match Qcompare (m - inject_Z n) (1 # 2) with
  | Lt => n
  | Gt => n + 1
  | Eq => if Z.even n then n else n + 1
  end.

Definition INFINITY : Q := 2 ^ 1024.

Definition round_double (q : Q) : Q :=
  match Qnum q with
  | 0 => 0
  | _ =>
      let a := Qabs q in
      let ulp := (2 ^ Z.max (Qlog2 a - 52) (-1074))%Q in
      let r := Qred (inject_Z (round_half_even (a / ulp)) * ulp) in
      let r := if Qle_bool INFINITY r then INFINITY else r in
      if Qnum q <? 0 then (- r)%Q else r
  end.

(** A number as an operand of float arithmetic: the float itself, or the
    float nearest to an int.  (An int beyond the range of floats, for which
    Python raises [OverflowError], is not a number of this model.) *)
Definition as_float (x : Q) : Q := round_double x.

(** [a + b], [a * b] and [a / b] on floats. *)
Definition fadd (a b : Q) : Q := round_double (a + b).
Definition fmul (a b : Q) : Q := round_double (a * b).
Definition fdiv (a b : Q) : Q := round_double (a / b).

(** [n / d] on ints: true division gives the float nearest to the exact
    quotient. *)
Definition truediv (n d : Z) : Q := round_double (inject_Z n / inject_Z d).

(** A loop that threads a state through the rows and stops at the first
    exception. *)
Fixpoint fold_rows {S A : Type} (step : S -> A -> result S) (st : S) (l : list A)
  : result S :=
  match l with
  | [] => Ok st
  | x :: rest => let* st' := step st x in fold_rows step st' rest
  end.

(** A dictionary comprehension [{row[0]: row for row in table}]: later rows
    overwrite earlier ones. *)
Definition dict_of_table (table : list (list string))
  : result (gmap string (list string)) :=
  fold_rows (fun d row => let* k := index row 0 in Ok (<[k := row]> d)) ∅ table.

End Py.
Import Py.

(** ** What the external libraries compute *)

Class Library : Type := {
  (** [dateutil.parser.parse(s)]; [None] when the parser raises. *)
  parser_parse : string -> option datetime;
  (** [pytz.timezone(name).localize(dt)]: the UTC offset the named zone
      assigns to a wall-clock reading.  The name is taken to be a zone
      pytz knows. *)
  pytz_utcoffset : string -> Z -> Z;
  (** [float(s)], as the rational that float is; [None] when it raises
      [ValueError]. *)
  float_of_str : string -> option Q;
  (** [dt.isoformat()]. *)
  isoformat : datetime -> string;
  (** [str(dt.year)], [dt.strftime('%m-%d')] and [dt.date().isoformat()]. *)
  year_str : datetime -> string;
  month_day_str : datetime -> string;
  date_isoformat : datetime -> string
}.

(** ** utils.py *)

Module utils.
Section utils.
Context `{Library}.

(** What callers pass as [tzsource]: [None], a zone name, a [datetime], or
    (as [pilots] and [violations] pass [takeoff.tzinfo]) a bare tzinfo
    object, which is neither a string nor has a [tzinfo] attribute. *)
Inductive tzsource : Type :=
  | NoSource
  | ZoneName (name : string)
  | FromDatetime (d : datetime)
  | TzInfoObject (off : Z).

Definition str_to_time (timestamp : string) (src : tzsource) : option datetime :=
  match parser_parse timestamp with
  | None => None
  | Some (Aware u off) => Some (Aware u off)
  | Some (Naive w) =>
      match src with
      | NoSource => Some (Naive w)
      | ZoneName name =>
          let off := pytz_utcoffset name w in Some (Aware (w - off) off)
      | FromDatetime (Aware _ off) => Some (replace_tzinfo (Naive w) (Some off))
      | FromDatetime (Naive _) => Some (Naive w)
      | TzInfoObject _ => Some (Naive w)
      end
  end.

(** [get_for_id]: the first row whose first cell is [id]. *)
Fixpoint get_for_id (id : string) (table : list (list string))
  : result (option (list string)) :=
  match table with
  | [] => Ok None
  | row :: rest =>
      let* k := index row 0 in
      if String.eqb k id then Ok (Some row) else get_for_id id rest
  end.

(** A valid day-cycle dictionary, as the docstring of [daytime] describes
    it: the zone name, and for each year and each ['mm-dd'] the sunrise and
    sunset strings (each may be missing). *)
Record daycycle_table : Type := {
  dc_timezone : option string;
  dc_years : gmap string (gmap string (option string * option string))
}.

(** The instant an aware datetime stands for. *)
Definition utc_of (d : datetime) : Z :=
  match d with
  | Naive w => w
  | Aware u _ => u
  end.

Definition daytime (time : option datetime) (daycycle : daycycle_table)
  : result (option bool) :=
  match time with
  | None => Raise AttributeError
  | Some time =>
      match dc_timezone daycycle with
      | None => Ok None
      | Some tzname =>
          match dc_years daycycle !! year_str time with
          | None => Ok None
          | Some days =>
              match days !! month_day_str time with
              | Some (Some sunrise_str, Some sunset_str) =>
                  let date_str := date_isoformat time in
                  let sunrise_iso := date_str ++ "T" ++ sunrise_str in
                  let sunset_iso := date_str ++ "T" ++ sunset_str in
                  match str_to_time sunrise_iso (ZoneName tzname),
                        str_to_time sunset_iso (ZoneName tzname) with
                  | Some sunrise, Some sunset =>
                      let t :=
                        match time with
                        | Naive w => w - pytz_utcoffset tzname w
                        | Aware u _ => u
                        end in
                      Ok (Some ((utc_of sunrise <? t) && (t <? utc_of sunset)))
                  | _, _ => Ok None
                  end
              | _ => Ok None
              end
          end
      end
  end.

End utils.
End utils.

(** ** pilots.py *)

Module pilots.
Section pilots.
Context `{Library}.

Definition PILOT_INVALID : Z := -1.
Definition PILOT_NOVICE : Z := 0.
Definition PILOT_STUDENT : Z := 1.
Definition PILOT_CERTIFIED : Z := 2.
Definition PILOT_50_HOURS : Z := 3.

(** [takeoff.tzinfo] handed to [utils.str_to_time]. *)
Definition tzsource_of (takeoff : datetime) : utils.tzsource :=
  match tzinfo takeoff with
  | None => utils.NoSource
  | Some off => utils.TzInfoObject off
  end.

(** The local helper of [get_certification].  [takeoff] may be [None] when a
    caller failed to parse it: [takeoff.tzinfo] then raises, but only once a
    non-empty date string is met. *)
Definition parse_date (takeoff : option datetime) (date_str : string)
  : result (option datetime) :=
  if String.eqb date_str "" then Ok None
  else
    match takeoff with
    | None => Raise AttributeError
    | Some tk =>
        match utils.str_to_time date_str (tzsource_of tk) with
        | Some (Naive w) => Ok (Some (replace_tzinfo (Naive w) (tzinfo tk)))
        | dt => Ok dt
        end
    end.

Definition get_certification (takeoff : option datetime) (student : list string)
  : result Z :=
  let* s_joined := index student 3 in
  let* joined := parse_date takeoff s_joined in
  let* s_solo := index student 4 in
  let* solo := parse_date takeoff s_solo in
  let* s_license := index student 5 in
  let* license := parse_date takeoff s_license in
  let* s_hours50 := index student 6 in
  let* hours50 := parse_date takeoff s_hours50 in
  (* if joined is None or takeoff < joined *)
  let* before := py_or (Ok (is_None joined)) (dt_lt takeoff joined) in
  if before then Ok PILOT_INVALID else
  let* c50 := py_and (Ok (is_not_None hours50)) (dt_ge takeoff hours50) in
  if c50 then Ok PILOT_50_HOURS else
  let* clic := py_and (Ok (is_not_None license)) (dt_ge takeoff license) in
  if clic then Ok PILOT_CERTIFIED else
  let* csolo := py_and (Ok (is_not_None solo)) (dt_ge takeoff solo) in
  if csolo then Ok PILOT_STUDENT else
  let* cjoin := py_and (Ok (is_not_None joined)) (dt_ge takeoff joined) in
  if cjoin then Ok PILOT_NOVICE else
  Ok PILOT_INVALID.

(** [has_instrument_rating], [has_advanced_endorsement] and
    [has_multiengine_endorsement] are the same body at three columns. *)
Definition has_dated_qualification (idx : nat) (takeoff : option datetime)
    (student : list string) : result bool :=
  let* date_str := index student idx in
  if String.eqb date_str "" then Ok false else
  match takeoff with
  | None => Raise AttributeError
  | Some tk =>
      match utils.str_to_time date_str (tzsource_of tk) with
      | None => Ok false
      | Some date =>
          match tzinfo date, tzinfo tk with
          | None, Some off => dt_ge (Some tk) (Some (replace_tzinfo date (Some off)))
          | Some off, None => dt_ge (Some (replace_tzinfo tk (Some off))) (Some date)
          | _, _ => dt_ge (Some tk) (Some date)
          end
      end
  end.

Definition has_instrument_rating := has_dated_qualification 7.
Definition has_advanced_endorsement := has_dated_qualification 8.
Definition has_multiengine_endorsement := has_dated_qualification 9.

(** The builtins [max] and [min] on a non-empty sequence: the first
    extremal element is kept. *)
Fixpoint max_from (cur : Q) (values : list Q) : Q :=
  match values with
  | [] => cur
  | x :: rest => max_from (if Qgtb x cur then x else cur) rest
  end.

Fixpoint min_from (cur : Q) (values : list Q) : Q :=
  match values with
  | [] => cur
  | x :: rest => min_from (if Qltb x cur then x else cur) rest
  end.

Definition py_max (values : list Q) : result Q :=
  match values with
  | [] => Raise ValueError
  | x :: rest => Ok (max_from x rest)
  end.

Definition py_min (values : list Q) : result Q :=
  match values with
  | [] => Raise ValueError
  | x :: rest => Ok (min_from x rest)
  end.

(** [float(s)]. *)
Definition to_float (s : string) : result Q :=
  match float_of_str s with
  | Some q => Ok q
  | None => Raise ValueError
  end.

Fixpoint column_values (data : list (list string)) (idx : nat) : result (list Q) :=
  match data with
  | [] => Ok []
  | row :: rest =>
      let* cell := index row idx in
      let* value := to_float cell in
      let* values := column_values rest idx in
      Ok (value :: values)
  end.

Definition get_best_value (data : list (list string)) (idx : nat) (maximum : bool)
  : result Q :=
  let* values := column_values data idx in
  if maximum then py_max values else py_min values.

Definition IDX_CATEGORY : nat := 0.
Definition IDX_CONDITIONS : nat := 1.
Definition IDX_AREA : nat := 2.
Definition IDX_TIME : nat := 3.
Definition IDX_CEILING : nat := 4.
Definition IDX_VISIBILITY : nat := 5.
Definition IDX_WIND : nat := 6.
Definition IDX_CROSSWIND : nat := 7.

Section get_minimums.
Variables (cert : Z) (area : string) (instructed vfr daytime : bool).

(** The four tests of the loop body of [get_minimums]; [false] is a
    [continue]. *)
Definition category_matches (cat : string) : bool :=
  if String.eqb cat "Dual" then instructed
  else if String.eqb cat "50 Hours" then cert =? PILOT_50_HOURS
  else if String.eqb cat "Certified" then negb (cert <? PILOT_CERTIFIED)
  else if String.eqb cat "Student" then negb (cert <? PILOT_STUDENT)
  else true.

Definition conditions_match (cond : string) : bool :=
  if vfr then String.eqb cond "VMC" else String.eqb cond "IMC".

Definition area_matches (area_val : string) : bool :=
  if String.eqb area_val "Any" then true
  else if String.eqb area_val "Local" then
    String.eqb area "Pattern" || String.eqb area "Practice Area"
    || String.eqb area "Local"
  else String.eqb area_val area.

Definition time_matches (time_val : string) : bool :=
  if daytime then String.eqb time_val "Day" else String.eqb time_val "Night".

(** One pass of the loop: is [row] appended to [matches]?  A cell is only
    read once the tests before it have passed. *)
Definition row_matches (row : list string) : result bool :=
  let* cat := index row IDX_CATEGORY in
  if negb (category_matches cat) then Ok false else
  let* cond := index row IDX_CONDITIONS in
  if negb (conditions_match cond) then Ok false else
  let* area_val := index row IDX_AREA in
  if negb (area_matches area_val) then Ok false else
  let* time_val := index row IDX_TIME in
  if negb (time_matches time_val) then Ok false else
  Ok true.

Fixpoint collect_matches (data : list (list string)) : result (list (list string)) :=
  match data with
  | [] => Ok []
  | row :: rest =>
      let* keep := row_matches row in
      let* matches := collect_matches rest in
      Ok (if keep then row :: matches else matches)
  end.

Definition get_minimums (minimums : list (list string)) : result (option (list Q)) :=
  let data := tail minimums in
  let* matches := collect_matches data in
  match matches with
  | [] => Ok None
  | _ =>
      let* ceiling := get_best_value matches IDX_CEILING false in
      let* visibility := get_best_value matches IDX_VISIBILITY false in
      let* wind := get_best_value matches IDX_WIND true in
      let* crosswind := get_best_value matches IDX_CROSSWIND true in
      Ok (Some [ceiling; visibility; wind; crosswind])
  end.

End get_minimums.

End pilots.
End pilots.

(** ** violations.py *)

Module violations.
Section violations.
Context `{Library}.

Definition bad_visibility (visibility : pyval) (minimum : Q) : result bool :=
  if is_str visibility "unavailable" then Ok true else
  match visibility with
  | PDict d =>
      let* value :=
        match dict_get d "minimum" with
        | Some PNone | None => subscript d "prevailing"
        | Some v => Ok v
        end in
      let* units := subscript d "units" in
      let* value :=
        if is_str units "FT"
        then (let* v := as_number value in Ok (PNum (v / 5280)))
        else Ok value in
      let* v := as_number value in
      Ok (Qltb v minimum)
  | _ => Ok true
  end.

(** The float that the literal [1.94384] denotes. *)
Definition MPS_TO_KT : Q := round_double (194384 # 100000).

Definition bad_winds (winds : pyval) (maxwind maxcross : Q) : result bool :=
  if is_str winds "calm" then Ok false else
  if is_str winds "unavailable" then Ok true else
  match winds with
  | PDict d =>
      let speed := default (PNum 0) (dict_get d "speed") in
      let gusts := default speed (dict_get d "gusts") in
      let crosswind := default (PNum 0) (dict_get d "crosswind") in
      let units := default (PStr "KT") (dict_get d "units") in
      let* converted :=
        if is_str units "MPS" then
          let* s := as_number speed in
          let* g := as_number gusts in
          let* c := as_number crosswind in
          Ok (PNum (fmul (as_float s) MPS_TO_KT),
              PNum (fmul (as_float g) MPS_TO_KT),
              PNum (fmul (as_float c) MPS_TO_KT))
        else Ok (speed, gusts, crosswind) in
      let '(speed, gusts, crosswind) := converted in
      (* max(speed, gusts), then the comparison with maxwind *)
      let* s := as_number speed in
      let* g := as_number gusts in
      let worst_wind := if Qgtb g s then g else s in
      py_or (Ok (Qgtb worst_wind maxwind))
            (let* c := as_number crosswind in Ok (Qgtb c maxcross))
  | _ => Ok true
  end.

(** The loop of [bad_ceiling] that gathers [relevant_heights]. *)
Fixpoint relevant_heights (ceiling : list pyval) : result (list pyval) :=
  match ceiling with
  | [] => Ok []
  | layer :: rest =>
      match layer with
      | PDict d =>
          let type := get_or_None d "type" in
          let keep :=
            (is_str type "broken" || is_str type "overcast"
             || is_str type "indefinite ceiling")
            && is_str (get_or_None d "units") "FT" in
          let* heights := relevant_heights rest in
          Ok (if keep then get_or_None d "height" :: heights else heights)
      | _ => Raise AttributeError
      end
  end.

Fixpoint as_numbers (values : list pyval) : result (list Q) :=
  match values with
  | [] => Ok []
  | v :: rest =>
      let* q := as_number v in
      let* qs := as_numbers rest in
      Ok (q :: qs)
  end.

Definition bad_ceiling (ceiling : pyval) (minimum : Q) : result bool :=
  if is_str ceiling "clear" then Ok false else
  if is_str ceiling "unavailable" then Ok true else
  match ceiling with
  | PList layers =>
      let* heights := relevant_heights layers in
      match heights with
      | [] => Ok false
      | _ =>
          (* min over the heights, then lowest < minimum: both need numbers *)
          let* qs := as_numbers heights in
          let* lowest := pilots.py_min qs in
          Ok (Qltb lowest minimum)
      end
  | _ => Ok true
  end.

(** The search loop of [get_weather_report]: the latest key strictly before
    [takeoff].  A key that does not parse, or whose comparison raises, is
    passed over. *)
Fixpoint closest_before (takeoff : datetime) (entries : list (string * pyval))
    (closest : option (datetime * string)) : option (datetime * string) :=
  match entries with
  | [] => closest
  | (key, _) :: rest =>
      let closest' :=
        match utils.str_to_time key (pilots.tzsource_of takeoff) with
        | None => closest
        | Some report_time =>
            match dt_lt (Some report_time) (Some takeoff) with
            | Ok true =>
                match closest with
                | None => Some (report_time, key)
                | Some (closest_time, _) =>
                    match dt_lt (Some closest_time) (Some report_time) with
                    | Ok true => Some (report_time, key)
                    | _ => closest
                    end
                end
            | _ => closest
            end
        end in
      closest_before takeoff rest closest'
  end.

Definition get_weather_report (takeoff : datetime) (weather : list (string * pyval))
  : pyval :=
  match dict_get weather (isoformat takeoff) with
  | Some report => report
  | None =>
      match closest_before takeoff weather None with
      | Some (_, closest_key) => get_or_None weather closest_key
      | None => PNone
      end
  end.

(** The unpacking [a, b, c, d = minimums]. *)
Definition unpack4 (minimums : option (list Q)) : result (Q * Q * Q * Q) :=
  match minimums with
  | None => Raise TypeError
  | Some [a; b; c; d] => Ok (a, b, c, d)
  | Some _ => Raise ValueError
  end.

(** The result is a string, or [None] when the function falls off its end. *)
Definition get_weather_violation (weather : pyval) (minimums : option (list Q))
  : result (option string) :=
  match weather with
  | PNone => Ok (Some "Unknown")
  | _ =>
      let* mins := unpack4 minimums in
      let '(min_ceiling, min_visibility, max_wind, max_crosswind) := mins in
      match weather with
      | PDict w =>
          let* vis := bad_visibility (get_or_None w "visibility") min_visibility in
          let* wind := bad_winds (get_or_None w "wind") max_wind max_crosswind in
          let* ceil := bad_ceiling (get_or_None w "sky") min_ceiling in
          let count := (Nat.b2n vis + Nat.b2n wind + Nat.b2n ceil)%nat in
          if (count =? 0)%nat then Ok (Some "")
          else if (1 <? count)%nat then Ok (Some "Weather")
          else if vis then Ok (Some "Visibility")
          else if wind then Ok (Some "Winds")
          else if ceil then Ok (Some "Ceiling")
          else Ok None
      | _ => Raise AttributeError
      end
  end.

Section list_weather_violations.
(** The five files of the audited directory, as [utils.read_csv] and
    [utils.read_json] return them. *)
Variables (lessons students minimums : list (list string)).
Variable weather : list (string * pyval).
Variable daycycle : utils.daycycle_table.

(** One pass of the loop; [None] is a pass that appends nothing. *)
Definition weather_pass (lesson : list string) : result (option (list string)) :=
  if (length lesson <? 7)%nat then Ok None else
  let* student_id := index lesson 0 in
  let* takeoff_str := index lesson 3 in
  let* filed := index lesson 5 in
  let* area := index lesson 6 in
  let* student_row := utils.get_for_id student_id students in
  match student_row with
  | None => Ok None
  | Some student_row =>
      let timezone := default "UTC" (utils.dc_timezone daycycle) in
      let takeoff := utils.str_to_time takeoff_str (utils.ZoneName timezone) in
      let* instructor_id := index lesson 2 in
      let instructed := negb (String.eqb instructor_id "") in
      let vfr := String.eqb (upper (strip filed)) "VFR" in
      let* daytime := utils.daytime takeoff daycycle in
      let* cert := pilots.get_certification takeoff student_row in
      let* mins :=
        pilots.get_minimums cert area instructed vfr (default false daytime)
          minimums in
      let weather_report :=
        match takeoff with
        | Some tk => get_weather_report tk weather
        | None => PNone
        end in
      let* violation := get_weather_violation weather_report mins in
      match violation with
      | Some label =>
          if String.eqb label "" then Ok None else Ok (Some (lesson ++ [label])%list)
      | None => Ok None
      end
  end.

Definition list_weather_violations : result (list (list string)) :=
  for_each weather_pass (tail lessons).

End list_weather_violations.

End violations.
End violations.

(** ** endorsements.py *)

Module endorsements.
Section endorsements.
Context `{Library}.

(** An instructor argument is [None] (an id that is not in the table), the
    empty list (no instructor on the lesson) or a row. *)
Definition yes_at (idx : nat) (row : option (list string)) : result bool :=
  match row with
  | None => Raise TypeError
  | Some r => let* cell := index r idx in Ok (String.eqb (upper (strip cell)) "YES")
  end.

Definition teaches_multiengine (instructor : option (list string)) : result bool :=
  yes_at 5 instructor.

Definition teaches_instrument (instructor : option (list string)) : result bool :=
  yes_at 4 instructor.

Definition is_advanced (plane : list string) : result bool := yes_at 3 (Some plane).

Definition is_multiengine (plane : list string) : result bool := yes_at 4 (Some plane).

Definition is_ifr_capable (plane : list string) : result bool :=
  let* cell := index plane 2 in Ok (String.eqb (upper (strip cell)) "IFR").

(** [instructor is not None and instructor != []]. *)
Definition has_instructor (instructor : option (list string)) : bool :=
  match instructor with
  | None | Some [] => false
  | Some _ => true
  end.

Definition not_ (b : result bool) : result bool := let* x := b in Ok (negb x).

Definition bad_endorsement (takeoff : option datetime) (student : list string)
    (instructor : option (list string)) (plane : list string) : result bool :=
  if has_instructor instructor then
    py_and (is_multiengine plane) (not_ (teaches_multiengine instructor))
  else
    let* multi :=
      py_and (is_multiengine plane)
             (not_ (pilots.has_multiengine_endorsement takeoff student)) in
    if multi then Ok true else
    py_and (is_advanced plane)
           (not_ (pilots.has_advanced_endorsement takeoff student)).

Definition bad_ifr (takeoff : option datetime) (student : list string)
    (instructor : option (list string)) (plane : list string) : result bool :=
  let* capable := is_ifr_capable plane in
  if negb capable then Ok true else
  if has_instructor instructor then not_ (teaches_instrument instructor)
  else not_ (pilots.has_instrument_rating takeoff student).

(** The annotation chosen from the three flags; [None] is the [continue]. *)
Definition annotate (solo endorsement ifr : bool) : option string :=
  if solo && (endorsement || ifr) then Some "Credentials"
  else if solo then Some "Solo"
  else if endorsement then Some "Endorsement"
  else if ifr then Some "IFR"
  else None.

Section list_endorsement_violations.
Variables (lessons students instructors planes : list (list string)).

Section pass.
Variables (student_dict instructor_dict plane_dict : gmap string (list string)).

Definition endorsement_pass (lesson : list string)
  : result (option (list string)) :=
  let* student_id := index lesson 0 in
  let* plane_id := index lesson 1 in
  let* instructor_id :=
    if (2 <? length lesson)%nat
    then (let* c := index lesson 2 in Ok (strip c)) else Ok "" in
  let* takeoff_str := index lesson 3 in
  let takeoff := utils.str_to_time takeoff_str utils.NoSource in
  let student := student_dict !! student_id in
  let instructor :=
    if String.eqb instructor_id "" then Some [] else instructor_dict !! instructor_id in
  let plane := plane_dict !! plane_id in
  match student, plane with
  | Some student, Some plane =>
      let* solo :=
        match instructor with
        | Some [] =>
            let* cert := pilots.get_certification takeoff student in
            Ok (cert <? pilots.PILOT_STUDENT)
        | _ => Ok false
        end in
      let* endorsement := bad_endorsement takeoff student instructor plane in
      let* ifr :=
        let* filed := index lesson 5 in
        py_and (Ok (String.eqb (upper (strip filed)) "IFR"))
               (bad_ifr takeoff student instructor plane) in
      Ok (match annotate solo endorsement ifr with
          | Some annotation => Some (lesson ++ [annotation])%list
          | None => None
          end)
  | _, _ => Ok None
  end.

End pass.

Definition list_endorsement_violations : result (list (list string)) :=
  let* student_dict := dict_of_table students in
  let* instructor_dict := dict_of_table instructors in
  let* plane_dict := dict_of_table planes in
  for_each (endorsement_pass student_dict instructor_dict plane_dict) lessons.

End list_endorsement_violations.

End endorsements.
End endorsements.

(** ** inspections.py *)

Module inspections.
Section inspections.
Context `{Library}.

(** Every datetime of this module comes out of
    [utils.str_to_time(_, timezone)] with [timezone] a zone name, so it is
    aware or [None] (lemma [str_to_time_zone_aware] below).  Aware datetimes
    compare and subtract by UTC instant, hence the module works on instants,
    in microseconds. *)
Abbreviation instant := Z (only parsing).

Definition MICROSECONDS_PER_DAY : Z := 86400000000.

Definition str_to_instant (timestamp timezone : string) : option instant :=
  option_map utils.utc_of (utils.str_to_time timestamp (utils.ZoneName timezone)).

(** Ordering of two values that are an instant or [None]. *)
Definition compare_with (test : Z -> Z -> bool) (a b : option instant)
  : result bool :=
  match a, b with
  | Some x, Some y => Ok (test x y)
  | _, _ => Raise TypeError
  end.
Definition ge := compare_with Z.geb.
Definition gt := compare_with Z.gtb.
Definition le := compare_with Z.leb.
Definition lt := compare_with Z.ltb.

Inductive event_type : Type := lesson_event | annual_event | repair_event.

(** The per-plane dictionary built from fleet.csv and repairs.csv. *)
Record plane : Type := {
  last_annual : option instant;
  hours_since_100 : Q;
  in_shop_periods : list (option instant * option instant);
  repairs : list (event_type * option instant)
}.

(** The tuple [(tail, time, etype, lesson, landing)]. *)
Record event : Type := {
  ev_tail : string;
  ev_time : option instant;
  ev_type : event_type;
  ev_lesson : list string;
  ev_landing : option instant
}.

(** The two dictionaries the replay updates. *)
Record replay_state : Type := {
  current_annual : gmap string (option instant);
  current_hours : gmap string Q
}.

(** *** The three checks of a lesson event *)

(** Is the flight inside one shop period? *)
Definition in_shop (time landing : option instant)
    (period : option instant * option instant) : result bool :=
  let '(in_date, out_date) := period in
  py_and (Ok (is_not_None in_date))
    (py_and (Ok (is_not_None out_date))
       (py_or (py_and (ge time in_date) (lt time out_date))
          (py_or (py_and (gt landing in_date) (le landing out_date))
                 (py_and (le time in_date) (ge landing out_date))))).

(** The loop over [in_shop_periods], which breaks at the first hit. *)
Fixpoint check_grounded (time landing : option instant)
    (periods : list (option instant * option instant)) : result bool :=
  match periods with
  | [] => Ok false
  | period :: rest =>
      let* hit := in_shop time landing period in
      if hit then Ok true else check_grounded time landing rest
  end.

(** [(time - annual).days] *)
Definition days_between (time annual : instant) : Z :=
  (time - annual) / MICROSECONDS_PER_DAY.

Definition check_annual (time : option instant) (annual : option instant)
  : result bool :=
  match annual with
  | None => Ok false
  | Some a =>
      match time with
      | None => Raise TypeError
      | Some t => Ok (365 <? days_between t a)
      end
  end.

(** [timedelta.total_seconds()]: the microseconds of the difference, an
    int, divided by [10**6]. *)
Definition total_seconds (microseconds : Z) : Q := truediv microseconds 1000000.

(** [(landing - time).total_seconds() / 3600.0 if landing and time else 0.0] *)
Definition duration_hours (time landing : option instant) : Q :=
  match landing, time with
  | Some l, Some t => fdiv (total_seconds (l - t)) 3600
  | _, _ => 0
  end.

Definition check_inspection (hours duration : Q) : bool :=
  Qgeb hours 100 || (Qltb hours 100 && Qgtb (fadd hours duration) 100).

Definition annotate (annual inspection grounded : bool) : option string :=
  let annots :=
    ((if annual then ["Annual"] else [])
     ++ (if inspection then ["Inspection"] else [])
     ++ (if grounded then ["Grounded"] else []))%list in
  match annots with
  | [] => None
  | [a] => Some a
  | _ => Some "Maintenance"
  end.

(** [d[k]] on the dictionaries keyed by tail number. *)
Definition lookup_tail {V : Type} (d : gmap string V) (tail : string) : result V :=
  match d !! tail with
  | Some v => Ok v
  | None => Raise KeyError
  end.

(** *** One pass of the replay loop

    The result is the updated state and the row appended to [violations],
    if any. *)
Definition replay_event (plane_state : gmap string plane) (st : replay_state)
    (ev : event) : result (replay_state * option (list string)) :=
  let tail := ev_tail ev in
  let time := ev_time ev in
  match ev_type ev with
  | lesson_event =>
      let landing := ev_landing ev in
      let* p := lookup_tail plane_state tail in
      let* grounded := check_grounded time landing (in_shop_periods p) in
      let* last := lookup_tail (current_annual st) tail in
      let* annual := check_annual time last in
      let duration := duration_hours time landing in
      let* hours := lookup_tail (current_hours st) tail in
      let inspection := check_inspection hours duration in
      let appended :=
        match annotate annual inspection grounded with
        | Some annotation => Some (ev_lesson ev ++ [annotation])%list
        | None => None
        end in
      Ok ({| current_annual := current_annual st;
             current_hours := <[tail := fadd hours duration]> (current_hours st) |},
          appended)
  | annual_event =>
      Ok ({| current_annual := <[tail := time]> (current_annual st);
             current_hours := <[tail := 0%Q]> (current_hours st) |}, None)
  | repair_event =>
      Ok ({| current_annual := current_annual st;
             current_hours := <[tail := 0%Q]> (current_hours st) |}, None)
  end.

Fixpoint replay (plane_state : gmap string plane) (st : replay_state)
    (events : list event) : result (list (list string)) :=
  match events with
  | [] => Ok []
  | ev :: rest =>
      let* r := replay_event plane_state st ev in
      let '(st', appended) := r in
      let* violations := replay plane_state st' rest in
      Ok (match appended with Some row => row :: violations | None => violations end)
  end.

(** *** The timeline and its sort *)

(** [a < b] on the sort keys [(tail, time)]: tuples are ordered by their
    first differing component. *)
Definition key_lt (a b : event) : result bool :=
  if negb (String.eqb (ev_tail a) (ev_tail b))
  then Ok (String.ltb (ev_tail a) (ev_tail b))
  else
    match ev_time a, ev_time b with
    | None, None => Ok false
    | Some x, Some y => Ok (x <? y)
    | _, _ => Raise TypeError
    end.

(** [list.sort] is stable.  Where every two keys are comparable its result is
    the one stable ordering of the list, which straight insertion computes;
    where a time failed to parse, which comparisons Python makes (and so
    whether it raises) depends on its merge strategy, and the model raises
    whenever insertion meets such a pair. *)
Fixpoint insert_event (ev : event) (sorted : list event) : result (list event) :=
  match sorted with
  | [] => Ok [ev]
  | y :: rest =>
      let* y_first := key_lt y ev in
      if y_first
      then (let* rest' := insert_event ev rest in Ok (y :: rest'))
      else Ok (ev :: y :: rest)
  end.

Fixpoint sort_events (events : list event) : result (list event) :=
  match events with
  | [] => Ok []
  | ev :: rest =>
      let* sorted := sort_events rest in
      insert_event ev sorted
  end.

Section list_inspection_violations.
(** The files of the audited directory, headers included, and the zone name
    [daycycle.get('timezone', 'UTC')]. *)
Variables (lessons_csv planes_csv repairs_csv : list (list string)).
Variable timezone : string.

Definition add_plane (plane_state : gmap string plane) (row : list string)
  : result (gmap string plane) :=
  let* tail := index row 0 in
  let* annual_str := index row 5 in
  let last_annual := str_to_instant annual_str timezone in
  let* hours_str := index row 6 in
  let* hours_since_100 :=
    if String.eqb hours_str "" then Ok 0%Q else pilots.to_float hours_str in
  Ok (<[tail := {| last_annual := last_annual;
                   hours_since_100 := hours_since_100;
                   in_shop_periods := [];
                   repairs := [] |}]> plane_state).

Definition add_repair (plane_state : gmap string plane) (row : list string)
  : result (gmap string plane) :=
  let* tail := index row 0 in
  let* in_str := index row 1 in
  let in_date := str_to_instant in_str timezone in
  let* out_str := index row 2 in
  let out_date := str_to_instant out_str timezone in
  let* desc_raw := index row 3 in
  let desc := lower (strip desc_raw) in
  match plane_state !! tail with
  | Some p =>
      let etype :=
        if String.eqb desc "annual inspection" then annual_event else repair_event in
      Ok (<[tail := {| last_annual := last_annual p;
                       hours_since_100 := hours_since_100 p;
                       in_shop_periods :=
                         (in_shop_periods p ++ [(in_date, out_date)])%list;
                       repairs := (repairs p ++ [(etype, in_date)])%list |}]>
            plane_state)
  | None => Ok plane_state
  end.

Definition lesson_to_event (lesson : list string) : result event :=
  let* tail := index lesson 1 in
  let* takeoff_str := index lesson 3 in
  let* landing_str := index lesson 4 in
  Ok {| ev_tail := tail;
        ev_time := str_to_instant takeoff_str timezone;
        ev_type := lesson_event;
        ev_lesson := lesson;
        ev_landing := str_to_instant landing_str timezone |}.

Fixpoint lesson_events (rows : list (list string)) : result (list event) :=
  match rows with
  | [] => Ok []
  | lesson :: rest =>
      let* ev := lesson_to_event lesson in
      let* evs := lesson_events rest in
      Ok (ev :: evs)
  end.

(** The tails of [plane_state] in the order [plane_state.items()] visits
    them: by first insertion. *)
Fixpoint first_occurrences (seen tails : list string) : list string :=
  match tails with
  | [] => []
  | tail :: rest =>
      if bool_decide (tail ∈ seen) then first_occurrences seen rest
      else tail :: first_occurrences (tail :: seen) rest
  end.

Definition tails_in_order (rows : list (list string)) : list string :=
  first_occurrences [] (omap (fun row => row !! 0%nat) rows).

Definition repair_events (plane_state : gmap string plane) (tails : list string)
  : list event :=
  flat_map
    (fun tail =>
       match plane_state !! tail with
       | Some p =>
           map (fun rep : event_type * option instant =>
                  {| ev_tail := tail; ev_time := snd rep; ev_type := fst rep;
                     ev_lesson := []; ev_landing := None |})
               (repairs p)
       | None => []
       end)
    tails.

Definition initial_state (plane_state : gmap string plane) : replay_state :=
  {| current_annual := last_annual <$> plane_state;
     current_hours := hours_since_100 <$> plane_state |}.

Definition list_inspection_violations : result (list (list string)) :=
  let* plane_state := fold_rows add_plane ∅ (tail planes_csv) in
  let* plane_state := fold_rows add_repair plane_state (tail repairs_csv) in
  let* from_lessons := lesson_events (tail lessons_csv) in
  let events :=
    (from_lessons ++ repair_events plane_state (tails_in_order (tail planes_csv)))%list in
  let* events := sort_events events in
  replay plane_state (initial_state plane_state) events.

End list_inspection_violations.

End inspections.
End inspections.

(** ** app.py *)

Module app.
Section app.
Context `{Library}.

(** The files of an audited directory, as [utils.read_csv] and
    [utils.read_json] return them. *)
Record directory : Type := {
  lessons_file : list (list string);
  students_file : list (list string);
  instructors_file : list (list string);
  fleet_file : list (list string);
  repairs_file : list (list string);
  minimums_file : list (list string);
  weather_file : list (string * pyval);
  daycycle_file : utils.daycycle_table
}.

(** What [discover_violations] leaves behind: the table handed to
    [utils.write_csv] (when an output file is named) and the line it
    prints. *)
Record report : Type := {
  written : option (list (list string));
  printed : string
}.

Definition HEADER : list string :=
  ["STUDENT"; "AIRPLANE"; "INSTRUCTOR"; "TAKEOFF"; "LANDING"; "FILED"; "AREA";
   "REASON"].

Definition discover_violations (dir : directory) (output : option string)
  : result report :=
  let* weather :=
    violations.list_weather_violations (lessons_file dir) (students_file dir)
      (minimums_file dir) (weather_file dir) (daycycle_file dir) in
  let* inspection :=
    inspections.list_inspection_violations (lessons_file dir) (fleet_file dir)
      (repairs_file dir)
      (default "UTC" (utils.dc_timezone (daycycle_file dir))) in
  let* endorsement :=
    endorsements.list_endorsement_violations (lessons_file dir)
      (students_file dir) (instructors_file dir) (fleet_file dir) in
  let all_violations := (weather ++ inspection ++ endorsement)%list in
  Ok {| written :=
          match output with
          | Some _ => Some (HEADER :: all_violations)
          | None => None
          end;
        printed :=
          match length all_violations with
          | O => "No violations found."
          | 1%nat => "1 violation found."
          | n => pretty n ++ " violations found."
          end |}.

(** What [execute] does with the command line: it runs the test suite,
    audits a data set (writing to the named file, if any), or prints the
    usage line. *)
Inductive action : Type :=
  | run_tests
  | audit (dataset : string) (output : option string)
  | usage.

Definition execute (args : list string) : action :=
  match args with
  | [a] => if String.eqb a "--test" then run_tests else audit a None
  | [a; b] =>
      if existsb (String.eqb "--test") args then usage else audit a (Some b)
  | _ => usage
  end.

End app.
End app.

(** * The vocabulary of the claims

    The notions the statements below are written in: what it is for a
    qualification date to be met, for a measurement to be valid, for a value
    to be the least of a column, for a flight to overlap a shop period, for
    an identifier to be unknown. *)

Section vocabulary.
Context `{Library}.

(** A qualification date is met at the aware instant [(t, off)] when the cell
    is not empty, parses, and is not after the instant; a date without a zone
    is read in the zone of the takeoff. *)
Definition threshold_met (t off : Z) (date_str : string) : bool :=
  if String.eqb date_str "" then false else
  match parser_parse date_str with
  | None => false
  | Some (Aware u _) => u <=? t
  | Some (Naive w) => w - off <=? t
  end.

(** The tier, read off the four thresholds. *)
Definition tier_of (joined solo license hours50 : bool) : Z :=
  if negb joined then pilots.PILOT_INVALID
  else if hours50 then pilots.PILOT_50_HOURS
  else if license then pilots.PILOT_CERTIFIED
  else if solo then pilots.PILOT_STUDENT
  else pilots.PILOT_NOVICE.

(** The cell of a row, for stating facts about rows that are long enough. *)
Definition cell (row : list string) (i : nat) : string := default "" (row !! i).

(** Valid measurements, as the docstrings of the three sub-checks describe
    them. *)
Definition is_float (v : option pyval) : bool :=
  match v with Some (PNum _) => true | _ => false end.

Definition optional_float (v : option pyval) : bool :=
  match v with None | Some (PNum _) => true | _ => false end.

Definition one_of (v : option pyval) (names : list string) : bool :=
  match v with
  | Some (PStr s) => existsb (String.eqb s) names
  | _ => false
  end.

Definition valid_visibility (v : pyval) : bool :=
  match v with
  | PStr s => String.eqb s "unavailable"
  | PDict d =>
      is_float (dict_get d "prevailing") && one_of (dict_get d "units") ["FT"; "SM"]
      && optional_float (dict_get d "minimum")
      && optional_float (dict_get d "maximum")
  | _ => false
  end.

Definition valid_winds (v : pyval) : bool :=
  match v with
  | PStr s => String.eqb s "calm" || String.eqb s "unavailable"
  | PDict d =>
      is_float (dict_get d "speed") && one_of (dict_get d "units") ["KT"; "MPS"]
      && optional_float (dict_get d "gusts")
      && optional_float (dict_get d "crosswind")
  | _ => false
  end.

Definition valid_layer (v : pyval) : bool :=
  match v with
  | PDict d =>
      one_of (dict_get d "type")
        ["a few"; "scattered"; "broken"; "overcast"; "indefinite ceiling"]
      && is_float (dict_get d "height") && one_of (dict_get d "units") ["FT"]
  | _ => false
  end.

Definition valid_ceiling (v : pyval) : bool :=
  match v with
  | PStr s => String.eqb s "clear" || String.eqb s "unavailable"
  | PList layers => forallb valid_layer layers
  | _ => false
  end.

Definition valid_weather (w : list (string * pyval)) : bool :=
  valid_visibility (get_or_None w "visibility")
  && valid_winds (get_or_None w "wind")
  && valid_ceiling (get_or_None w "sky").

(** The label the combinator picks from the three flags. *)
Definition weather_label (vis wind ceil : bool) : string :=
  match vis, wind, ceil with
  | false, false, false => ""
  | true, false, false => "Visibility"
  | false, true, false => "Winds"
  | false, false, true => "Ceiling"
  | _, _, _ => "Weather"
  end.

(** The least and the greatest of a column of floats. *)
Definition least (m : Q) (values : list Q) : Prop :=
  In m values /\ Forall (fun y => (m <= y)%Q) values.

Definition greatest (m : Q) (values : list Q) : Prop :=
  In m values /\ Forall (fun y => (y <= m)%Q) values.

(** A policy row as the table has it: eight cells, of which the last four
    read as floats. *)
Definition policy_row (row : list string) : Prop :=
  length row = 8%nat /\
  forall i : nat, (4 <= i < 8)%nat -> is_Some (float_of_str (cell row i)).

(** The float a cell of a policy row reads as. *)
Definition float_cell (i : nat) (row : list string) : Q :=
  default 0%Q (float_of_str (cell row i)).

(** A row is a candidate when it matches on all four of category,
    conditions, area and time. *)
Definition matches_all_four (cert : Z) (area : string)
    (instructed vfr daytime : bool) (row : list string) : bool :=
  pilots.category_matches cert instructed (cell row 0)
  && pilots.conditions_match vfr (cell row 1)
  && pilots.area_matches area (cell row 2)
  && pilots.time_matches daytime (cell row 3).

(** The overlap test of one shop period, on instants. *)
Definition overlap_test (t l i o : Z) : bool :=
  ((i <=? t) && (t <? o)) || ((i <? l) && (l <=? o)) || ((t <=? i) && (o <=? l)).

(** [a] may stand before [b] in the sorted timeline. *)
Definition key_le (a b : inspections.event) : Prop :=
  inspections.key_lt b a = Ok false.

(** An event whose time was parsed. *)
Definition timed (ev : inspections.event) : Prop := is_Some (inspections.ev_time ev).

(** No row of the table carries the identifier. *)
Definition unknown_id (id : string) (table : list (list string)) : Prop :=
  Forall (fun row => row !! 0%nat <> Some id) table.

End vocabulary.

(** * A concrete data set

    The library functions on the handful of strings the examples use.  All
    timestamps are January dates in the zone America/New_York (UTC-05:00);
    instants are microseconds since 1970-01-01T00:00:00Z. *)

Module Fixture.

Definition EST : Z := -18000000000.

(** What [dateutil.parser.parse] returns on the timestamps of the examples. *)
Definition timestamps : list (string * datetime) :=
  [ ("2015-01-01T00:00:00-05:00", Aware 1420088400000000 EST);
    ("2016-01-01T00:00:00-05:00", Aware 1451624400000000 EST);
    ("2017-01-01T00:00:00-05:00", Aware 1483246800000000 EST);
    ("2017-01-08T09:00:00-05:00", Aware 1483884000000000 EST);
    ("2017-01-08T11:00:00-05:00", Aware 1483891200000000 EST);
    ("2017-01-08T07:20", Naive 1483860000000000);
    ("2017-01-08T16:50", Naive 1483894200000000);
    ("2017-01-08T09:10:00-05:00", Aware 1483884600000000 EST);
    ("2017-01-08T09:20:00-05:00", Aware 1483885200000000 EST);
    ("2017-01-08T09:30:00-05:00", Aware 1483885800000000 EST) ].

Fixpoint assoc {A : Type} (k : string) (l : list (string * A)) : option A :=
  match l with
  | [] => None
  | (k', v) :: rest => if String.eqb k' k then Some v else assoc k rest
  end.

Definition same_datetime (a b : datetime) : bool :=
  match a, b with
  | Naive x, Naive y => x =? y
  | Aware x o, Aware y o' => (x =? y) && (o =? o')
  | _, _ => false
  end.

Fixpoint written_as (d : datetime) (l : list (string * datetime)) : string :=
  match l with
  | [] => ""
  | (s, d') :: rest => if same_datetime d d' then s else written_as d rest
  end.

(** [float] on plain decimal numerals such as "2000" and "0.75". *)
Definition digit (c : ascii) : option Z :=
  let n := Z.of_nat (nat_of_ascii c) in
  if (48 <=? n) && (n <=? 57) then Some (n - 48) else None.

Fixpoint decimal (s : string) (num : Z) (den : positive) (frac : bool) : option Q :=
  match s with
  | EmptyString => Some (num # den)
  | String "." s' => if frac then None else decimal s' num den true
  | String c s' =>
      match digit c with
      | Some k => decimal s' (10 * num + k) (if frac then 10 * den else den)%positive frac
      | None => None
      end
  end.

Definition float_of_decimal (s : string) : option Q :=
  match s with
  | EmptyString => None
  | _ => decimal s 0 1 false
  end.

#[export] Instance library : Library := {|
  parser_parse s := assoc s timestamps;
  pytz_utcoffset _ _ := EST;
  float_of_str := float_of_decimal;
  isoformat d := written_as d timestamps;
  year_str d := substring 0 4 (written_as d timestamps);
  month_day_str d := substring 5 5 (written_as d timestamps);
  date_isoformat d := substring 0 10 (written_as d timestamps)
|}.

Definition lessons_header : list string :=
  ["STUDENT"; "AIRPLANE"; "INSTRUCTOR"; "TAKEOFF"; "LANDING"; "FILED"; "AREA"].

Definition students : list (list string) :=
  [ ["ID"; "LASTNAME"; "FIRSTNAME"; "JOINED"; "SOLO"; "LICENSE"; "50 HOURS";
     "INSTRUMENT"; "ADVANCED"; "MULTIENGINE"];
    ["S00001"; "Doe"; "Jane"; "2016-01-01T00:00:00-05:00"; ""; ""; ""; ""; ""; ""];
    ["S00002"; "Poe"; "John"; "2015-01-01T00:00:00-05:00";
     "2016-01-01T00:00:00-05:00"; ""; ""; ""; ""; ""] ].

Definition instructors : list (list string) :=
  [ ["ID"; "LASTNAME"; "FIRSTNAME"; "CFI"; "CFII"; "MEI"];
    ["I077"; "Roe"; "Rick"; "Yes"; "No"; "No"] ].

Definition fleet : list (list string) :=
  [ ["TAILNO"; "TYPE"; "CAPABILITY"; "ADVANCED"; "MULTIENGINE"; "ANNUAL"; "HOURS"];
    ["548QR"; "Cessna 172"; "VFR"; "No"; "No"; "2015-01-01T00:00:00-05:00"; "12.5"];
    ["446BU"; "Piper Seminole"; "IFR"; "Yes"; "Yes";
     "2016-01-01T00:00:00-05:00"; "10"] ].

Definition repairs : list (list string) :=
  [ ["TAILNO"; "IN-DATE"; "OUT-DATE"; "DESCRIPTION"] ].

(** The table of the docstring of [get_minimums]. *)
Definition minimums : list (list string) :=
  [ ["CATEGORY"; "CONDITIONS"; "AREA"; "TIME"; "CEILING"; "VISIBILITY"; "WIND";
     "CROSSWIND"];
    ["Student"; "VMC"; "Pattern"; "Day"; "2000"; "5"; "20"; "8"];
    ["Student"; "VMC"; "Practice Area"; "Day"; "3000"; "10"; "20"; "8"];
    ["Certified"; "VMC"; "Local"; "Day"; "3000"; "5"; "20"; "20"];
    ["Certified"; "VMC"; "Practice Area"; "Night"; "3000"; "10"; "20"; "10"];
    ["50 Hours"; "VMC"; "Local"; "Day"; "3000"; "10"; "20"; "10"];
    ["Dual"; "VMC"; "Any"; "Day"; "2000"; "10"; "30"; "10"];
    ["Dual"; "IMC"; "Any"; "Day"; "500"; "0.75"; "30"; "20"] ].

Definition fair_weather : list (string * pyval) :=
  [ ("visibility", PDict [("prevailing", PNum 10); ("units", PStr "SM")]);
    ("wind", PStr "calm");
    ("sky", PStr "clear") ].

Definition weather : list (string * pyval) :=
  [ ("2017-01-08T09:00:00-05:00", PDict fair_weather) ].

Definition fog : list (string * pyval) :=
  [ ("2017-01-08T09:00:00-05:00",
     PDict [ ("visibility", PDict [("prevailing", PNum (1 # 2)); ("units", PStr "SM")]);
             ("wind", PStr "calm");
             ("sky", PStr "clear") ]) ].

Definition daycycle : utils.daycycle_table :=
  {| utils.dc_timezone := Some "America/New_York";
     utils.dc_years :=
       {[ "2017" := {[ "01-08" := (Some "07:20", Some "16:50") ]} ]} |}.

(** A novice flying alone; a lesson booked under an identifier that is not
    in the students table; a solo lesson on a tail number that is not in the
    fleet table; a dual IFR lesson on the multiengine aircraft. *)
Definition novice_alone : list string :=
  ["S00001"; "548QR"; ""; "2017-01-08T09:00:00-05:00";
   "2017-01-08T11:00:00-05:00"; "VFR"; "Pattern"].

Definition unknown_student : list string :=
  ["S99999"; "548QR"; ""; "2017-01-08T09:00:00-05:00";
   "2017-01-08T11:00:00-05:00"; "VFR"; "Pattern"].

Definition unknown_tail : list string :=
  ["S00002"; "999ZZ"; ""; "2017-01-08T09:00:00-05:00";
   "2017-01-08T11:00:00-05:00"; "VFR"; "Pattern"].

Definition dual_ifr : list string :=
  ["S00002"; "446BU"; "I077"; "2017-01-08T09:00:00-05:00";
   "2017-01-08T11:00:00-05:00"; "IFR"; "Pattern"].

(** Three lessons of ten minutes, one after the other, on an aircraft that
    starts the audit at 99.5 hours, a week after its annual inspection. *)
Definition first_hop : list string :=
  ["S00002"; "446BU"; "I077"; "2017-01-08T09:00:00-05:00";
   "2017-01-08T09:10:00-05:00"; "VFR"; "Pattern"].
Definition second_hop : list string :=
  ["S00002"; "446BU"; "I077"; "2017-01-08T09:10:00-05:00";
   "2017-01-08T09:20:00-05:00"; "VFR"; "Pattern"].
Definition third_hop : list string :=
  ["S00002"; "446BU"; "I077"; "2017-01-08T09:20:00-05:00";
   "2017-01-08T09:30:00-05:00"; "VFR"; "Pattern"].

Definition fleet_with_hours (hours : string) : list (list string) :=
  [ ["TAILNO"; "TYPE"; "CAPABILITY"; "ADVANCED"; "MULTIENGINE"; "ANNUAL"; "HOURS"];
    ["446BU"; "Piper Seminole"; "IFR"; "Yes"; "Yes";
     "2017-01-01T00:00:00-05:00"; hours] ].

Definition fleet_at_99_5 : list (list string) := fleet_with_hours "99.5".

End Fixture.

Section fixture_vocabulary.
Import Fixture.

Definition NEW_YORK : string := "America/New_York".

(** A scan skips a lesson silently when it returns and no row of its output
    is that lesson with a label appended. *)
Definition skipped_silently (lesson : list string)
    (outcome : result (list (list string))) : Prop :=
  exists rows, outcome = Ok rows /\
    forall label : string, ~ In (lesson ++ [label])%list rows.

End fixture_vocabulary.

(** ** Further vocabulary *)

Section further_vocabulary.
Context `{Library}.

(** The wall-clock reading of a datetime. *)
Definition wall_clock (d : datetime) : Z :=
  match d with
  | Naive w => w
  | Aware u off => u + off
  end.

Definition is_aware (d : datetime) : bool :=
  match d with
  | Naive _ => false
  | Aware _ _ => true
  end.

(** The date of a rating or endorsement is on or before the takeoff, a date
    or a takeoff without a zone being read in the zone of the other. *)
Definition qualified_at (takeoff : datetime) (date_str : string) : bool :=
  if String.eqb date_str "" then false else
  match parser_parse date_str, takeoff with
  | None, _ => false
  | Some (Aware u _), Aware t _ => u <=? t
  | Some (Naive w), Aware t off => w - off <=? t
  | Some (Aware u off), Naive wt => u <=? wt - off
  | Some (Naive w), Naive wt => w <=? wt
  end.

(** A cloud layer that counts towards the ceiling: broken, overcast or
    indefinite, and measured in feet. *)
Definition counts_as_ceiling (d : list (string * pyval)) : bool :=
  (is_str (get_or_None d "type") "broken"
   || is_str (get_or_None d "type") "overcast"
   || is_str (get_or_None d "type") "indefinite ceiling")
  && is_str (get_or_None d "units") "FT".

(** A list of layers the ceiling check can read: every layer is a
    dictionary, and a layer that counts has a float for its height. *)
Definition readable_layer (v : pyval) : bool :=
  match v with
  | PDict d => if counts_as_ceiling d then is_float (dict_get d "height") else true
  | _ => false
  end.

(** The instant a weather key stands for, when it parses to an aware time
    strictly before the instant [t]. *)
Definition report_before (t : Z) (key : string) : option Z :=
  match parser_parse key with
  | Some (Aware u _) => if u <? t then Some u else None
  | _ => None
  end.

(** Two events carry the same sort key. *)
Definition same_key (a b : inspections.event) : bool :=
  String.eqb (inspections.ev_tail a) (inspections.ev_tail b)
  && bool_decide (inspections.ev_time a = inspections.ev_time b).

(** A shop period with both of its dates parsed. *)
Definition dated (period : option Z * option Z) : bool :=
  is_not_None (fst period) && is_not_None (snd period).

(** The replay dictionaries know every aircraft of [plane_state]. *)
Definition tracks (plane_state : gmap string inspections.plane)
    (st : inspections.replay_state) : Prop :=
  forall tail, is_Some (plane_state !! tail) ->
    is_Some (inspections.current_annual st !! tail) /\
    is_Some (inspections.current_hours st !! tail).

(** The instant of a datetime, a naive one being read in the named zone. *)
Definition instant_in (tzname : string) (time : datetime) : Z :=
  match time with
  | Naive w => w - pytz_utcoffset tzname w
  | Aware u _ => u
  end.

(** A number within the range of floats: a float, or an int whose nearest
    float is finite. *)
Definition fits_float (q : Q) : Prop := (Qabs (round_double q) < INFINITY)%Q.

(** A Yes/No cell that says yes, and a capability cell that says IFR, both
    read without regard to case and surrounding blanks. *)
Definition says_yes (c : string) : bool := String.eqb (upper (strip c)) "YES".
Definition says_ifr (c : string) : bool := String.eqb (upper (strip c)) "IFR".

(** Rows the inspection scan can read.  A fleet row has its seven cells and
    an hours cell that is empty or a float; a repairs row has its four cells
    and an in-date that parses; a lesson row has its first five cells, a
    takeoff and a landing that parse, and the tail number of an aircraft of
    the fleet. *)
Definition fleet_row (row : list string) : Prop :=
  (7 <= length row)%nat /\
  (cell row 6 = "" \/ is_Some (float_of_str (cell row 6))).

Definition repair_row (timezone : string) (row : list string) : Prop :=
  (4 <= length row)%nat /\
  is_Some (inspections.str_to_instant (cell row 1) timezone).

Definition lesson_row (timezone : string) (planes : list (list string))
    (row : list string) : Prop :=
  (5 <= length row)%nat /\
  is_Some (inspections.str_to_instant (cell row 3) timezone) /\
  is_Some (inspections.str_to_instant (cell row 4) timezone) /\
  exists plane, In plane planes /\ plane !! 0%nat = Some (cell row 1).

(** Every logged repair of every aircraft satisfies [P]. *)
Definition repairs_all (P : inspections.event_type * option Z -> Prop)
    (plane_state : gmap string inspections.plane) : Prop :=
  forall tail p, plane_state !! tail = Some p ->
                 Forall P (inspections.repairs p).

(** The cells of a column that read as floats. *)
Definition float_column (idx : nat) (row : list string) : Prop :=
  exists (s : string) (q : Q), row !! idx = Some s /\ float_of_str s = Some q.

End further_vocabulary.

(** The inspection scan replays one timeline for the whole fleet.  What a
    lesson is checked against is said here per aircraft: the events of that
    aircraft that come earlier in the timeline, and what they leave of the
    hours and of the date of the fleet file. *)

Section replay_vocabulary.
Context `{Library}.

(** The events of one aircraft among the earlier events. *)
Definition history (tail : string) (earlier : list inspections.event)
  : list inspections.event :=
  List.filter (fun e => String.eqb (inspections.ev_tail e) tail) earlier.

(** The hours since service after the past events of an aircraft that
    started at [h0]: a lesson adds its duration to the float sum; an
    inspection or any other repair starts the count again. *)
Definition hours_since_service (h0 : Q) (past : list inspections.event) : Q :=
  fold_left
    (fun h e =>
       match inspections.ev_type e with
       | inspections.lesson_event =>
           fadd h (inspections.duration_hours (inspections.ev_time e)
                     (inspections.ev_landing e))
       | _ => 0%Q
       end)
    past h0.

(** The date of the last annual inspection after the past events of an
    aircraft whose fleet row gave [a0]: the date of the latest annual
    inspection among them, if there is one. *)
Definition last_annual_date (a0 : option Z) (past : list inspections.event)
  : option Z :=
  fold_left
    (fun a e =>
       match inspections.ev_type e with
       | inspections.annual_event => inspections.ev_time e
       | _ => a
       end)
    past a0.

(** The rows a lesson adds to the output: the lesson with its label, or
    nothing. *)
Definition appended_row (lesson : list string) (label : option string)
  : list (list string) :=
  match label with
  | Some annotation => [(lesson ++ [annotation])%list]
  | None => []
  end.

(** The state of the replay after the events [events], from the state
    [st]. *)
Fixpoint state_after (plane_state : gmap string inspections.plane)
    (st : inspections.replay_state) (events : list inspections.event)
  : result inspections.replay_state :=
  match events with
  | [] => Ok st
  | ev :: rest =>
      let* r := inspections.replay_event plane_state st ev in
      state_after plane_state (fst r) rest
  end.

(** An aircraft of [plane_state] as a row of the fleet file gives it: the
    date of its last annual inspection and its hours, an empty hours cell
    standing for zero. *)
Definition of_fleet_row (timezone : string) (row : list string) (tail : string)
    (p : inspections.plane) : Prop :=
  row !! 0%nat = Some tail /\
  inspections.last_annual p = inspections.str_to_instant (cell row 5) timezone /\
  inspections.hours_since_100 p
  = (if String.eqb (cell row 6) "" then 0%Q else float_cell 6 row).

(** The kind of event a repairs row is logged as. *)
Definition logged_as (description : string) : inspections.event_type :=
  if String.eqb (lower (strip description)) "annual inspection"
  then inspections.annual_event else inspections.repair_event.

(** What the scan builds from its files before the replay: the aircraft
    and the sorted timeline of lessons and repairs. *)
Definition scan_builds (lessons_csv planes_csv repairs_csv : list (list string))
    (timezone : string) (plane_state : gmap string inspections.plane)
    (timeline : list inspections.event) : Prop :=
  exists (fleet_state : gmap string inspections.plane)
         (from_lessons : list inspections.event),
    fold_rows (inspections.add_plane timezone) ∅ (tail planes_csv)
    = Ok fleet_state /\
    fold_rows (inspections.add_repair timezone) fleet_state (tail repairs_csv)
    = Ok plane_state /\
    inspections.lesson_events timezone (tail lessons_csv) = Ok from_lessons /\
    inspections.sort_events
      (from_lessons
       ++ inspections.repair_events plane_state
            (inspections.tails_in_order (tail planes_csv)))%list
    = Ok timeline.

End replay_vocabulary.

(** The matching rule of a policy row as the specification words it, cell
    by cell, and the best value of a column among the rows that apply.
    Nothing here is taken from [get_minimums]. *)

Section policy_vocabulary.
Context `{Library}.

(** The tier a category names; 'Dual' names none. *)
Definition named_tier (category : string) : option Z :=
  if String.eqb category "Student" then Some pilots.PILOT_STUDENT
  else if String.eqb category "Certified" then Some pilots.PILOT_CERTIFIED
  else if String.eqb category "50 Hours" then Some pilots.PILOT_50_HOURS
  else None.

(** The category matches if it is 'Dual' and an instructor is on board, or
    if the tier of the pilot meets or exceeds the tier it names, '50 Hours'
    asking for exactly that tier. *)
Definition category_applies (tier : Z) (instructed : bool) (category : string)
  : Prop :=
  (category = "Dual" /\ instructed = true) \/
  exists named, named_tier category = Some named /\
    if String.eqb category "50 Hours" then tier = named else named <= tier.

(** VFR goes with VMC and IFR with IMC. *)
Definition conditions_apply (vfr : bool) (conditions : string) : Prop :=
  (vfr = true <-> conditions = "VMC") /\ (vfr = false <-> conditions = "IMC").

(** The area of the row is 'Any', or it is 'Local' and the flight is in the
    pattern, in the practice area or local, or it is the area of the
    flight. *)
Definition area_applies (area row_area : string) : Prop :=
  row_area = "Any" \/
  (row_area = "Local" /\ In area ["Pattern"; "Practice Area"; "Local"]) \/
  row_area = area.

(** Daytime goes with 'Day' and night with 'Night'. *)
Definition time_applies (daytime : bool) (time : string) : Prop :=
  (daytime = true <-> time = "Day") /\ (daytime = false <-> time = "Night").

(** A row that matches on all four is a candidate. *)
Definition candidate (tier : Z) (area : string) (instructed vfr daytime : bool)
    (row : list string) : Prop :=
  category_applies tier instructed (cell row 0) /\
  conditions_apply vfr (cell row 1) /\
  area_applies area (cell row 2) /\
  time_applies daytime (cell row 3).

(** The categories a policy table is documented to hold. *)
Definition documented_category (row : list string) : Prop :=
  In (cell row 0) ["Student"; "Certified"; "50 Hours"; "Dual"].

(** [m] is the least (the greatest) value of a column among the rows of a
    table that satisfy [P]. *)
Definition least_among (P : list string -> Prop) (column : nat)
    (rows : list (list string)) (m : Q) : Prop :=
  (exists row, In row rows /\ P row /\ float_cell column row = m) /\
  forall row, In row rows -> P row -> (m <= float_cell column row)%Q.

Definition greatest_among (P : list string -> Prop) (column : nat)
    (rows : list (list string)) (m : Q) : Prop :=
  (exists row, In row rows /\ P row /\ float_cell column row = m) /\
  forall row, In row rows -> P row -> (float_cell column row <= m)%Q.

End policy_vocabulary.

(** * Properties *)

(** ** Floats and the error monad *)

Section float_facts.

Lemma Qltb_lt (x y : Q) : Qltb x y = true <-> (x < y)%Q.
Proof.
  unfold Qltb. rewrite negb_true_iff, <- not_true_iff_false, Qle_bool_iff.
  split; [apply Qnot_le_lt | apply Qlt_not_le].
Qed.

Lemma Qgtb_gt (x y : Q) : Qgtb x y = true <-> (y < x)%Q.
Proof. apply Qltb_lt. Qed.

Lemma Qgeb_ge (x y : Q) : Qgeb x y = true <-> (y <= x)%Q.
Proof. apply Qle_bool_iff. Qed.

Lemma Qltb_ge (x y : Q) : Qltb x y = false <-> (y <= x)%Q.
Proof. unfold Qltb. rewrite negb_false_iff. apply Qle_bool_iff. Qed.

End float_facts.

Lemma index_lookup {A : Type} (row : list A) (i : nat) (x : A) :
  row !! i = Some x -> index row i = Ok x.
Proof. unfold index. intros ->. reflexivity. Qed.

Lemma index_in_range {A : Type} (row : list A) (i : nat) :
  (i < length row)%nat -> exists x, row !! i = Some x /\ index row i = Ok x.
Proof.
  intros Hi. destruct (lookup_lt_is_Some_2 row i Hi) as [x Hx].
  exists x. split; [assumption | apply index_lookup, Hx].
Qed.

(** ** pilots.get_certification *)

Section certification.
Context `{Library}.

Lemma parse_date_aware (t off : Z) (s : string) :
  exists d,
    pilots.parse_date (Some (Aware t off)) s = Ok d /\
    py_and (Ok (is_not_None d)) (dt_ge (Some (Aware t off)) d)
      = Ok (threshold_met t off s) /\
    py_or (Ok (is_None d)) (dt_lt (Some (Aware t off)) d)
      = Ok (negb (threshold_met t off s)).
Proof.
  unfold pilots.parse_date, threshold_met, utils.str_to_time; simpl.
  destruct (String.eqb s "").
  - exists None. repeat split.
  - destruct (parser_parse s) as [[w|u o]|]; simpl.
    + eexists. repeat split; simpl; f_equal.
      rewrite Z.ltb_antisym. reflexivity.
    + eexists. repeat split; simpl; f_equal.
      rewrite Z.ltb_antisym. reflexivity.
    + exists None. repeat split.
Qed.

Lemma get_certification_aware (t off : Z) (student : list string)
    (sj ss sl sh : string) :
  student !! 3%nat = Some sj -> student !! 4%nat = Some ss ->
  student !! 5%nat = Some sl -> student !! 6%nat = Some sh ->
  pilots.get_certification (Some (Aware t off)) student
  = Ok (tier_of (threshold_met t off sj) (threshold_met t off ss)
          (threshold_met t off sl) (threshold_met t off sh)).
Proof.
  intros Hj Hs Hl Hh. unfold pilots.get_certification.
  rewrite (index_lookup _ _ _ Hj), (index_lookup _ _ _ Hs),
    (index_lookup _ _ _ Hl), (index_lookup _ _ _ Hh). cbn [bind].
  destruct (parse_date_aware t off sj) as (dj & -> & Hgej & Hltj).
  destruct (parse_date_aware t off ss) as (ds & -> & Hges & _).
  destruct (parse_date_aware t off sl) as (dl & -> & Hgel & _).
  destruct (parse_date_aware t off sh) as (dh & -> & Hgeh & _).
  cbn [bind]. rewrite Hltj. cbn [bind]. unfold tier_of.
  destruct (threshold_met t off sj); cbn [negb]; [|reflexivity].
  rewrite Hgeh. cbn [bind]. destruct (threshold_met t off sh); [reflexivity|].
  rewrite Hgel. cbn [bind]. destruct (threshold_met t off sl); [reflexivity|].
  rewrite Hges. cbn [bind]. destruct (threshold_met t off ss); [reflexivity|].
  rewrite Hgej. reflexivity.
Qed.

Lemma tier_of_monotone (ja sa la ha jb sb lb hb : bool) :
  (jb = true -> ja = true) -> (sb = true -> sa = true) ->
  (lb = true -> la = true) -> (hb = true -> ha = true) ->
  tier_of jb sb lb hb <= tier_of ja sa la ha.
Proof.
  unfold tier_of, pilots.PILOT_INVALID, pilots.PILOT_50_HOURS,
    pilots.PILOT_CERTIFIED, pilots.PILOT_STUDENT, pilots.PILOT_NOVICE.
  destruct ja, sa, la, ha, jb, sb, lb, hb; simpl; intros Hj Hs Hl Hh;
    try lia;
    try (specialize (Hj eq_refl); discriminate);
    try (specialize (Hs eq_refl); discriminate);
    try (specialize (Hl eq_refl); discriminate);
    try (specialize (Hh eq_refl); discriminate).
Qed.

(** C8.  [get_certification] is monotonic.  For an aware takeoff instant and
    two pilot rows [A] and [B] (with their four date cells present), if each
    of the joined, solo, license and 50-hours thresholds that [B] meets at
    that instant is also met by [A], then both calls return a tier and the
    tier of [A] is at least the tier of [B], in the order
    Invalid (-1) < Novice (0) < Student (1) < Certified (2) < FiftyHours (3). *)
Theorem get_certification_monotonic (t off : Z) (A B : list string) :
  (7 <= length A)%nat -> (7 <= length B)%nat ->
  (forall i : nat, (3 <= i <= 6)%nat ->
     threshold_met t off (cell B i) = true ->
     threshold_met t off (cell A i) = true) ->
  exists tier_A tier_B : Z,
    pilots.get_certification (Some (Aware t off)) A = Ok tier_A /\
    pilots.get_certification (Some (Aware t off)) B = Ok tier_B /\
    tier_B <= tier_A.
Proof.
  intros HA HB Hmet.
  assert (Hcells : forall row : list string, (7 <= length row)%nat ->
            forall i : nat, (i < 7)%nat -> row !! i = Some (cell row i)).
  { intros row Hlen i Hi. unfold cell.
    destruct (lookup_lt_is_Some_2 row i) as [x Hx]; [lia|].
    rewrite Hx. reflexivity. }
  eexists _, _.
  rewrite (get_certification_aware t off A _ _ _ _
             (Hcells A HA 3%nat ltac:(lia)) (Hcells A HA 4%nat ltac:(lia))
             (Hcells A HA 5%nat ltac:(lia)) (Hcells A HA 6%nat ltac:(lia))).
  rewrite (get_certification_aware t off B _ _ _ _
             (Hcells B HB 3%nat ltac:(lia)) (Hcells B HB 4%nat ltac:(lia))
             (Hcells B HB 5%nat ltac:(lia)) (Hcells B HB 6%nat ltac:(lia))).
  split; [reflexivity|]. split; [reflexivity|].
  apply tier_of_monotone; apply Hmet; lia.
Qed.

End certification.

(** ** violations: the weather classifier *)

Section weather.
Context `{Library}.


Lemma is_float_inv (v : option pyval) :
  is_float v = true -> exists q, v = Some (PNum q).
Proof. destruct v as [[]|]; try discriminate. eauto. Qed.

Lemma optional_float_inv (v : option pyval) :
  optional_float v = true -> v = None \/ exists q, v = Some (PNum q).
Proof. destruct v as [[]|]; try discriminate; eauto. Qed.

Lemma bad_visibility_returns (v : pyval) (minimum : Q) :
  valid_visibility v = true -> returns (violations.bad_visibility v minimum).
Proof.
  unfold returns, violations.bad_visibility. destruct v; try discriminate; simpl.
  - intros _. destruct (String.eqb s "unavailable"); eauto.
  - rewrite !andb_true_iff. intros [[[Hp Hu] Hm] _].
    apply is_float_inv in Hp as [p Hp].
    destruct (dict_get d "units") as [u|] eqn:Eu; [|discriminate].
    unfold subscript. rewrite Hp, Eu.
    apply optional_float_inv in Hm as [-> | [m ->]]; cbn [bind];
      destruct (is_str u "FT"); cbn [bind as_number]; eauto.
Qed.

Lemma bad_winds_returns (v : pyval) (maxwind maxcross : Q) :
  valid_winds v = true -> returns (violations.bad_winds v maxwind maxcross).
Proof.
  unfold returns, violations.bad_winds. destruct v; try discriminate; simpl.
  - intros _. destruct (String.eqb s "calm"); [eauto|].
    destruct (String.eqb s "unavailable"); eauto.
  - rewrite !andb_true_iff. intros [[[Hs _] Hg] Hc].
    apply is_float_inv in Hs as [s ->].
    set (units := default (PStr "KT") (dict_get d "units")).
    apply optional_float_inv in Hg as [-> | [g ->]];
      apply optional_float_inv in Hc as [-> | [c ->]];
      unfold default, from_option, id; destruct (is_str units "MPS");
      cbn [as_number bind]; unfold py_or; cbn [as_number bind];
      match goal with
      | |- context [if ?b then Ok true else _] => destruct b; eauto
      end.
Qed.

Lemma relevant_heights_valid (layers : list pyval) :
  forallb valid_layer layers = true ->
  exists heights qs,
    violations.relevant_heights layers = Ok heights /\
    violations.as_numbers heights = Ok qs /\ length qs = length heights.
Proof.
  induction layers as [|layer rest IH]; simpl.
  - intros _. exists [], []. auto.
  - rewrite andb_true_iff. intros [Hl Hrest].
    destruct (IH Hrest) as (heights & qs & -> & Hqs & Hlen).
    destruct layer; try discriminate. simpl in Hl.
    rewrite !andb_true_iff in Hl. destruct Hl as [[_ Hh] _].
    apply is_float_inv in Hh as [h Hh].
    cbn [violations.relevant_heights bind]. unfold get_or_None. rewrite Hh.
    unfold default, from_option, id.
    match goal with
    | |- context [if ?b then _ :: _ else _] => destruct b
    end.
    + exists (PNum h :: heights), (h :: qs).
      cbn [violations.as_numbers as_number bind]. rewrite Hqs.
      cbn [bind length]. auto.
    + exists heights, qs. auto.
Qed.

Lemma bad_ceiling_returns (v : pyval) (minimum : Q) :
  valid_ceiling v = true -> returns (violations.bad_ceiling v minimum).
Proof.
  unfold returns, violations.bad_ceiling. destruct v; try discriminate; simpl.
  - intros _. destruct (String.eqb s "clear"); [eauto|].
    destruct (String.eqb s "unavailable"); eauto.
  - intros Hv.
    destruct (relevant_heights_valid l Hv) as (heights & qs & -> & Hqs & Hlen).
    cbn [bind]. destruct heights as [|h heights]; [eauto|].
    rewrite Hqs. cbn [bind].
    destruct qs as [|q qs]; [discriminate|]. simpl. eauto.
Qed.

(** C10.  For a weather dictionary holding valid visibility, wind and sky
    measurements and a four-element minimums list, the three sub-checks
    return and [get_weather_violation] returns one of the five strings '',
    'Visibility', 'Winds', 'Ceiling', 'Weather': the empty string when no
    sub-check flags.  For a [None] weather it returns 'Unknown', and on no
    input at all does it return [None]. *)
Theorem get_weather_violation_labels (w : list (string * pyval)) (a b c d : Q) :
  valid_weather w = true ->
  (exists vis wind ceil : bool,
     violations.bad_visibility (get_or_None w "visibility") b = Ok vis /\
     violations.bad_winds (get_or_None w "wind") c d = Ok wind /\
     violations.bad_ceiling (get_or_None w "sky") a = Ok ceil /\
     violations.get_weather_violation (PDict w) (Some [a; b; c; d])
     = Ok (Some (weather_label vis wind ceil)) /\
     In (weather_label vis wind ceil)
        [""; "Visibility"; "Winds"; "Ceiling"; "Weather"] /\
     (vis = false -> wind = false -> ceil = false ->
      weather_label vis wind ceil = "")) /\
  (forall mins, violations.get_weather_violation PNone mins = Ok (Some "Unknown")) /\
  (forall weather mins, violations.get_weather_violation weather mins <> Ok None).
Proof.
  intros Hvalid. unfold valid_weather in Hvalid.
  rewrite !andb_true_iff in Hvalid. destruct Hvalid as [[Hvis Hwind] Hceil].
  split; [|split].
  - destruct (bad_visibility_returns _ b Hvis) as [vis Evis].
    destruct (bad_winds_returns _ c d Hwind) as [wind Ewind].
    destruct (bad_ceiling_returns _ a Hceil) as [ceil Eceil].
    exists vis, wind, ceil. repeat split; try assumption.
    + cbn [violations.get_weather_violation violations.unpack4 bind].
      rewrite Evis, Ewind, Eceil. cbn [bind].
      destruct vis, wind, ceil; reflexivity.
    + destruct vis, wind, ceil; simpl; auto 6.
    + intros -> -> ->. reflexivity.
  - reflexivity.
  - intros weather mins.
    unfold violations.get_weather_violation.
    destruct weather; try discriminate;
      destruct (violations.unpack4 mins) as [[[[mc mv] mw] mx]|e];
      cbn [bind]; try discriminate.
    destruct (violations.bad_visibility _ _) as [vis|]; cbn [bind]; [|discriminate].
    destruct (violations.bad_winds _ _ _) as [wind|]; cbn [bind]; [|discriminate].
    destruct (violations.bad_ceiling _ _) as [ceil|]; cbn [bind]; [|discriminate].
    destruct vis, wind, ceil; discriminate.
Qed.

(** With a weather reading that is not [None] and [None] for the minimums,
    [get_weather_violation] raises [TypeError] at the unpacking of its second
    argument; it yields no label. *)
Theorem get_weather_violation_without_minimums (weather : pyval) :
  weather <> PNone ->
  violations.get_weather_violation weather None = Raise TypeError.
Proof.
  intros Hw. destruct weather; try reflexivity. contradiction.
Qed.

End weather.

(** ** pilots.get_minimums *)

Section minimums.
Context `{Library}.

Lemma min_from_spec (values : list Q) : forall cur : Q,
  let m := pilots.min_from cur values in
  (m = cur \/ In m values) /\ (m <= cur)%Q /\ Forall (fun y => (m <= y)%Q) values.
Proof.
  induction values as [|x rest IH]; intros cur; simpl.
  - split; [auto|]. split; [apply Qle_refl | constructor].
  - destruct (IH (if Qltb x cur then x else cur)) as (Hin & Hle & Hall).
    destruct (Qltb x cur) eqn:E.
    + apply Qltb_lt in E. split; [|split].
      * destruct Hin as [-> | Hin]; auto.
      * eapply Qle_trans; [exact Hle | apply Qlt_le_weak, E].
      * constructor; assumption.
    + apply Qltb_ge in E. split; [|split].
      * destruct Hin as [-> | Hin]; auto.
      * assumption.
      * constructor; [eapply Qle_trans; eassumption | assumption].
Qed.

Lemma max_from_spec (values : list Q) : forall cur : Q,
  let m := pilots.max_from cur values in
  (m = cur \/ In m values) /\ (cur <= m)%Q /\ Forall (fun y => (y <= m)%Q) values.
Proof.
  induction values as [|x rest IH]; intros cur; simpl.
  - split; [auto|]. split; [apply Qle_refl | constructor].
  - destruct (IH (if Qgtb x cur then x else cur)) as (Hin & Hle & Hall).
    destruct (Qgtb x cur) eqn:E.
    + apply Qgtb_gt in E. split; [|split].
      * destruct Hin as [-> | Hin]; auto.
      * eapply Qle_trans; [apply Qlt_le_weak, E | exact Hle].
      * constructor; assumption.
    + apply Qltb_ge in E. split; [|split].
      * destruct Hin as [-> | Hin]; auto.
      * assumption.
      * constructor; [eapply Qle_trans; eassumption | assumption].
Qed.

Lemma py_min_least (values : list Q) :
  values <> [] -> exists m, pilots.py_min values = Ok m /\ least m values.
Proof.
  destruct values as [|x rest]; [congruence|]. intros _.
  exists (pilots.min_from x rest). split; [reflexivity|].
  destruct (min_from_spec rest x) as (Hin & Hle & Hall).
  split; [simpl; destruct Hin; auto | constructor; assumption].
Qed.

Lemma py_max_greatest (values : list Q) :
  values <> [] -> exists m, pilots.py_max values = Ok m /\ greatest m values.
Proof.
  destruct values as [|x rest]; [congruence|]. intros _.
  exists (pilots.max_from x rest). split; [reflexivity|].
  destruct (max_from_spec rest x) as (Hin & Hle & Hall).
  split; [simpl; destruct Hin; auto | constructor; assumption].
Qed.

Section candidates.
Variables (cert : Z) (area : string) (instructed vfr daytime : bool).

Local Abbreviation matches_all_four :=
  (matches_all_four cert area instructed vfr daytime).

Lemma cell_lookup (row : list string) (i : nat) :
  (i < length row)%nat -> index row i = Ok (cell row i).
Proof.
  intros Hi. destruct (index_in_range row i Hi) as (x & Hx & ->).
  unfold cell. rewrite Hx. reflexivity.
Qed.

Lemma row_matches_all_four (row : list string) :
  (4 <= length row)%nat ->
  pilots.row_matches cert area instructed vfr daytime row
  = Ok (matches_all_four row).
Proof.
  intros Hlen. unfold pilots.row_matches, matches_all_four,
    pilots.IDX_CATEGORY, pilots.IDX_CONDITIONS, pilots.IDX_AREA, pilots.IDX_TIME.
  rewrite !cell_lookup by lia. cbn [bind].
  destruct (pilots.category_matches _ _ _); [|reflexivity].
  destruct (pilots.conditions_match _ _); [|reflexivity].
  destruct (pilots.area_matches _ _); [|reflexivity].
  destruct (pilots.time_matches _ _); reflexivity.
Qed.

Lemma collect_matches_filter (data : list (list string)) :
  Forall policy_row data ->
  pilots.collect_matches cert area instructed vfr daytime data
  = Ok (List.filter matches_all_four data).
Proof.
  induction 1 as [|row rest [Hlen _] _ IH]; [reflexivity|].
  cbn [pilots.collect_matches List.filter].
  rewrite row_matches_all_four by lia. cbn [bind]. rewrite IH. reflexivity.
Qed.

Lemma column_values_floats (data : list (list string)) (i : nat) :
  (4 <= i < 8)%nat -> Forall policy_row data ->
  pilots.column_values data i = Ok (map (float_cell i) data).
Proof.
  intros Hi. induction 1 as [|row rest [Hlen Hfloat] _ IH]; [reflexivity|].
  cbn [pilots.column_values map]. rewrite cell_lookup by lia. cbn [bind].
  unfold pilots.to_float, float_cell at 1.
  destruct (Hfloat i Hi) as [q ->]. cbn [bind]. rewrite IH. reflexivity.
Qed.

Lemma get_best_value_min (data : list (list string)) (i : nat) :
  (4 <= i < 8)%nat -> Forall policy_row data -> data <> [] ->
  exists m, pilots.get_best_value data i false = Ok m
            /\ least m (map (float_cell i) data).
Proof.
  intros Hi Hdata Hne. unfold pilots.get_best_value.
  rewrite column_values_floats by assumption. cbn [bind].
  apply py_min_least. destruct data; [congruence | discriminate].
Qed.

Lemma get_best_value_max (data : list (list string)) (i : nat) :
  (4 <= i < 8)%nat -> Forall policy_row data -> data <> [] ->
  exists m, pilots.get_best_value data i true = Ok m
            /\ greatest m (map (float_cell i) data).
Proof.
  intros Hi Hdata Hne. unfold pilots.get_best_value.
  rewrite column_values_floats by assumption. cbn [bind].
  apply py_max_greatest. destruct data; [congruence | discriminate].
Qed.

(** [get_minimums] in terms of the rows its loop keeps. *)
Lemma get_minimums_of_matches (minimums : list (list string)) :
  Forall policy_row (tail minimums) ->
  let candidates := List.filter matches_all_four (tail minimums) in
  (candidates = [] ->
   pilots.get_minimums cert area instructed vfr daytime minimums = Ok None) /\
  (candidates <> [] ->
   exists ceiling visibility wind crosswind : Q,
     pilots.get_minimums cert area instructed vfr daytime minimums
     = Ok (Some [ceiling; visibility; wind; crosswind]) /\
     least ceiling (map (float_cell 4) candidates) /\
     least visibility (map (float_cell 5) candidates) /\
     greatest wind (map (float_cell 6) candidates) /\
     greatest crosswind (map (float_cell 7) candidates)).
Proof.
  intros Hrows candidates. unfold pilots.get_minimums.
  rewrite collect_matches_filter by assumption. cbn [bind].
  fold candidates.
  assert (Hcand : Forall policy_row candidates).
  { apply List.Forall_forall. intros row Hin.
    apply List.filter_In in Hin as [Hin _].
    revert row Hin. apply List.Forall_forall. assumption. }
  split.
  - intros ->. reflexivity.
  - intros Hne.
    destruct (get_best_value_min candidates 4 ltac:(lia) Hcand Hne)
      as (ceiling & Ec & Hc).
    destruct (get_best_value_min candidates 5 ltac:(lia) Hcand Hne)
      as (visibility & Ev & Hv).
    destruct (get_best_value_max candidates 6 ltac:(lia) Hcand Hne)
      as (wind & Ew & Hw).
    destruct (get_best_value_max candidates 7 ltac:(lia) Hcand Hne)
      as (crosswind & Ex & Hx).
    exists ceiling, visibility, wind, crosswind.
    split; [|auto].
    destruct candidates as [|row rest]; [congruence|].
    unfold pilots.IDX_CEILING, pilots.IDX_VISIBILITY, pilots.IDX_WIND,
      pilots.IDX_CROSSWIND.
    rewrite Ec, Ev, Ew, Ex. reflexivity.
Qed.

(** The four tests of the loop against the matching rule of the
    specification. *)
Lemma category_matches_applies (category : string) :
  In category ["Student"; "Certified"; "50 Hours"; "Dual"] ->
  pilots.category_matches cert instructed category = true
  <-> category_applies cert instructed category.
Proof.
  unfold pilots.category_matches, category_applies, named_tier.
  intros [<- | [<- | [<- | [<- | []]]]]; cbn [String.eqb Ascii.eqb Bool.eqb].
  - rewrite negb_true_iff, Z.ltb_ge. split.
    + intros Hle. right. eexists. split; [reflexivity | exact Hle].
    + intros [[Hdual _] | (named & [= <-] & Hle)]; [discriminate | exact Hle].
  - rewrite negb_true_iff, Z.ltb_ge. split.
    + intros Hle. right. eexists. split; [reflexivity | exact Hle].
    + intros [[Hdual _] | (named & [= <-] & Hle)]; [discriminate | exact Hle].
  - rewrite Z.eqb_eq. split.
    + intros Heq. right. eexists. split; [reflexivity | exact Heq].
    + intros [[Hdual _] | (named & [= <-] & Heq)]; [discriminate | exact Heq].
  - split.
    + intros ->. left. split; reflexivity.
    + intros [[_ Hi] | (named & Hnamed & _)]; [exact Hi | discriminate].
Qed.

Lemma conditions_match_apply (conditions : string) :
  pilots.conditions_match vfr conditions = true
  <-> conditions_apply vfr conditions.
Proof.
  unfold pilots.conditions_match, conditions_apply.
  destruct vfr; rewrite String.eqb_eq; split.
  - intros ->. repeat split; try reflexivity; discriminate.
  - intros [[Hvmc _] _]. apply Hvmc. reflexivity.
  - intros ->. repeat split; try reflexivity; discriminate.
  - intros [_ [Himc _]]. apply Himc. reflexivity.
Qed.

Lemma area_matches_applies (row_area : string) :
  pilots.area_matches area row_area = true <-> area_applies area row_area.
Proof.
  unfold pilots.area_matches, area_applies.
  destruct (String.eqb_spec row_area "Any") as [-> | Hany]; [tauto|].
  destruct (String.eqb_spec row_area "Local") as [-> | Hlocal].
  - rewrite !orb_true_iff, !String.eqb_eq. cbn [In]. split.
    + intros [[Ha | Ha] | Ha]; right; left; (split; [reflexivity|]); auto.
    + intros [Hn | [[_ [Ha | [Ha | [Ha | []]]]] | Ha]]; auto; contradiction.
  - rewrite String.eqb_eq. split; [auto|].
    intros [Hn | [[Hl _] | Ha]]; [contradiction | contradiction | exact Ha].
Qed.

Lemma time_matches_applies (time : string) :
  pilots.time_matches daytime time = true <-> time_applies daytime time.
Proof.
  unfold pilots.time_matches, time_applies.
  destruct daytime; rewrite String.eqb_eq; split.
  - intros ->. repeat split; try reflexivity; discriminate.
  - intros [[Hday _] _]. apply Hday. reflexivity.
  - intros ->. repeat split; try reflexivity; discriminate.
  - intros [_ [Hnight _]]. apply Hnight. reflexivity.
Qed.

Lemma matches_all_four_candidate (row : list string) :
  documented_category row ->
  matches_all_four row = true
  <-> candidate cert area instructed vfr daytime row.
Proof.
  intros Hdoc. unfold matches_all_four, candidate.
  rewrite !andb_true_iff, (category_matches_applies _ Hdoc),
    conditions_match_apply, area_matches_applies, time_matches_applies.
  tauto.
Qed.

(** C7.  On a minimums table as documented (after the header, rows of
    eight cells whose category is 'Student', 'Certified', '50 Hours' or
    'Dual' and whose last four cells read as floats), with the matching
    rule of the specification: [get_minimums] returns [None] when no row
    matches on all four of category, conditions, area and time; otherwise
    it returns the list of exactly four floats, the least ceiling, the
    least visibility, the greatest wind and the greatest crosswind among
    the rows that match, each the float its cell reads as. *)
Theorem get_minimums_best (minimums : list (list string)) :
  Forall policy_row (tail minimums) ->
  Forall documented_category (tail minimums) ->
  let applies := candidate cert area instructed vfr daytime in
  ((forall row, In row (tail minimums) -> ~ applies row) ->
   pilots.get_minimums cert area instructed vfr daytime minimums = Ok None) /\
  ((exists row, In row (tail minimums) /\ applies row) ->
   exists ceiling visibility wind crosswind : Q,
     pilots.get_minimums cert area instructed vfr daytime minimums
     = Ok (Some [ceiling; visibility; wind; crosswind]) /\
     least_among applies 4 (tail minimums) ceiling /\
     least_among applies 5 (tail minimums) visibility /\
     greatest_among applies 6 (tail minimums) wind /\
     greatest_among applies 7 (tail minimums) crosswind).
Proof.
  intros Hrows Hdoc applies.
  destruct (get_minimums_of_matches minimums Hrows) as [Hnone Hsome].
  cbv zeta in Hnone, Hsome.
  rewrite List.Forall_forall in Hdoc.
  assert (Hkept : forall row,
            In row (List.filter matches_all_four (tail minimums))
            <-> In row (tail minimums) /\ applies row).
  { intros row. rewrite List.filter_In. split.
    - intros [Hin Hm]. split; [exact Hin|].
      apply (matches_all_four_candidate row (Hdoc row Hin)), Hm.
    - intros [Hin Ha]. split; [exact Hin|].
      apply (matches_all_four_candidate row (Hdoc row Hin)), Ha. }
  assert (Hleast : forall i m,
            least m (map (float_cell i)
                       (List.filter matches_all_four (tail minimums))) ->
            least_among applies i (tail minimums) m).
  { intros i m [Hin Hall]. split.
    - apply in_map_iff in Hin as (row & Hval & Hrow).
      apply Hkept in Hrow as [Hrow Ha]. exists row. auto.
    - intros row Hrow Ha. rewrite List.Forall_forall in Hall.
      apply Hall, in_map, Hkept. auto. }
  assert (Hgreatest : forall i m,
            greatest m (map (float_cell i)
                          (List.filter matches_all_four (tail minimums))) ->
            greatest_among applies i (tail minimums) m).
  { intros i m [Hin Hall]. split.
    - apply in_map_iff in Hin as (row & Hval & Hrow).
      apply Hkept in Hrow as [Hrow Ha]. exists row. auto.
    - intros row Hrow Ha. rewrite List.Forall_forall in Hall.
      apply Hall, in_map, Hkept. auto. }
  split.
  - intros Hno. apply Hnone.
    destruct (List.filter matches_all_four (tail minimums)) as [|row rest] eqn:E;
      [reflexivity|].
    destruct (proj1 (Hkept row) (or_introl eq_refl)) as [Hin Ha].
    destruct (Hno row Hin Ha).
  - intros (row & Hin & Ha).
    destruct Hsome as (c & v & w & x & Heq & Hc & Hv & Hw & Hx).
    { intros Hnil.
      assert (Hrow : In row (List.filter matches_all_four (tail minimums)))
        by (apply Hkept; auto).
      rewrite Hnil in Hrow. destruct Hrow. }
    exists c, v, w, x. split; [exact Heq|]. auto.
Qed.

End candidates.
End minimums.

(** ** inspections: the three checks of a lesson event *)

Section inspection_checks.
Context `{Library}.

(** The zone name makes every parsed timestamp aware. *)
Lemma str_to_time_zone_aware (timestamp timezone : string) (d : datetime) :
  utils.str_to_time timestamp (utils.ZoneName timezone) = Some d ->
  exists u off, d = Aware u off.
Proof.
  unfold utils.str_to_time.
  destruct (parser_parse timestamp) as [[w|u off]|]; intros [= <-]; eauto.
Qed.

Lemma in_shop_instants (t l i o : Z) :
  inspections.in_shop (Some t) (Some l) (Some i, Some o)
  = Ok (overlap_test t l i o).
Proof.
  unfold inspections.in_shop, overlap_test, inspections.ge, inspections.gt,
    inspections.le, inspections.lt, inspections.compare_with, py_and, py_or.
  cbn [bind is_not_None is_None negb].
  rewrite !Z.geb_leb, !Z.gtb_ltb.
  destruct (i <=? t), (t <? o), (i <? l), (l <=? o), (t <=? i), (o <=? l);
    reflexivity.
Qed.

Lemma check_grounded_exists (t l : Z) (periods : list (option Z * option Z)) :
  exists g : bool,
    inspections.check_grounded (Some t) (Some l) periods = Ok g /\
    (g = true <->
     exists i o, In (Some i, Some o) periods /\ overlap_test t l i o = true).
Proof.
  induction periods as [|period rest (g & IH & Hg)].
  - exists false. split; [reflexivity|]. split; [discriminate|].
    intros (i & o & [] & _).
  - cbn [inspections.check_grounded].
    destruct period as [[i|] [o|]].
    1: rewrite in_shop_instants; cbn [bind];
       destruct (overlap_test t l i o) eqn:E.
    1: { exists true. split; [reflexivity|]. split; [|reflexivity].
         intros _. exists i, o. split; [left; reflexivity | assumption]. }
    all: cbn [inspections.in_shop py_and bind is_not_None is_None negb];
      rewrite IH; exists g; (split; [reflexivity|]); rewrite Hg;
      split; intros (i' & o' & Hin & Hov); exists i', o';
      (split; [|assumption]).
    all: try (right; assumption).
    all: destruct Hin as [Heq | Hin]; [|assumption]; try discriminate.
    injection Heq as <- <-. congruence.
Qed.

(** C5.  For a flight from [t] to [l] and a shop period from [i] to [o]
    (with [t <= l] and [i <= o]) the grounded test returns, and: a takeoff
    exactly at the start of the period is grounded; a landing exactly at its
    end is grounded; a landing exactly at the start of a period, by a flight
    that took off before it, is not grounded; a takeoff inside the period, a
    landing inside it and a flight spanning it are grounded; and for a flight
    and a period of positive length the test is exactly the overlap
    [t < o /\ i < l].  Over the list of periods of the aircraft the check
    flags the lesson exactly when one dated period passes the test. *)
Theorem grounded_boundaries (t l i o : Z) (periods : list (option Z * option Z)) :
  t <= l -> i <= o ->
  (exists b : bool,
     inspections.in_shop (Some t) (Some l) (Some i, Some o) = Ok b /\
     (t = i -> b = true) /\
     (l = o -> b = true) /\
     (l = i -> t < i -> i < o -> b = false) /\
     (i <= t < o -> b = true) /\
     (i < l <= o -> b = true) /\
     (t <= i /\ o <= l -> b = true) /\
     (t < l -> i < o -> (b = true <-> t < o /\ i < l))) /\
  (exists g : bool,
     inspections.check_grounded (Some t) (Some l) periods = Ok g /\
     (g = true <->
      exists i' o', In (Some i', Some o') periods /\
        inspections.in_shop (Some t) (Some l) (Some i', Some o') = Ok true)).
Proof.
  intros Htl Hio. split.
  - exists (overlap_test t l i o). split; [apply in_shop_instants|].
    unfold overlap_test.
    repeat split; intros;
      repeat match goal with
             | |- context [?a <=? ?b] => destruct (Z.leb_spec a b)
             | |- context [?a <? ?b] => destruct (Z.ltb_spec a b)
             | H : context [?a <=? ?b] |- _ => destruct (Z.leb_spec a b)
             | H : context [?a <? ?b] |- _ => destruct (Z.ltb_spec a b)
             end; simpl in *; try reflexivity; try discriminate; try lia.
  - destruct (check_grounded_exists t l periods) as (g & Eg & Hg).
    exists g. split; [assumption|]. rewrite Hg.
    split; intros (i' & o' & Hin & Hov); exists i', o'; (split; [assumption|]).
    + rewrite in_shop_instants, Hov. reflexivity.
    + rewrite in_shop_instants in Hov. congruence.
Qed.

Lemma check_inspection_iff (hours duration : Q) :
  inspections.check_inspection hours duration = true
  <-> (100 <= hours)%Q \/ (100 < fadd hours duration)%Q.
Proof.
  unfold inspections.check_inspection.
  rewrite orb_true_iff, andb_true_iff, Qgeb_ge, Qltb_lt, Qgtb_gt.
  split.
  - intros [Hge | [_ Hgt]]; auto.
  - intros [Hge | Hgt]; [auto|].
    destruct (Qlt_le_dec hours 100); auto.
Qed.

Lemma annotate_inspection (annual grounded : bool) :
  inspections.annotate annual true grounded
  = Some (if annual || grounded then "Maintenance" else "Inspection").
Proof. destruct annual, grounded; reflexivity. Qed.

End inspection_checks.

(** ** inspections: the order of the replay *)

Section timeline.
Context `{Library}.

Lemma string_ltb_asym (a b : string) :
  String.ltb a b = true -> String.ltb b a = false.
Proof.
  unfold String.ltb. rewrite (String.compare_antisym b a).
  destruct (String.compare a b); simpl; congruence.
Qed.

Lemma string_ltb_connex (a b : string) :
  a <> b -> String.ltb a b = false -> String.ltb b a = true.
Proof.
  unfold String.ltb. rewrite (String.compare_antisym b a).
  destruct (String.compare a b) eqn:E; simpl; try congruence.
  intros Hne _. apply String.compare_eq_iff in E. contradiction.
Qed.

Lemma string_ltb_leb (a b : string) :
  String.ltb a b = true -> String.le a b.
Proof.
  unfold String.le, String.ltb, String.leb.
  destruct (String.compare a b); simpl; [discriminate | intros _; exact I | discriminate].
Qed.

Lemma string_ltb_trans (a b c : string) :
  String.ltb a b = true -> String.ltb b c = true -> String.ltb a c = true.
Proof.
  intros Hab Hbc.
  assert (Hac : String.le a c)
    by (trans b; apply string_ltb_leb; assumption).
  destruct (decide (a = c)) as [->|Hne].
  - apply string_ltb_asym in Hab. congruence.
  - destruct (String.ltb a c) eqn:E; [reflexivity|].
    apply string_ltb_connex in E; [|assumption].
    apply string_ltb_leb in E. destruct Hne. apply (anti_symm String.le); assumption.
Qed.

Ltac key_cases :=
  unfold key_le, inspections.key_lt;
  repeat match goal with
    | |- context [String.eqb ?a ?b] =>
        let E := fresh "E" in
        destruct (String.eqb a b) eqn:E;
        [apply String.eqb_eq in E | apply String.eqb_neq in E]
    | H : context [String.eqb ?a ?b] |- _ =>
        let E := fresh "E" in
        destruct (String.eqb a b) eqn:E;
        [apply String.eqb_eq in E | apply String.eqb_neq in E]
    end; cbn [negb] in *.

Lemma key_lt_asym (a b : inspections.event) :
  inspections.key_lt a b = Ok true -> key_le a b.
Proof.
  key_cases; try congruence.
  - destruct (inspections.ev_time a), (inspections.ev_time b);
      try discriminate.
    intros [= Hlt]. f_equal. lia.
  - intros [= Hlt]. f_equal. apply string_ltb_asym, Hlt.
Qed.

Lemma string_ltb_false_trans (a b c : string) :
  a <> b -> b <> c ->
  String.ltb b a = false -> String.ltb c b = false ->
  String.ltb c a = false /\ a <> c.
Proof.
  intros Hab Hbc Hba Hcb.
  assert (Hlt1 : String.ltb a b = true) by (apply string_ltb_connex; auto).
  assert (Hlt2 : String.ltb b c = true) by (apply string_ltb_connex; auto).
  pose proof (string_ltb_trans _ _ _ Hlt1 Hlt2) as Hac.
  split; [apply string_ltb_asym, Hac|].
  intros ->. pose proof (string_ltb_asym _ _ Hac). congruence.
Qed.

Lemma key_le_trans (a b c : inspections.event) :
  key_le a b -> key_le b c -> key_le a c.
Proof.
  key_cases; try congruence;
    try (intros [= H1] [= H2];
         match goal with
         | Ea : inspections.ev_tail b <> inspections.ev_tail a,
           Eb : inspections.ev_tail c <> inspections.ev_tail b |- _ =>
             destruct (string_ltb_false_trans _ _ _
                         (not_eq_sym Ea) (not_eq_sym Eb) H1 H2) as [Hlt Hne]
         end;
         (congruence || (f_equal; exact Hlt))).
  destruct (inspections.ev_time a), (inspections.ev_time b),
    (inspections.ev_time c); try discriminate; try reflexivity.
  intros [= H1] [= H2]. f_equal. lia.
Qed.

Lemma insert_event_sorted (ev : inspections.event) (sorted : list inspections.event) :
  forall out,
    StronglySorted key_le sorted ->
    inspections.insert_event ev sorted = Ok out ->
    StronglySorted key_le out /\ (forall x, In x out <-> x = ev \/ In x sorted).
Proof.
  induction sorted as [|y rest IH]; intros out Hsorted; cbn [inspections.insert_event].
  - intros [= <-]. split.
    + repeat constructor.
    + intros x. simpl. intuition.
  - destruct (inspections.key_lt y ev) as [[|]|] eqn:Hy; cbn [bind];
      [| |discriminate].
    + destruct (inspections.insert_event ev rest) as [rest'|] eqn:Hrest;
        cbn [bind]; [|discriminate].
      intros [= <-]. apply StronglySorted_inv in Hsorted as [Hrest_sorted Hy_le].
      destruct (IH rest' Hrest_sorted eq_refl) as [Hs Hin].
      split.
      * constructor; [assumption|].
        apply List.Forall_forall. intros x Hx. apply Hin in Hx as [-> | Hx].
        -- apply key_lt_asym, Hy.
        -- revert x Hx. apply List.Forall_forall. assumption.
      * intros x. simpl. rewrite Hin. intuition.
    + intros [= <-]. split.
      * constructor; [assumption|].
        apply StronglySorted_inv in Hsorted as [_ Hy_le].
        constructor; [exact Hy|].
        apply List.Forall_forall. intros x Hx.
        apply (key_le_trans ev y x); [exact Hy|].
        revert x Hx. apply List.Forall_forall. assumption.
      * intros x. simpl. intuition.
Qed.

Lemma sort_events_sorted (events : list inspections.event) :
  forall out,
    inspections.sort_events events = Ok out ->
    StronglySorted key_le out /\ (forall x, In x out <-> In x events).
Proof.
  induction events as [|ev rest IH]; intros out; cbn [inspections.sort_events].
  - intros [= <-]. split; [constructor | reflexivity].
  - destruct (inspections.sort_events rest) as [sorted|] eqn:E; cbn [bind];
      [|discriminate].
    intros Hins. destruct (IH sorted eq_refl) as [Hs Hin].
    destruct (insert_event_sorted ev sorted out Hs Hins) as [Hs' Hin'].
    split; [assumption|]. intros x. rewrite Hin'. simpl. rewrite Hin.
    intuition.
Qed.

Lemma key_lt_timed (a b : inspections.event) :
  timed a -> timed b -> exists c, inspections.key_lt a b = Ok c.
Proof.
  intros [x Hx] [y Hy]. unfold inspections.key_lt. rewrite Hx, Hy.
  destruct (negb _); eauto.
Qed.

Lemma insert_event_returns (ev : inspections.event) (sorted : list inspections.event) :
  timed ev -> Forall timed sorted ->
  exists out, inspections.insert_event ev sorted = Ok out /\ Forall timed out.
Proof.
  intros Hev. induction 1 as [|y rest Hy Hrest (out & IH & Hout)];
    cbn [inspections.insert_event].
  - eauto.
  - destruct (key_lt_timed y ev Hy Hev) as [[|] ->]; cbn [bind].
    + rewrite IH. cbn [bind]. eauto.
    + eauto.
Qed.

Lemma sort_events_returns (events : list inspections.event) :
  Forall timed events ->
  exists out, inspections.sort_events events = Ok out /\ Forall timed out.
Proof.
  induction 1 as [|ev rest Hev Hrest (sorted & IH & Hsorted)];
    cbn [inspections.sort_events].
  - eauto.
  - rewrite IH. cbn [bind]. apply insert_event_returns; assumption.
Qed.

End timeline.

(** ** inspections: a lesson on an unknown aircraft *)

Section annual.
Context `{Library}.

(** A lesson on a tail number that is not in the fleet does not get past
    the first lookup of the replay: [plane_state[tail]] raises. *)
Lemma replay_unknown_tail (plane_state : gmap string inspections.plane)
    (st : inspections.replay_state) (ev : inspections.event) :
  inspections.ev_type ev = inspections.lesson_event ->
  plane_state !! inspections.ev_tail ev = None ->
  inspections.replay_event plane_state st ev = Raise KeyError.
Proof.
  intros Htype Htail. unfold inspections.replay_event, inspections.lookup_tail.
  rewrite Htype, Htail. reflexivity.
Qed.

End annual.

(** ** Lessons with unknown references *)

Section unknown_references.
Context `{Library}.

Lemma for_each_skip {A B : Type} (body : A -> result (option B))
    (pre post : list A) (x : A) :
  body x = Ok None ->
  for_each body (pre ++ x :: post) = for_each body (pre ++ post).
Proof.
  intros Hx. induction pre as [|y pre IH]; cbn [app for_each].
  - rewrite Hx. cbn [bind]. destruct (for_each body post); reflexivity.
  - rewrite IH. reflexivity.
Qed.

Lemma get_for_id_unknown (id : string) (table : list (list string)) :
  unknown_id id table -> Forall (fun row => row <> []) table ->
  utils.get_for_id id table = Ok None.
Proof.
  induction 1 as [|row rest Hrow Hrest IH]; intros Hne; [reflexivity|].
  apply Forall_cons in Hne as [Hrow_ne Hne].
  cbn [utils.get_for_id]. destruct row as [|k row]; [congruence|].
  cbn [index lookup list_lookup bind].
  destruct (String.eqb k id) eqn:E.
  - apply String.eqb_eq in E. subst k. cbn in Hrow. congruence.
  - apply IH, Hne.
Qed.

Lemma fold_rows_dict_unknown (id : string) (table : list (list string)) :
  unknown_id id table ->
  forall d0 d : gmap string (list string),
    d0 !! id = None ->
    fold_rows (fun d row => let* k := index row 0 in Ok (<[k := row]> d)) d0 table
    = Ok d ->
    d !! id = None.
Proof.
  induction 1 as [|row rest Hrow Hrest IH]; intros d0 d Hd0; cbn [fold_rows].
  - intros [= <-]. assumption.
  - destruct row as [|k row]; [discriminate|].
    cbn [index lookup list_lookup bind].
    apply IH. rewrite lookup_insert_ne; [assumption|].
    intros ->. apply Hrow. reflexivity.
Qed.

Lemma dict_of_table_unknown (id : string) (table : list (list string))
    (d : gmap string (list string)) :
  unknown_id id table -> dict_of_table table = Ok d -> d !! id = None.
Proof.
  intros Hu. apply (fold_rows_dict_unknown id table Hu). apply lookup_empty.
Qed.

Lemma for_each_origin {A B : Type} (body : A -> result (option B)) (l : list A) :
  forall rows, for_each body l = Ok rows ->
  forall y, In y rows -> exists x, In x l /\ body x = Ok (Some y).
Proof.
  induction l as [|x l IH]; cbn [for_each]; intros rows.
  - intros [= <-] y [].
  - destruct (body x) as [item|] eqn:Ex; cbn [bind]; [|discriminate].
    destruct (for_each body l) as [items|]; cbn [bind]; [|discriminate].
    intros [= <-] y Hy.
    destruct item as [y'|].
    + destruct Hy as [<- | Hy].
      * exists x. split; [left; reflexivity | assumption].
      * destruct (IH items eq_refl y Hy) as (x' & Hin & Hx').
        exists x'. split; [right; assumption | assumption].
    + destruct (IH items eq_refl y Hy) as (x' & Hin & Hx').
      exists x'. split; [right; assumption | assumption].
Qed.

Ltac pass_cases :=
  repeat match goal with
    | |- context [bind ?m _] => destruct m; cbn [bind]
    | |- (if ?b then _ else _) = _ -> _ => destruct b
    | |- match ?x with _ => _ end = _ -> _ => destruct x
    | |- Ok (match ?x with _ => _ end) = _ -> _ => destruct x
    end.

(** A pass appends the lesson it is looking at, with one label. *)
Lemma weather_pass_row (students minimums : list (list string))
    (weather : list (string * pyval)) (daycycle : utils.daycycle_table)
    (lesson row : list string) :
  violations.weather_pass students minimums weather daycycle lesson
  = Ok (Some row) ->
  exists label, row = (lesson ++ [label])%list.
Proof.
  unfold violations.weather_pass. pass_cases;
    try discriminate; intros [= <-]; eauto.
Qed.

Lemma endorsement_pass_row
    (student_dict instructor_dict plane_dict : gmap string (list string))
    (lesson row : list string) :
  endorsements.endorsement_pass student_dict instructor_dict plane_dict lesson
  = Ok (Some row) ->
  exists label, row = (lesson ++ [label])%list.
Proof.
  unfold endorsements.endorsement_pass. pass_cases;
    try discriminate; intros [= <-]; eauto.
Qed.

Lemma skipped_not_in_output (body : list string -> result (option (list string)))
    (lessons : list (list string)) (lesson : list string) :
  (forall x row, body x = Ok (Some row) ->
                 exists label, row = (x ++ [label])%list) ->
  body lesson = Ok None ->
  forall rows label,
    for_each body lessons = Ok rows -> ~ In (lesson ++ [label])%list rows.
Proof.
  intros Hshape Hskip rows label Hrows Hin.
  destruct (for_each_origin body lessons rows Hrows _ Hin) as (x & _ & Hx).
  destruct (Hshape x _ Hx) as [label' Heq].
  apply app_inj_tail in Heq as [<- _]. congruence.
Qed.

(** C2, as the code has it.  A lesson row (of at least seven cells) whose
    student identifier is in no row of the students table is skipped by the
    weather scan (the students table having no empty row) and by the
    endorsement scan, and one whose tail number is in no row of the fleet
    table is skipped by the endorsement scan: the result of the scan, rows
    and exceptions alike, is the one it has without that row, and no row of
    its output is that lesson with a label appended. *)
Theorem unknown_reference_skipped
    (students instructors planes minimums : list (list string))
    (weather : list (string * pyval)) (daycycle : utils.daycycle_table)
    (header lesson : list string) (pre post : list (list string)) :
  (7 <= length lesson)%nat ->
  (unknown_id (cell lesson 0) students ->
   Forall (fun row => row <> []) students ->
   violations.list_weather_violations
     (header :: pre ++ lesson :: post) students minimums weather daycycle
   = violations.list_weather_violations
       (header :: pre ++ post) students minimums weather daycycle /\
   forall rows label,
     violations.list_weather_violations
       (header :: pre ++ lesson :: post) students minimums weather daycycle
     = Ok rows ->
     ~ In (lesson ++ [label])%list rows) /\
  (unknown_id (cell lesson 0) students \/ unknown_id (cell lesson 1) planes ->
   endorsements.list_endorsement_violations
     (pre ++ lesson :: post) students instructors planes
   = endorsements.list_endorsement_violations
       (pre ++ post) students instructors planes /\
   forall rows label,
     endorsements.list_endorsement_violations
       (pre ++ lesson :: post) students instructors planes
     = Ok rows ->
     ~ In (lesson ++ [label])%list rows).
Proof.
  intros Hlen. split.
  - intros Hunknown Hrows.
    assert (Hskip : violations.weather_pass students minimums weather daycycle
                      lesson = Ok None).
    { unfold violations.weather_pass.
      destruct (Nat.ltb_spec (length lesson) 7) as [|_]; [lia|].
      rewrite !cell_lookup by lia. cbn [bind].
      rewrite get_for_id_unknown by assumption. reflexivity. }
    unfold violations.list_weather_violations. cbn [tail]. split.
    + apply for_each_skip, Hskip.
    + apply skipped_not_in_output; [apply weather_pass_row | exact Hskip].
  - intros Hunknown. unfold endorsements.list_endorsement_violations.
    destruct (dict_of_table students) as [student_dict|] eqn:Es;
      [|split; [reflexivity | discriminate]].
    destruct (dict_of_table instructors) as [instructor_dict|];
      [|split; [reflexivity | discriminate]].
    destruct (dict_of_table planes) as [plane_dict|] eqn:Ep;
      [|split; [reflexivity | discriminate]].
    cbn [bind].
    assert (Hskip : endorsements.endorsement_pass student_dict instructor_dict
                      plane_dict lesson = Ok None).
    { unfold endorsements.endorsement_pass.
      destruct (Nat.ltb_spec 2 (length lesson)) as [_|]; [|lia].
      rewrite !cell_lookup by lia. cbn [bind].
      destruct Hunknown as [Hs | Hp].
      - rewrite (dict_of_table_unknown _ _ _ Hs Es). reflexivity.
      - rewrite (dict_of_table_unknown _ _ _ Hp Ep).
        destruct (student_dict !! cell lesson 0); reflexivity. }
    split.
    + apply for_each_skip, Hskip.
    + apply skipped_not_in_output; [apply endorsement_pass_row | exact Hskip].
Qed.

End unknown_references.

(** * The claims on the concrete data set *)

Section on_the_fixture.
Import Fixture.

(** C1 (code defect).  A novice flying alone matches no row of the minimums
    table, so [get_minimums] returns [None]; a weather report for the takeoff
    exists; and the weather scan, handing that [None] to
    [get_weather_violation], raises [TypeError] instead of labelling the
    lesson. *)
Theorem weather_scan_raises_without_minimums :
  pilots.get_minimums pilots.PILOT_NOVICE "Pattern" false true true minimums
  = Ok None /\
  violations.get_weather_report (Aware 1483884000000000 EST) weather
  = PDict fair_weather /\
  violations.get_weather_violation (PDict fair_weather) None = Raise TypeError /\
  violations.list_weather_violations
    [lessons_header; novice_alone] students minimums weather daycycle
  = Raise TypeError.
Proof. repeat split; vm_compute; reflexivity. Qed.

(** C3 (code defect).  On a dual IFR lesson in a multiengine aircraft with an
    instructor who holds neither MEI nor CFII, both the endorsement and the
    IFR sub-checks flag while the solo sub-check does not, and the
    endorsement scan appends 'Endorsement', not 'Credentials'. *)
Theorem endorsement_scan_two_flags :
  endorsements.bad_endorsement (Some (Aware 1483884000000000 EST))
    ["S00002"; "Poe"; "John"; "2015-01-01T00:00:00-05:00";
     "2016-01-01T00:00:00-05:00"; ""; ""; ""; ""; ""]
    (Some ["I077"; "Roe"; "Rick"; "Yes"; "No"; "No"])
    ["446BU"; "Piper Seminole"; "IFR"; "Yes"; "Yes";
     "2016-01-01T00:00:00-05:00"; "10"]
  = Ok true /\
  endorsements.bad_ifr (Some (Aware 1483884000000000 EST))
    ["S00002"; "Poe"; "John"; "2015-01-01T00:00:00-05:00";
     "2016-01-01T00:00:00-05:00"; ""; ""; ""; ""; ""]
    (Some ["I077"; "Roe"; "Rick"; "Yes"; "No"; "No"])
    ["446BU"; "Piper Seminole"; "IFR"; "Yes"; "Yes";
     "2016-01-01T00:00:00-05:00"; "10"]
  = Ok true /\
  endorsements.annotate false true true = Some "Endorsement" /\
  endorsements.list_endorsement_violations
    [lessons_header; dual_ifr] students instructors fleet
  = Ok [(dual_ifr ++ ["Endorsement"])%list].
Proof. repeat split; vm_compute; reflexivity. Qed.

(** The other two scans do collapse two or more flags into their combined
    label. *)
Lemma combined_labels_weather_inspection (x y z : bool) :
  (1 < Nat.b2n x + Nat.b2n y + Nat.b2n z)%nat ->
  weather_label x y z = "Weather" /\
  inspections.annotate x y z = Some "Maintenance".
Proof. destruct x, y, z; simpl; intros; try lia; split; reflexivity. Qed.

(** C2 (counterexample).  The lesson booked under 'S99999', an identifier in
    no row of the students table, is not skipped by the inspection scan: its
    aircraft is two years past its annual inspection and the lesson is
    reported as 'Annual'.  The lesson on '999ZZ', a tail number in no row of
    the fleet table, is not skipped by the weather scan: it took off in half
    a mile of visibility and is reported as 'Visibility'. *)
Lemma unknown_reference_reported :
  (unknown_id (cell unknown_student 0) students /\
   inspections.list_inspection_violations
     [lessons_header; unknown_student] fleet repairs NEW_YORK
   = Ok [(unknown_student ++ ["Annual"])%list] /\
   ~ skipped_silently unknown_student
       (inspections.list_inspection_violations
          [lessons_header; unknown_student] fleet repairs NEW_YORK)) /\
  (unknown_id (cell unknown_tail 1) fleet /\
   violations.list_weather_violations
     [lessons_header; unknown_tail] students minimums fog daycycle
   = Ok [(unknown_tail ++ ["Visibility"])%list] /\
   ~ skipped_silently unknown_tail
       (violations.list_weather_violations
          [lessons_header; unknown_tail] students minimums fog daycycle)).
Proof.
  split; (split; [|split]).
  - repeat constructor; discriminate.
  - vm_compute. reflexivity.
  - intros (rows & Hrows & Hnone).
    assert (Hout : inspections.list_inspection_violations
                     [lessons_header; unknown_student] fleet repairs NEW_YORK
                   = Ok [(unknown_student ++ ["Annual"])%list])
      by (vm_compute; reflexivity).
    rewrite Hout in Hrows. injection Hrows as <-.
    apply (Hnone "Annual"). left. reflexivity.
  - repeat constructor; discriminate.
  - vm_compute. reflexivity.
  - intros (rows & Hrows & Hnone).
    assert (Hout : violations.list_weather_violations
                     [lessons_header; unknown_tail] students minimums fog daycycle
                   = Ok [(unknown_tail ++ ["Visibility"])%list])
      by (vm_compute; reflexivity).
    rewrite Hout in Hrows. injection Hrows as <-.
    apply (Hnone "Visibility"). left. reflexivity.
Qed.

(** A lesson on a tail number that is not in the fleet makes the inspection
    scan raise [KeyError]. *)
Lemma unknown_tail_aborts_inspection_scan :
  inspections.list_inspection_violations
    [lessons_header;
     ["S00001"; "999ZZ"; ""; "2017-01-08T09:00:00-05:00";
      "2017-01-08T11:00:00-05:00"; "VFR"; "Pattern"]]
    fleet repairs NEW_YORK
  = Raise KeyError.
Proof. vm_compute. reflexivity. Qed.

(** The same lesson is reported as 'Annual' against the fleet table alone,
    and is clean once the repair log holds an annual inspection a week
    before it. *)
Lemma annual_inspection_resets_example :
  inspections.list_inspection_violations
    [lessons_header; novice_alone] fleet repairs NEW_YORK
  = Ok [(novice_alone ++ ["Annual"])%list] /\
  inspections.list_inspection_violations
    [lessons_header; novice_alone] fleet
    (repairs ++ [["548QR"; "2017-01-01T00:00:00-05:00"; "2017-01-08T07:20";
                  " Annual Inspection"]])%list
    NEW_YORK
  = Ok [].
Proof. split; vm_compute; reflexivity. Qed.

(** *** The theorems at concrete inputs *)

Lemma unknown_reference_skipped_witness :
  violations.list_weather_violations
    [lessons_header; unknown_student; dual_ifr] students minimums weather daycycle
  = violations.list_weather_violations
      [lessons_header; dual_ifr] students minimums weather daycycle /\
  endorsements.list_endorsement_violations
    [lessons_header; unknown_student; dual_ifr] students instructors fleet
  = endorsements.list_endorsement_violations
      [lessons_header; dual_ifr] students instructors fleet.
Proof.
  destruct (unknown_reference_skipped students instructors fleet minimums
              weather daycycle lessons_header unknown_student [] [dual_ifr]
              ltac:(simpl; lia)) as [Hweather _].
  destruct (unknown_reference_skipped students instructors fleet minimums
              weather daycycle lessons_header unknown_student [lessons_header]
              [dual_ifr] ltac:(simpl; lia)) as [_ Hendorsement].
  split.
  - apply Hweather; repeat constructor; discriminate.
  - apply Hendorsement. left. repeat constructor; discriminate.
Defined.

Lemma grounded_boundaries_witness :
  inspections.in_shop (Some 1483884000000000) (Some 1483891200000000)
    (Some 1483884000000000, Some 1483912200000000)
  = Ok true.
Proof.
  destruct (grounded_boundaries 1483884000000000 1483891200000000
              1483884000000000 1483912200000000 []
              ltac:(lia) ltac:(lia)) as [(b & Hb & Hstart & _) _].
  rewrite Hb. f_equal. apply Hstart. reflexivity.
Defined.

Lemma get_minimums_best_witness :
  let applies :=
    candidate pilots.PILOT_CERTIFIED "Practice Area" true true true in
  pilots.get_minimums pilots.PILOT_CERTIFIED "Practice Area" true true true
    minimums
  = Ok (Some [2000; 5; 30; 20]%Q) /\
  least_among applies 4 (tail minimums) 2000 /\
  least_among applies 5 (tail minimums) 5 /\
  greatest_among applies 6 (tail minimums) 30 /\
  greatest_among applies 7 (tail minimums) 20.
Proof.
  intros applies.
  assert (Hvalue :
    pilots.get_minimums pilots.PILOT_CERTIFIED "Practice Area" true true true
      minimums
    = Ok (Some [2000; 5; 30; 20]%Q)) by (vm_compute; reflexivity).
  destruct (get_minimums_best pilots.PILOT_CERTIFIED "Practice Area" true true
              true minimums) as [_ Hsome].
  - repeat constructor; try reflexivity;
      intros i Hi;
      do 8 (destruct i as [|i]; [first [lia | eexists; vm_compute; reflexivity]|]);
      lia.
  - repeat (constructor; [unfold documented_category; cbn; auto 8|]).
    constructor.
  - destruct Hsome as (c & v & w & x & Hres & Hc & Hv & Hw & Hx).
    + exists ["Dual"; "VMC"; "Any"; "Day"; "2000"; "10"; "30"; "10"].
      split; [cbn; auto 10|].
      split; [left; split; reflexivity|].
      split; [split; split; intros Hq; first [reflexivity | discriminate]|].
      split; [left; reflexivity|].
      split; split; intros Hq; first [reflexivity | discriminate].
    + rewrite Hres in Hvalue. injection Hvalue as -> -> -> ->.
      split; [exact Hres | auto].
Defined.

Lemma get_certification_monotonic_witness :
  exists tier_A tier_B : Z,
    pilots.get_certification (Some (Aware 1483884000000000 EST))
      ["S00002"; "Poe"; "John"; "2015-01-01T00:00:00-05:00";
       "2016-01-01T00:00:00-05:00"; ""; ""; ""; ""; ""]
    = Ok tier_A /\
    pilots.get_certification (Some (Aware 1483884000000000 EST))
      ["S00001"; "Doe"; "Jane"; "2016-01-01T00:00:00-05:00"; ""; ""; ""; "";
       ""; ""]
    = Ok tier_B /\
    tier_B <= tier_A.
Proof.
  apply get_certification_monotonic.
  - simpl. lia.
  - simpl. lia.
  - intros i Hi.
    do 7 (destruct i as [|i]; [first [lia | vm_compute; auto]|]). lia.
Defined.


Lemma get_weather_violation_labels_witness :
  violations.get_weather_violation (PDict fair_weather) (Some [3000; 10; 20; 8]%Q)
  = Ok (Some "").
Proof.
  destruct (get_weather_violation_labels fair_weather 3000 10 20 8
              ltac:(vm_compute; reflexivity))
    as [(vis & wind & ceil & Hvis & Hwind & Hceil & Hres & _ & Hnone) _].
  rewrite Hres. do 2 f_equal. apply Hnone.
  - vm_compute in Hvis. congruence.
  - vm_compute in Hwind. congruence.
  - vm_compute in Hceil. congruence.
Defined.

End on_the_fixture.

(** * Further properties of the code *)

(** ** utils *)

Section utils_facts.
Context `{Library}.

(** X1.  [str_to_time] returns [None] exactly when the parser fails.
    Otherwise it never moves the wall-clock reading of the parsed timestamp;
    a timestamp that carries a zone is returned as parsed whatever the
    [tzsource]; and with a zone name or an aware datetime as [tzsource] the
    result is aware. *)
Theorem str_to_time_keeps_wall_clock (timestamp : string) (src : utils.tzsource) :
  match parser_parse timestamp with
  | None => utils.str_to_time timestamp src = None
  | Some parsed =>
      exists d : datetime,
        utils.str_to_time timestamp src = Some d /\
        wall_clock d = wall_clock parsed /\
        (is_aware parsed = true -> d = parsed) /\
        (src = utils.NoSource -> d = parsed) /\
        ((exists name, src = utils.ZoneName name) -> is_aware d = true) /\
        ((exists u off, src = utils.FromDatetime (Aware u off)) ->
         is_aware d = true)
  end.
Proof.
  unfold utils.str_to_time.
  destruct (parser_parse timestamp) as [[w|u off]|]; [| |reflexivity].
  - destruct src as [|name|[w'|u' off']|off']; eexists; (split; [reflexivity|]);
      cbn [wall_clock replace_tzinfo is_aware];
      repeat split; try reflexivity; try discriminate; try lia;
      try (intros (? & ?); discriminate);
      try (intros (? & ? & ?); discriminate).
  - eexists. split; [reflexivity|]. repeat split.
Qed.

Lemma get_for_id_prefix (id : string) (pre : list (list string)) :
  Forall (fun row => row <> [] /\ row !! 0%nat <> Some id) pre ->
  (forall (row : list string) (post : list (list string)),
     row !! 0%nat = Some id ->
     utils.get_for_id id (pre ++ row :: post) = Ok (Some row)) /\
  (forall post : list (list string),
     utils.get_for_id id (pre ++ [] :: post) = Raise IndexError) /\
  utils.get_for_id id pre = Ok None.
Proof.
  induction 1 as [|r pre [Hne Hid] _ (IHfound & IHempty & IHnone)].
  - repeat split.
    + intros row post Hrow. destruct row as [|k row]; [discriminate|].
      cbn in Hrow. injection Hrow as ->.
      cbn [app utils.get_for_id index lookup list_lookup bind].
      rewrite String.eqb_refl. reflexivity.
  - destruct r as [|k r]; [congruence|].
    assert (Hk : String.eqb k id = false).
    { apply String.eqb_neq. intros ->. apply Hid. reflexivity. }
    repeat split; intros;
      cbn [app utils.get_for_id index lookup list_lookup bind];
      rewrite Hk; auto.
Qed.

(** X2.  [get_for_id] returns the first row whose first cell is the
    identifier: after rows that are not empty and carry other identifiers, a
    row with the identifier is returned whatever follows it, an empty row
    raises [IndexError], and the end of the table gives [None]. *)
Theorem get_for_id_first_match (id : string) (pre : list (list string)) :
  Forall (fun row => row <> [] /\ row !! 0%nat <> Some id) pre ->
  (forall (row : list string) (post : list (list string)),
     row !! 0%nat = Some id ->
     utils.get_for_id id (pre ++ row :: post) = Ok (Some row)) /\
  (forall post : list (list string),
     utils.get_for_id id (pre ++ [] :: post) = Raise IndexError) /\
  utils.get_for_id id pre = Ok None.
Proof. apply get_for_id_prefix. Qed.

Lemma fold_rows_app {S A : Type} (step : S -> A -> result S) (l1 l2 : list A) :
  forall st, fold_rows step st (l1 ++ l2)
             = let* st' := fold_rows step st l1 in fold_rows step st' l2.
Proof.
  induction l1 as [|x l1 IH]; intros st; cbn [app fold_rows bind];
    [reflexivity|].
  destruct (step st x) as [st'|]; cbn [bind]; [apply IH | reflexivity].
Qed.

Lemma fold_rows_dict_keeps (id : string) (table : list (list string)) :
  Forall (fun row => row <> [] /\ row !! 0%nat <> Some id) table ->
  forall d0 : gmap string (list string),
    exists d,
      fold_rows (fun d row => let* k := index row 0 in Ok (<[k := row]> d)) d0 table
      = Ok d /\ d !! id = d0 !! id.
Proof.
  induction 1 as [|row rest [Hne Hid] _ IH]; intros d0; cbn [fold_rows].
  - eauto.
  - destruct row as [|k row]; [congruence|].
    cbn [index lookup list_lookup bind].
    destruct (IH (<[k := k :: row]> d0)) as (d & -> & Hd).
    exists d. split; [reflexivity|]. rewrite Hd.
    apply lookup_insert_ne. intros ->. apply Hid. reflexivity.
Qed.

(** X3.  On a table that holds two rows with the same identifier (the other
    rows carrying other identifiers, none empty), [get_for_id], which the
    weather scan uses, finds the first of the two, while the dictionary
    [{row[0]: row for row in table}] the endorsement scan builds holds the
    last. *)
Theorem duplicate_id_first_and_last (id : string) (first last : list string)
    (pre mid post : list (list string)) :
  Forall (fun row => row <> [] /\ row !! 0%nat <> Some id) pre ->
  Forall (fun row => row <> []) mid ->
  Forall (fun row => row <> [] /\ row !! 0%nat <> Some id) post ->
  first !! 0%nat = Some id -> last !! 0%nat = Some id ->
  utils.get_for_id id (pre ++ first :: mid ++ last :: post) = Ok (Some first) /\
  exists d : gmap string (list string),
    dict_of_table (pre ++ first :: mid ++ last :: post) = Ok d /\
    d !! id = Some last.
Proof.
  intros Hpre Hmid Hpost Hfirst Hlast. split.
  - destruct (get_for_id_prefix id pre Hpre) as [Hfound _].
    apply Hfound, Hfirst.
  - unfold dict_of_table.
    assert (Hany : forall (rows : list (list string))
                     (d0 : gmap string (list string)),
              Forall (fun row => row <> []) rows ->
              exists d,
                fold_rows (fun d row => let* k := index row 0 in Ok (<[k := row]> d))
                  d0 rows = Ok d).
    { induction rows as [|row rows IH]; intros d0 Hrows; cbn [fold_rows];
        [eauto|].
      apply Forall_cons in Hrows as [Hrow Hrows].
      destruct row as [|k row]; [congruence|].
      cbn [index lookup list_lookup bind]. apply IH, Hrows. }
    rewrite fold_rows_app.
    destruct (Hany pre ∅) as [d1 ->].
    { eapply Forall_impl; [exact Hpre|]. intros row [Hne _]. exact Hne. }
    cbn [bind fold_rows].
    destruct first as [|k1 first]; [discriminate|].
    cbn [index lookup list_lookup bind]. rewrite fold_rows_app.
    destruct (Hany mid (<[k1 := k1 :: first]> d1) Hmid) as [d2 ->].
    cbn [bind fold_rows].
    destruct last as [|k2 last]; [discriminate|].
    cbn in Hlast. injection Hlast as ->.
    cbn [index lookup list_lookup bind].
    destruct (fold_rows_dict_keeps id post Hpost (<[id := id :: last]> d2))
      as (d & -> & Hd).
    exists d. split; [reflexivity|]. rewrite Hd. apply lookup_insert_eq.
Qed.

End utils_facts.

Section daytime_facts.
Context `{Library}.

(** X4.  [utils.daytime] raises only on a [None] time; on a datetime it
    returns, and when it returns a boolean the day-cycle table has the zone
    name and the sunrise and sunset of that date, both parse, and the
    boolean says that the instant lies strictly between them: a time exactly
    at sunrise or exactly at sunset is not daytime. *)
Theorem daytime_strictly_between (time : datetime) (daycycle : utils.daycycle_table) :
  utils.daytime None daycycle = Raise AttributeError /\
  (exists r, utils.daytime (Some time) daycycle = Ok r) /\
  (forall b : bool,
     utils.daytime (Some time) daycycle = Ok (Some b) ->
     exists (tzname sunrise_str sunset_str : string)
            (days : gmap string (option string * option string))
            (sunrise sunset : datetime),
       utils.dc_timezone daycycle = Some tzname /\
       utils.dc_years daycycle !! year_str time = Some days /\
       days !! month_day_str time = Some (Some sunrise_str, Some sunset_str) /\
       utils.str_to_time (date_isoformat time ++ "T" ++ sunrise_str)
         (utils.ZoneName tzname) = Some sunrise /\
       utils.str_to_time (date_isoformat time ++ "T" ++ sunset_str)
         (utils.ZoneName tzname) = Some sunset /\
       (b = true <->
        utils.utc_of sunrise < instant_in tzname time < utils.utc_of sunset) /\
       (instant_in tzname time = utils.utc_of sunrise -> b = false) /\
       (instant_in tzname time = utils.utc_of sunset -> b = false)).
Proof.
  split; [reflexivity|]. unfold utils.daytime. cbv zeta.
  destruct (utils.dc_timezone daycycle) as [tzname|];
    [|split; [eauto | discriminate]].
  destruct (utils.dc_years daycycle !! year_str time) as [days|];
    [|split; [eauto | discriminate]].
  destruct (days !! month_day_str time) as [[[sunrise_str|] [sunset_str|]]|]
    eqn:Edays; try (split; [eauto | discriminate]).
  destruct (utils.str_to_time _ _) as [sunrise|] eqn:Esunrise;
    [|split; [eauto | discriminate]].
  destruct (utils.str_to_time (date_isoformat time ++ "T" ++ sunset_str) _)
    as [sunset|] eqn:Esunset; [|split; [eauto | discriminate]].
  split; [eauto|]. intros b [= <-].
  exists tzname, sunrise_str, sunset_str, days, sunrise, sunset.
  change (match time with
          | Naive w => w - pytz_utcoffset tzname w
          | Aware u _ => u
          end) with (instant_in tzname time).
  do 5 (split; [reflexivity || assumption|]).
  split; [|split].
  - rewrite andb_true_iff, !Z.ltb_lt. reflexivity.
  - intros ->. rewrite Z.ltb_irrefl. reflexivity.
  - intros ->. rewrite Z.ltb_irrefl. apply andb_false_r.
Qed.

End daytime_facts.

(** ** pilots *)

Section pilots_facts.
Context `{Library}.

Lemma has_dated_qualification_at (idx : nat) (takeoff : datetime)
    (student : list string) (date_str : string) :
  student !! idx = Some date_str ->
  pilots.has_dated_qualification idx (Some takeoff) student
  = Ok (qualified_at takeoff date_str).
Proof.
  intros Hcell. unfold pilots.has_dated_qualification, qualified_at.
  rewrite (index_lookup _ _ _ Hcell). cbn [bind].
  destruct (String.eqb date_str ""); [reflexivity|].
  unfold utils.str_to_time, pilots.tzsource_of.
  destruct (parser_parse date_str) as [[w|u off]|], takeoff as [wt|t offt];
    cbn [tzinfo replace_tzinfo dt_ge]; reflexivity.
Qed.

(** X5.  The three dated qualifications ([has_instrument_rating],
    [has_advanced_endorsement], [has_multiengine_endorsement]) never raise on
    a parsed takeoff, whether it or the stored date carries a zone or not:
    each is true exactly when its cell is not empty, parses, and dates on or
    before the takeoff (a date earned at the very instant of takeoff
    counts).  With a [None] takeoff an empty cell still gives [False], and a
    filled one raises [AttributeError]. *)
Theorem dated_qualifications_inclusive (takeoff : datetime) (student : list string)
    (instrument advanced multiengine : string) :
  student !! 7%nat = Some instrument ->
  student !! 8%nat = Some advanced ->
  student !! 9%nat = Some multiengine ->
  pilots.has_instrument_rating (Some takeoff) student
  = Ok (qualified_at takeoff instrument) /\
  pilots.has_advanced_endorsement (Some takeoff) student
  = Ok (qualified_at takeoff advanced) /\
  pilots.has_multiengine_endorsement (Some takeoff) student
  = Ok (qualified_at takeoff multiengine) /\
  (forall u off, parser_parse instrument = Some (Aware u off) ->
     instrument <> "" -> qualified_at (Aware u off) instrument = true) /\
  pilots.has_instrument_rating None student
  = (if String.eqb instrument "" then Ok false else Raise AttributeError).
Proof.
  intros H7 H8 H9.
  split; [apply has_dated_qualification_at, H7|].
  split; [apply has_dated_qualification_at, H8|].
  split; [apply has_dated_qualification_at, H9|].
  split.
  - intros u off Hparse Hne. unfold qualified_at.
    apply String.eqb_neq in Hne. rewrite Hne, Hparse. apply Z.leb_refl.
  - unfold pilots.has_instrument_rating, pilots.has_dated_qualification.
    rewrite (index_lookup _ _ _ H7). cbn [bind].
    destruct (String.eqb instrument ""); reflexivity.
Qed.

Lemma parse_date_returns (takeoff : datetime) (date_str : string) :
  exists d, pilots.parse_date (Some takeoff) date_str = Ok d.
Proof.
  unfold pilots.parse_date. destruct (String.eqb date_str ""); [eauto|].
  destruct (utils.str_to_time _ _) as [[w|u off]|]; eauto.
Qed.

(** X6.  [get_certification] does not reconcile zones the way the dated
    qualifications do: with a takeoff that carries no zone and a join date
    that carries one, it raises [TypeError] at its first comparison. *)
Theorem get_certification_mixed_zones_raise (wall : Z) (student : list string)
    (joined : string) (u off : Z) :
  (7 <= length student)%nat ->
  student !! 3%nat = Some joined ->
  joined <> "" ->
  parser_parse joined = Some (Aware u off) ->
  pilots.get_certification (Some (Naive wall)) student = Raise TypeError.
Proof.
  intros Hlen Hcell Hne Hparse. unfold pilots.get_certification.
  rewrite (index_lookup _ _ _ Hcell). cbn [bind].
  assert (Hjoined : pilots.parse_date (Some (Naive wall)) joined
                    = Ok (Some (Aware u off))).
  { unfold pilots.parse_date, utils.str_to_time.
    apply String.eqb_neq in Hne. rewrite Hne, Hparse. reflexivity. }
  rewrite Hjoined. cbn [bind].
  destruct (index_in_range student 4 ltac:(lia)) as (s4 & _ & ->).
  destruct (index_in_range student 5 ltac:(lia)) as (s5 & _ & ->).
  destruct (index_in_range student 6 ltac:(lia)) as (s6 & _ & ->).
  cbn [bind].
  destruct (parse_date_returns (Naive wall) s4) as [d4 ->].
  destruct (parse_date_returns (Naive wall) s5) as [d5 ->].
  destruct (parse_date_returns (Naive wall) s6) as [d6 ->].
  reflexivity.
Qed.

(** X7.  With a takeoff that failed to parse ([None]), [get_certification]
    returns [PILOT_INVALID] when the four date cells of the pilot are all
    empty, and raises [AttributeError] as soon as one of them is filled. *)
Theorem get_certification_without_takeoff (student : list string) :
  (7 <= length student)%nat ->
  pilots.get_certification None student
  = if String.eqb (cell student 3) "" && String.eqb (cell student 4) ""
       && String.eqb (cell student 5) "" && String.eqb (cell student 6) ""
    then Ok pilots.PILOT_INVALID
    else Raise AttributeError.
Proof.
  intros Hlen. unfold pilots.get_certification, pilots.parse_date.
  rewrite !cell_lookup by lia. cbn [bind].
  destruct (String.eqb (cell student 3) ""); [|reflexivity]. cbn [bind].
  destruct (String.eqb (cell student 4) ""); [|reflexivity]. cbn [bind].
  destruct (String.eqb (cell student 5) ""); [|reflexivity]. cbn [bind].
  destruct (String.eqb (cell student 6) ""); reflexivity.
Qed.

(** X8.  On an aware takeoff and a pilot row with its date cells,
    [get_certification] returns one of the five tiers, and the tier is the
    highest threshold met, the lower ones not being asked for: Invalid
    exactly when the join date is not met, whatever else is; FiftyHours when
    the 50-hours date is met; Certified when the license date is met (even
    with no solo date); Student when the solo date is met; Novice
    otherwise. *)
Theorem get_certification_highest_met (t off : Z) (student : list string) :
  (7 <= length student)%nat ->
  let met := fun i : nat => threshold_met t off (cell student i) in
  exists tier : Z,
    pilots.get_certification (Some (Aware t off)) student = Ok tier /\
    pilots.PILOT_INVALID <= tier <= pilots.PILOT_50_HOURS /\
    (tier = pilots.PILOT_INVALID <-> met 3%nat = false) /\
    (tier = pilots.PILOT_50_HOURS <-> met 3%nat = true /\ met 6%nat = true) /\
    (tier = pilots.PILOT_CERTIFIED <->
     met 3%nat = true /\ met 6%nat = false /\ met 5%nat = true) /\
    (tier = pilots.PILOT_STUDENT <->
     met 3%nat = true /\ met 6%nat = false /\ met 5%nat = false
     /\ met 4%nat = true) /\
    (tier = pilots.PILOT_NOVICE <->
     met 3%nat = true /\ met 6%nat = false /\ met 5%nat = false
     /\ met 4%nat = false).
Proof.
  intros Hlen met.
  assert (Hcells : forall i : nat, (i < 7)%nat -> student !! i = Some (cell student i)).
  { intros i Hi. unfold cell.
    destruct (lookup_lt_is_Some_2 student i) as [x Hx]; [lia|].
    rewrite Hx. reflexivity. }
  eexists. split.
  - apply (get_certification_aware t off student _ _ _ _
             (Hcells 3%nat ltac:(lia)) (Hcells 4%nat ltac:(lia))
             (Hcells 5%nat ltac:(lia)) (Hcells 6%nat ltac:(lia))).
  - fold (met 3%nat) (met 4%nat) (met 5%nat) (met 6%nat).
    unfold tier_of, pilots.PILOT_INVALID, pilots.PILOT_50_HOURS,
      pilots.PILOT_CERTIFIED, pilots.PILOT_STUDENT, pilots.PILOT_NOVICE.
    destruct (met 3%nat), (met 4%nat), (met 5%nat), (met 6%nat); cbn [negb];
      repeat split; intros; try lia; try discriminate; try tauto;
      repeat match goal with H : _ /\ _ |- _ => destruct H end;
      try discriminate.
Qed.

End pilots_facts.

Section minimums_facts.
Context `{Library}.

Lemma column_values_any (idx : nat) (data : list (list string)) :
  Forall (float_column idx) data ->
  exists values,
    pilots.column_values data idx = Ok values /\ length values = length data.
Proof.
  induction 1 as [|row rest (s & q & Hs & Hq) _ (values & IH & Hlen)].
  - exists []. split; reflexivity.
  - exists (q :: values). cbn [pilots.column_values].
    rewrite (index_lookup _ _ _ Hs). cbn [bind]. unfold pilots.to_float.
    rewrite Hq. cbn [bind]. rewrite IH. cbn [bind length].
    split; [reflexivity | congruence].
Qed.

Lemma least_le_greatest (lo hi : Q) (values : list Q) :
  least lo values -> greatest hi values -> (lo <= hi)%Q.
Proof.
  intros [Hin _] [_ Hall]. revert lo Hin. apply List.Forall_forall. exact Hall.
Qed.

(** X9.  On a non-empty table whose column [index] reads as floats,
    [get_best_value] returns with both settings of [maximum]: the lowest
    value of the column for [False], the highest for [True], each a value of
    the column, and the lowest is not above the highest.  On an empty table
    it raises [ValueError], whatever [maximum] is. *)
Theorem get_best_value_extremes (data : list (list string)) (idx : nat) :
  data <> [] ->
  Forall (float_column idx) data ->
  (exists (values : list Q) (lowest highest : Q),
     pilots.column_values data idx = Ok values /\
     pilots.get_best_value data idx false = Ok lowest /\
     pilots.get_best_value data idx true = Ok highest /\
     least lowest values /\ greatest highest values /\
     (lowest <= highest)%Q) /\
  (forall maximum : bool,
     pilots.get_best_value [] idx maximum = Raise ValueError).
Proof.
  intros Hne Hcol. split; [|intros []; reflexivity].
  destruct (column_values_any idx data Hcol) as (values & Hvalues & Hlen).
  assert (Hvne : values <> []).
  { intros ->. destruct data; [congruence | discriminate]. }
  destruct (py_min_least values Hvne) as (lowest & Hmin & Hleast).
  destruct (py_max_greatest values Hvne) as (highest & Hmax & Hgreatest).
  exists values, lowest, highest. unfold pilots.get_best_value.
  rewrite Hvalues. cbn [bind].
  repeat (split; [reflexivity || assumption|]).
  eapply least_le_greatest; eassumption.
Qed.

Lemma least_of_superset (f : list string -> Q) (small large : list (list string))
    (m m' : Q) :
  (forall row, In row small -> In row large) ->
  least m (map f small) -> least m' (map f large) -> (m' <= m)%Q.
Proof.
  intros Hincl [Hin _] [_ Hall].
  apply List.in_map_iff in Hin as (row & <- & Hrow).
  assert (Hin' : In (f row) (map f large)) by (apply List.in_map, Hincl, Hrow).
  revert Hin'. generalize (f row). apply List.Forall_forall. exact Hall.
Qed.

Lemma greatest_of_superset (f : list string -> Q) (small large : list (list string))
    (m m' : Q) :
  (forall row, In row small -> In row large) ->
  greatest m (map f small) -> greatest m' (map f large) -> (m <= m')%Q.
Proof.
  intros Hincl [Hin _] [_ Hall].
  apply List.in_map_iff in Hin as (row & <- & Hrow).
  assert (Hin' : In (f row) (map f large)) by (apply List.in_map, Hincl, Hrow).
  revert Hin'. generalize (f row). apply List.Forall_forall. exact Hall.
Qed.

Lemma get_minimums_candidates (cert : Z) (area : string)
    (instructed vfr daytime : bool) (minimums : list (list string)) :
  Forall policy_row (tail minimums) ->
  let candidates :=
    List.filter (matches_all_four cert area instructed vfr daytime)
      (tail minimums) in
  match candidates with
  | [] =>
      pilots.get_minimums cert area instructed vfr daytime minimums = Ok None
  | _ =>
      exists c v w x : Q,
        pilots.get_minimums cert area instructed vfr daytime minimums
        = Ok (Some [c; v; w; x]) /\
        least c (map (float_cell 4) candidates) /\
        least v (map (float_cell 5) candidates) /\
        greatest w (map (float_cell 6) candidates) /\
        greatest x (map (float_cell 7) candidates)
  end.
Proof.
  intros Hrows candidates. unfold pilots.get_minimums.
  rewrite collect_matches_filter by assumption. cbn [bind]. fold candidates.
  assert (Hcand : Forall policy_row candidates).
  { apply List.Forall_forall. intros row Hin.
    apply List.filter_In in Hin as [Hin _].
    revert row Hin. apply List.Forall_forall. assumption. }
  destruct candidates as [|row rest] eqn:E; [reflexivity|].
  assert (Hne : row :: rest <> []) by discriminate.
  destruct (get_best_value_min (row :: rest) 4 ltac:(lia) Hcand Hne)
    as (c & Ec & Hc).
  destruct (get_best_value_min (row :: rest) 5 ltac:(lia) Hcand Hne)
    as (v & Ev & Hv).
  destruct (get_best_value_max (row :: rest) 6 ltac:(lia) Hcand Hne)
    as (w & Ew & Hw).
  destruct (get_best_value_max (row :: rest) 7 ltac:(lia) Hcand Hne)
    as (x & Ex & Hx).
  exists c, v, w, x.
  unfold pilots.IDX_CEILING, pilots.IDX_VISIBILITY, pilots.IDX_WIND,
    pilots.IDX_CROSSWIND.
  rewrite Ec, Ev, Ew, Ex. auto.
Qed.

Lemma get_minimums_relaxed (cert cert' : Z) (area : string)
    (instructed instructed' vfr daytime : bool) (minimums : list (list string))
    (c v w x : Q) :
  Forall policy_row (tail minimums) ->
  (forall row,
     matches_all_four cert area instructed vfr daytime row = true ->
     matches_all_four cert' area instructed' vfr daytime row = true) ->
  pilots.get_minimums cert area instructed vfr daytime minimums
  = Ok (Some [c; v; w; x]) ->
  exists c' v' w' x' : Q,
    pilots.get_minimums cert' area instructed' vfr daytime minimums
    = Ok (Some [c'; v'; w'; x']) /\
    (c' <= c)%Q /\ (v' <= v)%Q /\ (w <= w')%Q /\ (x <= x')%Q.
Proof.
  intros Hrows Hmore Hres.
  pose proof (get_minimums_candidates cert area instructed vfr daytime
                minimums Hrows) as Hsmall.
  pose proof (get_minimums_candidates cert' area instructed' vfr daytime
                minimums Hrows) as Hlarge.
  cbv zeta in Hsmall, Hlarge.
  set (small := List.filter (matches_all_four cert area instructed vfr daytime)
                  (tail minimums)) in *.
  set (large := List.filter (matches_all_four cert' area instructed' vfr daytime)
                  (tail minimums)) in *.
  assert (Hincl : forall row, In row small -> In row large).
  { intros row Hin. apply List.filter_In in Hin as [Hin Hm].
    apply List.filter_In. split; [assumption | apply Hmore, Hm]. }
  destruct small as [|r rest] eqn:Esmall; [congruence|].
  destruct Hsmall as (c0 & v0 & w0 & x0 & Hres0 & Hc & Hv & Hw & Hx).
  rewrite Hres in Hres0. injection Hres0 as <- <- <- <-.
  destruct large as [|r' rest'] eqn:Elarge.
  { destruct (Hincl r). left. reflexivity. }
  destruct Hlarge as (c' & v' & w' & x' & Hres' & Hc' & Hv' & Hw' & Hx').
  exists c', v', w', x'. split; [assumption|].
  repeat split.
  - eapply least_of_superset; eassumption.
  - eapply least_of_superset; eassumption.
  - eapply greatest_of_superset; eassumption.
  - eapply greatest_of_superset; eassumption.
Qed.

(** X10.  An instructor never tightens the limits: on a table of policy
    rows, if [get_minimums] returns limits for a flight without instructor,
    it returns limits for the same flight with one, with a ceiling and a
    visibility that are not higher and a wind and a crosswind that are not
    lower. *)
Theorem instructor_never_tightens (cert : Z) (area : string) (vfr daytime : bool)
    (minimums : list (list string)) (c v w x : Q) :
  Forall policy_row (tail minimums) ->
  pilots.get_minimums cert area false vfr daytime minimums
  = Ok (Some [c; v; w; x]) ->
  exists c' v' w' x' : Q,
    pilots.get_minimums cert area true vfr daytime minimums
    = Ok (Some [c'; v'; w'; x']) /\
    (c' <= c)%Q /\ (v' <= v)%Q /\ (w <= w')%Q /\ (x <= x')%Q.
Proof.
  intros Hrows. apply get_minimums_relaxed; [assumption|].
  intros row. unfold matches_all_four, pilots.category_matches.
  destruct (String.eqb (cell row 0) "Dual"); [discriminate | auto].
Qed.

(** X11.  A higher certification never tightens the limits either: for
    tiers [cert <= cert'] up to 50 Hours, limits returned for [cert] are
    matched or relaxed by the limits returned for [cert']. *)
Theorem higher_tier_never_tightens (cert cert' : Z) (area : string)
    (instructed vfr daytime : bool) (minimums : list (list string))
    (c v w x : Q) :
  cert <= cert' <= pilots.PILOT_50_HOURS ->
  Forall policy_row (tail minimums) ->
  pilots.get_minimums cert area instructed vfr daytime minimums
  = Ok (Some [c; v; w; x]) ->
  exists c' v' w' x' : Q,
    pilots.get_minimums cert' area instructed vfr daytime minimums
    = Ok (Some [c'; v'; w'; x']) /\
    (c' <= c)%Q /\ (v' <= v)%Q /\ (w <= w')%Q /\ (x <= x')%Q.
Proof.
  intros Htier Hrows. apply get_minimums_relaxed; [assumption|].
  intros row. unfold matches_all_four. rewrite !andb_true_iff.
  intros [[[Hcat Hcond] Harea] Htime]. repeat split; try assumption.
  revert Hcat. unfold pilots.category_matches, pilots.PILOT_50_HOURS,
    pilots.PILOT_CERTIFIED, pilots.PILOT_STUDENT in *.
  destruct (String.eqb (cell row 0) "Dual"); [auto|].
  destruct (String.eqb (cell row 0) "50 Hours");
    [rewrite !Z.eqb_eq; lia|].
  destruct (String.eqb (cell row 0) "Certified");
    [rewrite !negb_true_iff, !Z.ltb_ge; lia|].
  destruct (String.eqb (cell row 0) "Student");
    [rewrite !negb_true_iff, !Z.ltb_ge; lia | auto].
Qed.

End minimums_facts.

(** ** violations *)

Section weather_facts.
Context `{Library}.

Lemma worst_wind_exceeds (speed gusts maxwind : Q) :
  Qgtb (if Qgtb gusts speed then gusts else speed) maxwind = true
  <-> (maxwind < speed)%Q \/ (maxwind < gusts)%Q.
Proof.
  destruct (Qgtb gusts speed) eqn:E; rewrite Qgtb_gt.
  - apply Qgtb_gt in E. split; [auto|].
    intros [Hs | Hg]; [eapply Qlt_trans; eassumption | assumption].
  - apply Qltb_ge in E. split; [auto|].
    intros [Hs | Hg]; [assumption | eapply Qlt_le_trans; eassumption].
Qed.

(** X12.  For a structured wind reading (a dictionary whose 'speed' is a
    number and whose optional 'gusts' and 'crosswind' are numbers, all
    within the range of floats),
    [bad_winds] reports a violation exactly when the speed or the gusts (the
    speed standing in for missing gusts) are strictly above the maximum
    wind, or the crosswind (zero when missing) is strictly above the maximum
    crosswind.  A value in meters per second counts as its float product
    with the float 1.94384, rounded as the code rounds it, so what is
    compared with the maxima is that product and not the exact one; a value
    in knots is compared as it is, and winds exactly at the maxima are no
    violation.  Calm winds are never one. *)
Theorem bad_winds_exceeds (d : list (string * pyval)) (speed : Q)
    (gusts crosswind : option Q) (maxwind maxcross : Q) :
  dict_get d "speed" = Some (PNum speed) ->
  dict_get d "gusts" = PNum <$> gusts ->
  dict_get d "crosswind" = PNum <$> crosswind ->
  fits_float speed ->
  from_option fits_float True gusts ->
  from_option fits_float True crosswind ->
  let knots := fun q : Q =>
    if is_str (default (PStr "KT") (dict_get d "units")) "MPS"
    then fmul (as_float q) violations.MPS_TO_KT else q in
  (exists b : bool,
     violations.bad_winds (PDict d) maxwind maxcross = Ok b /\
     (b = true <->
      (maxwind < knots speed)%Q \/ (maxwind < knots (default speed gusts))%Q
      \/ (maxcross < knots (default 0%Q crosswind))%Q)) /\
  violations.bad_winds (PStr "calm") maxwind maxcross = Ok false.
Proof.
  intros Hspeed Hgusts Hcross _ _ _ knots. split; [|reflexivity].
  unfold violations.bad_winds. cbn [is_str]. rewrite Hspeed, Hgusts, Hcross.
  subst knots. cbv beta.
  destruct (is_str (default (PStr "KT") (dict_get d "units")) "MPS");
    destruct gusts as [g|], crosswind as [c|];
    cbn [fmap option_fmap option_map]; unfold default, from_option, id;
    cbn [as_number bind]; unfold py_or; cbn [as_number bind];
    eexists;
    (split;
     [match goal with
      | |- (if ?x then Ok true else Ok ?y) = _ =>
          instantiate (1 := x || y); destruct x; reflexivity
      end|]);
    rewrite orb_true_iff, worst_wind_exceeds, Qgtb_gt; tauto.
Qed.

Lemma relevant_heights_readable (layers : list pyval) :
  forallb readable_layer layers = true ->
  exists qs : list Q,
    violations.relevant_heights layers = Ok (map PNum qs) /\
    violations.as_numbers (map PNum qs) = Ok qs /\
    (forall h : Q,
       In h qs <->
       exists d, In (PDict d) layers /\ counts_as_ceiling d = true
                 /\ dict_get d "height" = Some (PNum h)).
Proof.
  induction layers as [|layer rest IH]; cbn [forallb].
  - intros _. exists []. repeat split; try reflexivity.
    + intros [].
    + intros (d & [] & _).
  - rewrite andb_true_iff. intros [Hlayer Hrest].
    destruct (IH Hrest) as (qs & Hheights & Hnums & Hin).
    destruct layer as [| | | | |d]; try discriminate.
    cbn [violations.relevant_heights]. rewrite Hheights. cbn [bind].
    change ((is_str (get_or_None d "type") "broken"
             || is_str (get_or_None d "type") "overcast"
             || is_str (get_or_None d "type") "indefinite ceiling")
            && is_str (get_or_None d "units") "FT")
      with (counts_as_ceiling d).
    cbn [readable_layer] in Hlayer.
    destruct (counts_as_ceiling d) eqn:Ecounts.
    + apply is_float_inv in Hlayer as [h Hh].
      exists (h :: qs). unfold get_or_None at 1. rewrite Hh.
      unfold default, from_option, id.
      cbn [map violations.as_numbers as_number bind]. rewrite Hnums.
      cbn [bind]. repeat split; try reflexivity.
      * intros [<- | Hq].
        -- exists d. split; [left; reflexivity | auto].
        -- apply Hin in Hq as (d' & Hd' & Hc & Hh').
           exists d'. split; [right; assumption | auto].
      * intros (d' & [Heq | Hd'] & Hc & Hh').
        -- injection Heq as <-. left. congruence.
        -- right. apply Hin. eauto.
    + exists qs. repeat split; try assumption.
      * intros Hq. apply Hin in Hq as (d' & Hd' & Hc & Hh').
        exists d'. split; [right; assumption | auto].
      * intros (d' & [Heq | Hd'] & Hc & Hh').
        -- injection Heq as <-. congruence.
        -- apply Hin. eauto.
Qed.

(** X13.  On a list of cloud layers that are dictionaries (a layer that
    counts having a float for its height), [bad_ceiling] returns, and
    reports a violation exactly when some layer that is broken, overcast or
    an indefinite ceiling, and is measured in feet, lies strictly below the
    minimum.  Layers of other types, and layers whose units are not 'FT',
    never make a violation, however low. *)
Theorem bad_ceiling_lowest_layer (layers : list pyval) (minimum : Q) :
  forallb readable_layer layers = true ->
  exists b : bool,
    violations.bad_ceiling (PList layers) minimum = Ok b /\
    (b = true <->
     exists (d : list (string * pyval)) (h : Q),
       In (PDict d) layers /\ counts_as_ceiling d = true /\
       dict_get d "height" = Some (PNum h) /\ (h < minimum)%Q).
Proof.
  intros Hlayers.
  destruct (relevant_heights_readable layers Hlayers)
    as (qs & Hheights & Hnums & Hin).
  unfold violations.bad_ceiling. cbn [is_str]. rewrite Hheights. cbn [bind].
  destruct qs as [|q qs].
  - exists false. split; [reflexivity|]. split; [discriminate|].
    intros (d & h & Hd & Hc & Hh & _).
    destruct (proj2 (Hin h)) as []. eauto.
  - cbn [map]. change (PNum q :: map PNum qs) with (map PNum (q :: qs)).
    rewrite Hnums. cbn [bind].
    destruct (py_min_least (q :: qs) ltac:(discriminate))
      as (lowest & -> & Hlow_in & Hlow_all).
    cbn [bind]. eexists. split; [reflexivity|]. rewrite Qltb_lt. split.
    + intros Hlt. apply Hin in Hlow_in as (d & Hd & Hc & Hh).
      exists d, lowest. auto.
    + intros (d & h & Hd & Hc & Hh & Hlt).
      assert (Hq : In h (q :: qs)) by (apply Hin; eauto).
      eapply Qle_lt_trans; [|exact Hlt].
      exact (proj1 (List.Forall_forall _ _) Hlow_all h Hq).
Qed.

End weather_facts.

Section weather_report_facts.
Context `{Library}.

Lemma closest_before_step (t off : Z) (key : string) (v : pyval)
    (rest : list (string * pyval)) (acc : option (datetime * string)) :
  violations.closest_before (Aware t off) ((key, v) :: rest) acc
  = violations.closest_before (Aware t off) rest
      match parser_parse key with
      | Some (Aware u o) =>
          if u <? t then
            match acc with
            | None => Some (Aware u o, key)
            | Some (Aware cu _, _) => if cu <? u then Some (Aware u o, key) else acc
            | Some (Naive _, _) => acc
            end
          else acc
      | _ => acc
      end.
Proof.
  cbn [violations.closest_before pilots.tzsource_of tzinfo].
  unfold utils.str_to_time.
  destruct (parser_parse key) as [[w|u o]|]; cbn [dt_lt]; try reflexivity.
  destruct (u <? t); [|reflexivity].
  destruct acc as [[[cw|cu co] ck]|]; cbn [dt_lt]; reflexivity.
Qed.

Lemma closest_before_latest (t off : Z) (entries : list (string * pyval)) :
  forall acc : option (datetime * string),
    (forall ct ck, acc = Some (ct, ck) -> exists cu co, ct = Aware cu co) ->
    match violations.closest_before (Aware t off) entries acc with
    | None =>
        acc = None /\
        forall key, In key (map fst entries) -> report_before t key = None
    | Some (rt, rk) =>
        exists ru ro : Z,
          rt = Aware ru ro /\
          (acc = Some (rt, rk)
           \/ (In rk (map fst entries) /\ report_before t rk = Some ru)) /\
          (forall key u, In key (map fst entries) ->
                         report_before t key = Some u -> u <= ru) /\
          (forall cu co ck, acc = Some (Aware cu co, ck) -> cu <= ru)
    end.
Proof.
  induction entries as [|[key v] rest IH]; intros acc Hacc.
  - cbn [violations.closest_before map].
    destruct acc as [[ct ck]|].
    + destruct (Hacc ct ck eq_refl) as (cu & co & ->).
      exists cu, co. repeat split; auto.
      * intros key u [].
      * intros cu' co' ck' [= -> _ _]. lia.
    + split; [reflexivity|]. intros key [].
  - rewrite closest_before_step.
    set (acc' := match parser_parse key with
                 | Some (Aware u o) => _
                 | _ => acc
                 end).
    assert (Hcases :
              (acc' = acc /\ (report_before t key = None
                              \/ exists u cu co ck,
                                   report_before t key = Some u /\
                                   acc = Some (Aware cu co, ck) /\ u <= cu))
              \/ (exists u o, acc' = Some (Aware u o, key) /\
                              report_before t key = Some u /\
                              forall cu co ck, acc = Some (Aware cu co, ck) ->
                                               cu < u)).
    { subst acc'. unfold report_before.
      destruct (parser_parse key) as [[w|u o]|]; [left; auto | | left; auto].
      destruct (Z.ltb_spec u t) as [Hut|Hut]; [|left; auto].
      destruct acc as [[[cw|cu co] ck]|].
      - destruct (Hacc _ _ eq_refl) as (? & ? & [=]).
      - destruct (Z.ltb_spec cu u) as [Hcu|Hcu].
        + right. exists u, o. repeat split.
          intros cu' co' ck' [= -> _ _]. exact Hcu.
        + left. split; [reflexivity|]. right. exists u, cu, co, ck. auto.
      - right. exists u, o. repeat split. intros cu' co' ck' [=]. }
    assert (Hacc' : forall ct ck, acc' = Some (ct, ck) ->
                                  exists cu co, ct = Aware cu co).
    { destruct Hcases as [[-> _] | (u & o & -> & _)]; [exact Hacc|].
      intros ct ck [= <- _]. eauto. }
    specialize (IH acc' Hacc'). clearbody acc'.
    destruct (violations.closest_before (Aware t off) rest acc')
      as [[rt rk]|].
    + destruct IH as (ru & ro & -> & Hfrom & Hlatest & Hge).
      exists ru, ro. split; [reflexivity|]. cbn [map fst].
      destruct Hcases as [[-> Hkey] | (u & o & -> & Hkey & Hlt)].
      * split; [|split].
        -- destruct Hfrom as [Hfrom | [Hin Hrb]]; [left; exact Hfrom|].
           right. split; [right; exact Hin | exact Hrb].
        -- intros key' u' [<- | Hin] Hrb; [|eapply Hlatest; eassumption].
           destruct Hkey as [Hnone | (u & cu & co & ck & Hu & Hacc_eq & Hle)];
             [congruence|].
           rewrite Hu in Hrb. injection Hrb as <-.
           specialize (Hge cu co ck Hacc_eq). lia.
        -- exact Hge.
      * specialize (Hge u o key eq_refl). split; [|split].
        -- right. destruct Hfrom as [Heq | [Hin Hrb]].
           ++ inversion Heq; subst. split; [left; reflexivity | exact Hkey].
           ++ split; [right; exact Hin | exact Hrb].
        -- intros key' u' [<- | Hin] Hrb; [|eapply Hlatest; eassumption].
           rewrite Hkey in Hrb. injection Hrb as <-. exact Hge.
        -- intros cu co ck Hacc_eq. specialize (Hlt cu co ck Hacc_eq). lia.
    + destruct IH as [-> Hnone].
      destruct Hcases as [[<- Hkey] | (u & o & [=] & _)].
      split; [reflexivity|]. cbn [map fst].
      intros key' [<- | Hin]; [|apply Hnone, Hin].
      destruct Hkey as [Hkey | (u & cu & co & ck & _ & [=] & _)]. exact Hkey.
Qed.

(** X14.  [get_weather_report], for an aware takeoff: a report filed under
    the ISO form of the takeoff is the one returned.  Without one, the
    function returns [None] when no key of the dictionary parses to an aware
    time strictly before the takeoff (keys that do not parse, or parse
    without a zone, are passed over), and otherwise the report of a key that
    does and that no such key is later than. *)
Theorem get_weather_report_latest_before (t off : Z)
    (weather : list (string * pyval)) :
  (forall report,
     dict_get weather (isoformat (Aware t off)) = Some report ->
     violations.get_weather_report (Aware t off) weather = report) /\
  (dict_get weather (isoformat (Aware t off)) = None ->
   ((forall key, In key (map fst weather) -> report_before t key = None) /\
    violations.get_weather_report (Aware t off) weather = PNone)
   \/ (exists (key : string) (u : Z),
         In key (map fst weather) /\ report_before t key = Some u /\
         (forall key' u', In key' (map fst weather) ->
                          report_before t key' = Some u' -> u' <= u) /\
         violations.get_weather_report (Aware t off) weather
         = get_or_None weather key)).
Proof.
  unfold violations.get_weather_report. split.
  - intros report ->. reflexivity.
  - intros ->.
    pose proof (closest_before_latest t off weather None
                  ltac:(intros ? ? [=])) as Hlatest.
    destruct (violations.closest_before (Aware t off) weather None)
      as [[rt rk]|].
    + right. destruct Hlatest as (ru & ro & -> & Hfrom & Hmax & _).
      destruct Hfrom as [[=] | [Hin Hrb]].
      exists rk, ru. auto.
    + left. destruct Hlatest as [_ Hnone]. auto.
Qed.

End weather_report_facts.

(** ** The rows the scans return *)

Section scan_rows.
Context `{Library}.

Ltac pass_cases_eqn :=
  repeat match goal with
    | |- context [bind ?m _] =>
        let E := fresh "E" in destruct m eqn:E; cbn [bind]
    | |- (if ?b then _ else _) = _ -> _ =>
        let E := fresh "E" in destruct b eqn:E
    | |- match ?x with _ => _ end = _ -> _ =>
        let E := fresh "E" in destruct x eqn:E
    | |- Ok (match ?x with _ => _ end) = _ -> _ =>
        let E := fresh "E" in destruct x eqn:E
    end.

Lemma index_Ok_lookup {A : Type} (row : list A) (i : nat) (x : A) :
  index row i = Ok x -> row !! i = Some x.
Proof. unfold index. destruct (row !! i); [intros [= ->]; reflexivity | discriminate]. Qed.

Lemma for_each_raise {A B : Type} (body : A -> result (option B))
    (pre post : list A) (x : A) (e : exn) :
  (exists items, for_each body pre = Ok items) ->
  body x = Raise e ->
  for_each body (pre ++ x :: post) = Raise e.
Proof.
  intros [items Hpre] Hx. revert items Hpre.
  induction pre as [|y pre IH]; cbn [app for_each]; intros items Hpre.
  - rewrite Hx. reflexivity.
  - destruct (body y) as [item|]; cbn [bind] in *; [|discriminate].
    destruct (for_each body pre) as [items'|] eqn:E; cbn [bind] in *;
      [|discriminate].
    rewrite (IH items' eq_refl). reflexivity.
Qed.

Lemma weather_label_of_any_input (weather : pyval) (minimums : option (list Q))
    (label : string) :
  violations.get_weather_violation weather minimums = Ok (Some label) ->
  In label ["Unknown"; ""; "Weather"; "Visibility"; "Winds"; "Ceiling"].
Proof.
  unfold violations.get_weather_violation.
  destruct weather; try (intros [= <-]; simpl; auto);
    destruct (violations.unpack4 minimums) as [[[[mc mv] mw] mx]|];
    cbn [bind]; try discriminate.
  destruct (violations.bad_visibility _ _) as [vis|]; cbn [bind]; [|discriminate].
  destruct (violations.bad_winds _ _ _) as [wind|]; cbn [bind]; [|discriminate].
  destruct (violations.bad_ceiling _ _) as [ceil|]; cbn [bind]; [|discriminate].
  destruct vis, wind, ceil; intros [= <-]; simpl; auto 7.
Qed.

Lemma weather_pass_shape (students minimums : list (list string))
    (weather : list (string * pyval)) (daycycle : utils.daycycle_table)
    (lesson row : list string) :
  violations.weather_pass students minimums weather daycycle lesson
  = Ok (Some row) ->
  (7 <= length lesson)%nat /\
  exists label,
    row = (lesson ++ [label])%list /\
    In label ["Visibility"; "Winds"; "Ceiling"; "Weather"; "Unknown"].
Proof.
  unfold violations.weather_pass. pass_cases_eqn; try discriminate.
  intros [= <-].
  match goal with
  | Elen : (length lesson <? 7)%nat = false,
    Elabel : violations.get_weather_violation _ _ = Ok (Some ?l),
    Enonempty : String.eqb ?l "" = false |- _ =>
      apply Nat.ltb_ge in Elen; apply weather_label_of_any_input in Elabel;
      apply String.eqb_neq in Enonempty;
      split; [exact Elen|]; exists l; split; [reflexivity|];
      simpl in Elabel |- *; intuition congruence
  end.
Qed.

(** X15.  Whatever the weather scan returns is made of lessons of the
    lessons file (the header apart) that have at least seven cells, each
    with one label appended, and the label is 'Visibility', 'Winds',
    'Ceiling', 'Weather' or 'Unknown': never the empty string. *)
Theorem weather_scan_rows (lessons students minimums : list (list string))
    (weather : list (string * pyval)) (daycycle : utils.daycycle_table)
    (rows : list (list string)) :
  violations.list_weather_violations lessons students minimums weather daycycle
  = Ok rows ->
  forall row, In row rows ->
    exists (lesson : list string) (label : string),
      In lesson (tail lessons) /\ (7 <= length lesson)%nat /\
      row = (lesson ++ [label])%list /\
      In label ["Visibility"; "Winds"; "Ceiling"; "Weather"; "Unknown"].
Proof.
  unfold violations.list_weather_violations. intros Hrows row Hin.
  destruct (for_each_origin _ _ _ Hrows row Hin) as (lesson & Hlesson & Hpass).
  apply weather_pass_shape in Hpass as (Hlen & label & -> & Hlabel).
  exists lesson, label. auto.
Qed.

(** X16.  A lesson of a known student whose takeoff does not parse aborts
    the weather scan: if the scan gets through the lessons before it, then
    on reaching it [utils.daytime] is handed [None] and the scan raises
    [AttributeError]. *)
Theorem weather_scan_unparsed_takeoff
    (students minimums : list (list string)) (weather : list (string * pyval))
    (daycycle : utils.daycycle_table) (header lesson student : list string)
    (pre post : list (list string)) :
  (7 <= length lesson)%nat ->
  utils.get_for_id (cell lesson 0) students = Ok (Some student) ->
  parser_parse (cell lesson 3) = None ->
  (exists rows,
     violations.list_weather_violations (header :: pre) students minimums
       weather daycycle = Ok rows) ->
  violations.list_weather_violations (header :: pre ++ lesson :: post)
    students minimums weather daycycle
  = Raise AttributeError.
Proof.
  intros Hlen Hstudent Hparse Hpre.
  unfold violations.list_weather_violations in *. cbn [tail] in *.
  apply for_each_raise; [exact Hpre|].
  unfold violations.weather_pass.
  destruct (Nat.ltb_spec (length lesson) 7) as [|_]; [lia|].
  rewrite !cell_lookup by lia. cbn [bind]. rewrite Hstudent.
  unfold utils.str_to_time. rewrite Hparse. cbn [bind utils.daytime].
  reflexivity.
Qed.

End scan_rows.

(** ** endorsements *)

Section endorsement_facts.
Context `{Library}.

Ltac pass_cases_eqn :=
  repeat match goal with
    | |- context [bind ?m _] =>
        let E := fresh "E" in destruct m eqn:E; cbn [bind]
    | |- (if ?b then _ else _) = _ -> _ =>
        let E := fresh "E" in destruct b eqn:E
    | |- match ?x with _ => _ end = _ -> _ =>
        let E := fresh "E" in destruct x eqn:E
    | |- Ok (match ?x with _ => _ end) = _ -> _ =>
        let E := fresh "E" in destruct x eqn:E
    end.

(** X17.  [bad_endorsement], on a parsed takeoff.  With an instructor the
    flight is flagged exactly when the aircraft is multiengine and the
    instructor has no MEI: the pilot's own endorsements play no part, and an
    aircraft that is only advanced is never flagged.  Without an instructor
    (and likewise with an instructor that is [None]) it is flagged exactly
    when the aircraft is multiengine and the pilot's multiengine endorsement
    does not date on or before the takeoff, or the aircraft is advanced and
    the advanced endorsement does not. *)
Theorem bad_endorsement_cases (takeoff : datetime) (student plane : list string)
    (advanced multiengine adv_date multi_date : string) :
  plane !! 3%nat = Some advanced ->
  plane !! 4%nat = Some multiengine ->
  student !! 8%nat = Some adv_date ->
  student !! 9%nat = Some multi_date ->
  (forall (instructor : list string) (mei : string),
     instructor !! 5%nat = Some mei ->
     endorsements.bad_endorsement (Some takeoff) student (Some instructor) plane
     = Ok (says_yes multiengine && negb (says_yes mei))) /\
  (forall instructor : option (list string),
     instructor = Some [] \/ instructor = None ->
     endorsements.bad_endorsement (Some takeoff) student instructor plane
     = Ok ((says_yes multiengine && negb (qualified_at takeoff multi_date))
           || (says_yes advanced && negb (qualified_at takeoff adv_date)))).
Proof.
  intros Hadv Hmulti Hadv_date Hmulti_date. split.
  - intros instructor mei Hmei.
    destruct instructor as [|i0 instructor]; [discriminate|].
    unfold endorsements.bad_endorsement, endorsements.is_multiengine,
      endorsements.teaches_multiengine, endorsements.yes_at,
      endorsements.not_, py_and.
    cbn [endorsements.has_instructor].
    rewrite (index_lookup _ _ _ Hmulti), (index_lookup _ _ _ Hmei).
    cbn [bind]. fold (says_yes multiengine) (says_yes mei).
    destruct (says_yes multiengine); reflexivity.
  - intros instructor Hnone.
    assert (Hno : endorsements.has_instructor instructor = false)
      by (destruct Hnone as [-> | ->]; reflexivity).
    unfold endorsements.bad_endorsement, endorsements.is_multiengine,
      endorsements.is_advanced, endorsements.yes_at, endorsements.not_, py_and,
      pilots.has_multiengine_endorsement, pilots.has_advanced_endorsement.
    rewrite Hno.
    rewrite (index_lookup _ _ _ Hmulti), (index_lookup _ _ _ Hadv).
    rewrite (has_dated_qualification_at 9 takeoff student multi_date Hmulti_date).
    rewrite (has_dated_qualification_at 8 takeoff student adv_date Hadv_date).
    cbn [bind]. fold (says_yes multiengine) (says_yes advanced).
    destruct (says_yes multiengine), (says_yes advanced),
      (qualified_at takeoff multi_date), (qualified_at takeoff adv_date);
      reflexivity.
Qed.

(** X18.  [bad_ifr], on a parsed takeoff: an aircraft that is not outfitted
    for IFR is always flagged; otherwise a flight with an instructor is
    flagged exactly when the instructor has no CFII, and a flight without
    one exactly when the pilot's instrument rating does not date on or
    before the takeoff. *)
Theorem bad_ifr_cases (takeoff : datetime) (student plane : list string)
    (capability instrument_date : string) :
  plane !! 2%nat = Some capability ->
  student !! 7%nat = Some instrument_date ->
  (forall (instructor : list string) (cfii : string),
     instructor !! 4%nat = Some cfii ->
     endorsements.bad_ifr (Some takeoff) student (Some instructor) plane
     = Ok (negb (says_ifr capability) || negb (says_yes cfii))) /\
  (forall instructor : option (list string),
     instructor = Some [] \/ instructor = None ->
     endorsements.bad_ifr (Some takeoff) student instructor plane
     = Ok (negb (says_ifr capability)
           || negb (qualified_at takeoff instrument_date))).
Proof.
  intros Hcap Hdate. split.
  - intros instructor cfii Hcfii.
    destruct instructor as [|i0 instructor]; [discriminate|].
    unfold endorsements.bad_ifr, endorsements.is_ifr_capable,
      endorsements.teaches_instrument, endorsements.yes_at, endorsements.not_.
    cbn [endorsements.has_instructor].
    rewrite (index_lookup _ _ _ Hcap), (index_lookup _ _ _ Hcfii).
    cbn [bind]. fold (says_ifr capability) (says_yes cfii).
    destruct (says_ifr capability); reflexivity.
  - intros instructor Hnone.
    assert (Hno : endorsements.has_instructor instructor = false)
      by (destruct Hnone as [-> | ->]; reflexivity).
    unfold endorsements.bad_ifr, endorsements.is_ifr_capable, endorsements.not_,
      pilots.has_instrument_rating.
    rewrite Hno, (index_lookup _ _ _ Hcap).
    rewrite (has_dated_qualification_at 7 takeoff student _ Hdate).
    cbn [bind]. fold (says_ifr capability).
    destruct (says_ifr capability); reflexivity.
Qed.

(** X19.  A lesson whose instructor identifier is in no row of the
    instructors table is never reported as 'Solo' nor as 'Credentials' by
    the endorsement scan: the instructor is [None], which is not the empty
    list the solo check looks for, so the only labels left are 'Endorsement'
    and 'IFR'. *)
Theorem unknown_instructor_never_solo
    (student_dict instructor_dict plane_dict : gmap string (list string))
    (lesson row : list string) :
  (7 <= length lesson)%nat ->
  strip (cell lesson 2) <> "" ->
  instructor_dict !! strip (cell lesson 2) = None ->
  endorsements.endorsement_pass student_dict instructor_dict plane_dict lesson
  = Ok (Some row) ->
  row = (lesson ++ ["Endorsement"])%list \/ row = (lesson ++ ["IFR"])%list.
Proof.
  intros Hlen Hid Hunknown. unfold endorsements.endorsement_pass.
  destruct (Nat.ltb_spec 2 (length lesson)) as [_|]; [|lia].
  rewrite !cell_lookup by lia. cbn [bind].
  apply String.eqb_neq in Hid. rewrite Hid, Hunknown.
  destruct (student_dict !! cell lesson 0) as [student|]; [|discriminate].
  destruct (plane_dict !! cell lesson 1) as [plane|]; [|discriminate].
  cbn [bind].
  destruct (endorsements.bad_endorsement _ _ _ _) as [endorsement|];
    cbn [bind]; [|discriminate].
  destruct (py_and _ _) as [ifr|]; cbn [bind]; [|discriminate].
  destruct endorsement, ifr; intros [= <-]; auto.
Qed.

Lemma fold_rows_dict_lookup (table : list (list string)) :
  forall (d0 d : gmap string (list string)),
    (forall k r, d0 !! k = Some r -> In r table \/ d0 !! k = Some r) ->
    fold_rows (fun d row => let* k := index row 0 in Ok (<[k := row]> d)) d0 table
    = Ok d ->
    forall k r, d !! k = Some r ->
                (In r table /\ r !! 0%nat = Some k) \/ d0 !! k = Some r.
Proof.
  induction table as [|row rest IH]; intros d0 d _; cbn [fold_rows].
  - intros [= <-] k r Hk. right. exact Hk.
  - destruct row as [|k0 row]; [discriminate|].
    cbn [index lookup list_lookup bind]. intros Hfold k r Hk.
    destruct (IH _ _ ltac:(auto) Hfold k r Hk) as [[Hin Hkey] | Hins].
    + left. split; [right; exact Hin | exact Hkey].
    + destruct (decide (k0 = k)) as [->|Hne].
      * rewrite lookup_insert_eq in Hins. injection Hins as <-.
        left. split; [left; reflexivity | reflexivity].
      * rewrite lookup_insert_ne in Hins by exact Hne. right. exact Hins.
Qed.

Lemma dict_of_table_lookup (table : list (list string))
    (d : gmap string (list string)) (k : string) (r : list string) :
  dict_of_table table = Ok d -> d !! k = Some r ->
  In r table /\ r !! 0%nat = Some k.
Proof.
  intros Hd Hk.
  destruct (fold_rows_dict_lookup table ∅ d ltac:(auto) Hd k r Hk)
    as [Hin | Hempty]; [exact Hin|].
  rewrite lookup_empty in Hempty. discriminate.
Qed.

Lemma endorsement_annotation (solo endorsement ifr : bool) (annotation : string) :
  endorsements.annotate solo endorsement ifr = Some annotation ->
  In annotation ["Credentials"; "Solo"; "Endorsement"; "IFR"].
Proof.
  destruct solo, endorsement, ifr; intros [= <-]; simpl; auto.
Qed.

Lemma endorsement_pass_shape
    (student_dict instructor_dict plane_dict : gmap string (list string))
    (lesson row : list string) :
  endorsements.endorsement_pass student_dict instructor_dict plane_dict lesson
  = Ok (Some row) ->
  exists (student_id tail label : string) (student plane : list string),
    lesson !! 0%nat = Some student_id /\ lesson !! 1%nat = Some tail /\
    student_dict !! student_id = Some student /\
    plane_dict !! tail = Some plane /\
    row = (lesson ++ [label])%list /\
    In label ["Credentials"; "Solo"; "Endorsement"; "IFR"].
Proof.
  unfold endorsements.endorsement_pass.
  destruct (index lesson 0) as [student_id|] eqn:E0; cbn [bind]; [|discriminate].
  destruct (index lesson 1) as [tail|] eqn:E1; cbn [bind]; [|discriminate].
  apply index_Ok_lookup in E0, E1.
  destruct (if (2 <? length lesson)%nat then _ else _) as [instructor_id|];
    cbn [bind]; [|discriminate].
  destruct (index lesson 3) as [takeoff_str|]; cbn [bind]; [|discriminate].
  destruct (student_dict !! student_id) as [student|] eqn:Es; [|discriminate].
  destruct (plane_dict !! tail) as [plane|] eqn:Ep; [|discriminate].
  pass_cases_eqn; try discriminate; intros [= <-];
    match goal with
    | E : endorsements.annotate _ _ _ = Some ?a |- _ =>
        apply endorsement_annotation in E;
        exists student_id, tail, a, student, plane; auto 7
    end.
Qed.

(** X20.  Whatever the endorsement scan returns is made of rows of the
    lessons file, each with one of 'Credentials', 'Solo', 'Endorsement',
    'IFR' appended, and every such lesson names a student that is in the
    students table and an aircraft that is in the fleet table. *)
Theorem endorsement_scan_rows (lessons students instructors planes : list (list string))
    (rows : list (list string)) :
  endorsements.list_endorsement_violations lessons students instructors planes
  = Ok rows ->
  forall row, In row rows ->
    exists (lesson student plane : list string) (label : string),
      In lesson lessons /\ row = (lesson ++ [label])%list /\
      In label ["Credentials"; "Solo"; "Endorsement"; "IFR"] /\
      In student students /\ student !! 0%nat = lesson !! 0%nat /\
      In plane planes /\ plane !! 0%nat = lesson !! 1%nat.
Proof.
  unfold endorsements.list_endorsement_violations.
  destruct (dict_of_table students) as [student_dict|] eqn:Es;
    cbn [bind]; [|discriminate].
  destruct (dict_of_table instructors) as [instructor_dict|];
    cbn [bind]; [|discriminate].
  destruct (dict_of_table planes) as [plane_dict|] eqn:Ep;
    cbn [bind]; [|discriminate].
  intros Hrows row Hin.
  destruct (for_each_origin _ _ _ Hrows row Hin) as (lesson & Hlesson & Hpass).
  apply endorsement_pass_shape in Hpass
    as (sid & tail & label & student & plane & H0 & H1 & Hs & Hp & -> & Hl).
  destruct (dict_of_table_lookup _ _ _ _ Es Hs) as [Hsin Hskey].
  destruct (dict_of_table_lookup _ _ _ _ Ep Hp) as [Hpin Hpkey].
  exists lesson, student, plane, label.
  repeat split; try assumption; congruence.
Qed.

End endorsement_facts.

(** ** inspections: the timeline and the replay *)

Section timeline_facts.
Context `{Library}.

Lemma insert_event_perm (ev : inspections.event) (sorted : list inspections.event) :
  forall out, inspections.insert_event ev sorted = Ok out ->
              Permutation (ev :: sorted) out.
Proof.
  induction sorted as [|y rest IH]; intros out; cbn [inspections.insert_event].
  - intros [= <-]. reflexivity.
  - destruct (inspections.key_lt y ev) as [[|]|]; cbn [bind]; [| |discriminate].
    + destruct (inspections.insert_event ev rest) as [rest'|];
        cbn [bind]; [|discriminate].
      intros [= <-]. etrans; [apply perm_swap|].
      apply perm_skip, IH. reflexivity.
    + intros [= <-]. reflexivity.
Qed.

Lemma key_lt_not_same (e y ev : inspections.event) :
  inspections.key_lt y ev = Ok true -> same_key e y = true ->
  same_key e ev = false.
Proof.
  unfold inspections.key_lt, same_key. intros Hlt Hsame.
  apply andb_true_iff in Hsame as [Htail Htime].
  apply String.eqb_eq in Htail. apply bool_decide_eq_true in Htime.
  rewrite Htail, Htime.
  destruct (String.eqb (inspections.ev_tail y) (inspections.ev_tail ev));
    cbn [negb andb] in *; [|reflexivity].
  apply bool_decide_eq_false.
  destruct (inspections.ev_time y), (inspections.ev_time ev); try discriminate.
  injection Hlt as Hlt. apply Z.ltb_lt in Hlt. intros [= ->]. lia.
Qed.

Lemma insert_event_stable (e ev : inspections.event)
    (sorted : list inspections.event) :
  forall out, inspections.insert_event ev sorted = Ok out ->
              List.filter (same_key e) out
              = List.filter (same_key e) (ev :: sorted).
Proof.
  induction sorted as [|y rest IH]; intros out; cbn [inspections.insert_event].
  - intros [= <-]. reflexivity.
  - destruct (inspections.key_lt y ev) as [[|]|] eqn:Hy; cbn [bind];
      [| |discriminate].
    + destruct (inspections.insert_event ev rest) as [rest'|];
        cbn [bind]; [|discriminate].
      intros [= <-]. specialize (IH rest' eq_refl).
      cbn [List.filter] in *.
      destruct (same_key e y) eqn:Ey.
      * rewrite (key_lt_not_same e y ev Hy Ey) in *. rewrite IH. reflexivity.
      * exact IH.
    + intros [= <-]. reflexivity.
Qed.

(** X21.  The sort of the timeline, when it returns, neither loses nor
    duplicates an event, leaves the events in key order, and is stable:
    among the events that carry one and the same (tail, time) key the order
    of the unsorted list is kept.  Lessons are put on the list before the
    repairs, so a lesson that takes off at the very instant an inspection
    of its aircraft is dated is replayed before that inspection. *)
Theorem sort_events_stable_permutation (events sorted : list inspections.event) :
  inspections.sort_events events = Ok sorted ->
  Permutation events sorted /\
  StronglySorted key_le sorted /\
  forall e, List.filter (same_key e) sorted = List.filter (same_key e) events.
Proof.
  intros Hsort. split; [|split].
  - revert sorted Hsort.
    induction events as [|ev rest IH]; intros sorted;
      cbn [inspections.sort_events].
    + intros [= <-]. reflexivity.
    + destruct (inspections.sort_events rest) as [mid|]; cbn [bind];
        [|discriminate].
      intros Hins. rewrite (IH mid eq_refl).
      apply (insert_event_perm ev mid sorted Hins).
  - apply (sort_events_sorted events sorted Hsort).
  - intros e. revert sorted Hsort.
    induction events as [|ev rest IH]; intros sorted;
      cbn [inspections.sort_events].
    + intros [= <-]. reflexivity.
    + destruct (inspections.sort_events rest) as [mid|]; cbn [bind];
        [|discriminate].
      intros Hins. rewrite (insert_event_stable e ev mid sorted Hins).
      cbn [List.filter]. rewrite (IH mid eq_refl). reflexivity.
Qed.

(** X22.  One pass of the replay touches the entries of the event's own
    aircraft only; only an annual event changes a last-annual date; and an
    annual or repair event appends no row and leaves the hours of its
    aircraft at zero. *)
Theorem replay_event_frame (plane_state : gmap string inspections.plane)
    (st st' : inspections.replay_state) (ev : inspections.event)
    (appended : option (list string)) :
  inspections.replay_event plane_state st ev = Ok (st', appended) ->
  (forall tail, tail <> inspections.ev_tail ev ->
     inspections.current_annual st' !! tail
     = inspections.current_annual st !! tail /\
     inspections.current_hours st' !! tail
     = inspections.current_hours st !! tail) /\
  (inspections.ev_type ev <> inspections.annual_event ->
   inspections.current_annual st' = inspections.current_annual st) /\
  (inspections.ev_type ev <> inspections.lesson_event ->
   appended = None /\
   inspections.current_hours st' !! inspections.ev_tail ev = Some 0%Q).
Proof.
  unfold inspections.replay_event, inspections.lookup_tail. cbv zeta.
  destruct (inspections.ev_type ev).
  - destruct (plane_state !! _); cbn [bind]; [|discriminate].
    destruct (inspections.check_grounded _ _ _); cbn [bind]; [|discriminate].
    destruct (inspections.current_annual st !! _); cbn [bind]; [|discriminate].
    destruct (inspections.check_annual _ _); cbn [bind]; [|discriminate].
    destruct (inspections.current_hours st !! _); cbn [bind]; [|discriminate].
    intros [= <- <-].
    cbn [inspections.current_annual inspections.current_hours].
    split; [|split; [reflexivity | congruence]].
    intros tail Hne. split; [reflexivity|].
    apply lookup_insert_ne. congruence.
  - intros [= <- <-].
    cbn [inspections.current_annual inspections.current_hours].
    split; [|split; [congruence|]].
    + intros tail Hne. split; apply lookup_insert_ne; congruence.
    + intros _. split; [reflexivity | apply lookup_insert_eq].
  - intros [= <- <-].
    cbn [inspections.current_annual inspections.current_hours].
    split; [|split; [reflexivity|]].
    + intros tail Hne. split; [reflexivity|]. apply lookup_insert_ne. congruence.
    + intros _. split; [reflexivity | apply lookup_insert_eq].
Qed.

Lemma check_grounded_undated (time landing : option Z)
    (periods : list (option Z * option Z)) :
  inspections.check_grounded time landing periods
  = inspections.check_grounded time landing (List.filter dated periods).
Proof.
  induction periods as [|[in_date out_date] rest IH];
    cbn [inspections.check_grounded List.filter]; [reflexivity|].
  unfold dated at 1. cbn [fst snd].
  destruct in_date as [i|], out_date as [o|];
    cbn [is_not_None is_None negb andb inspections.check_grounded];
    try (unfold inspections.in_shop, py_and;
         cbn [is_not_None is_None negb bind]; exact IH).
  rewrite IH. reflexivity.
Qed.

(** X23.  The grounded check reads the dated shop periods only: a period
    whose in-date or out-date failed to parse neither grounds a lesson nor
    raises.  A lesson whose takeoff failed to parse raises a [TypeError] as
    soon as the aircraft has one dated period, since [None] is compared with
    a date. *)
Theorem check_grounded_dated_only (time landing : option Z)
    (periods : list (option Z * option Z)) :
  inspections.check_grounded time landing periods
  = inspections.check_grounded time landing (List.filter dated periods) /\
  ((exists period, In period periods /\ dated period = true) ->
   inspections.check_grounded None landing periods = Raise TypeError).
Proof.
  split; [apply check_grounded_undated|].
  intros (period & Hin & Hdated).
  induction periods as [|[in_date out_date] rest IH]; [destruct Hin|].
  cbn [inspections.check_grounded].
  destruct in_date as [i|], out_date as [o|];
    try (unfold inspections.in_shop, py_and;
         cbn [is_not_None is_None negb bind];
         destruct Hin as [<- | Hin]; [discriminate | exact (IH Hin)]).
  reflexivity.
Qed.

End timeline_facts.

(** ** inspections: the scan *)

Section inspection_scan.
Context `{Library}.
Variable timezone : string.

Lemma add_plane_inserts (plane_state plane_state' : gmap string inspections.plane)
    (row : list string) :
  inspections.add_plane timezone plane_state row = Ok plane_state' ->
  exists tail p, row !! 0%nat = Some tail /\ inspections.repairs p = [] /\
                 plane_state' = <[tail := p]> plane_state.
Proof.
  unfold inspections.add_plane.
  destruct (index row 0) as [tail|] eqn:E0; cbn [bind]; [|discriminate].
  destruct (index row 5); cbn [bind]; [|discriminate].
  destruct (index row 6) as [hours_str|]; cbn [bind]; [|discriminate].
  destruct (if String.eqb hours_str "" then _ else _); cbn [bind];
    [|discriminate].
  intros [= <-]. apply index_Ok_lookup in E0.
  eexists tail, _. split; [exact E0|]. split; [|reflexivity]. reflexivity.
Qed.

Lemma add_repair_cases (plane_state plane_state' : gmap string inspections.plane)
    (row : list string) :
  inspections.add_repair timezone plane_state row = Ok plane_state' ->
  exists tail in_str,
    row !! 0%nat = Some tail /\ row !! 1%nat = Some in_str /\
    ((plane_state !! tail = None /\ plane_state' = plane_state) \/
     exists p p' etype,
       plane_state !! tail = Some p /\ etype <> inspections.lesson_event /\
       inspections.repairs p'
       = (inspections.repairs p
          ++ [(etype, inspections.str_to_instant in_str timezone)])%list /\
       plane_state' = <[tail := p']> plane_state).
Proof.
  unfold inspections.add_repair.
  destruct (index row 0) as [tail|] eqn:E0; cbn [bind]; [|discriminate].
  destruct (index row 1) as [in_str|] eqn:E1; cbn [bind]; [|discriminate].
  destruct (index row 2); cbn [bind]; [|discriminate].
  destruct (index row 3) as [desc|]; cbn [bind]; [|discriminate].
  apply index_Ok_lookup in E0, E1. intros Hres. exists tail, in_str.
  split; [assumption|]. split; [assumption|]. revert Hres.
  destruct (plane_state !! tail) as [p|] eqn:Ep.
  - intros [= <-]. right. exists p. eexists.
    exists (if String.eqb (lower (strip desc)) "annual inspection"
            then inspections.annual_event else inspections.repair_event).
    split; [reflexivity|].
    split; [destruct (String.eqb _ _); discriminate|].
    split; [|reflexivity]. reflexivity.
  - intros [= <-]. left. split; reflexivity.
Qed.

Lemma add_plane_fold_keys (rows : list (list string)) :
  forall plane_state plane_state' : gmap string inspections.plane,
    fold_rows (inspections.add_plane timezone) plane_state rows = Ok plane_state' ->
    forall tail,
      is_Some (plane_state' !! tail)
      <-> is_Some (plane_state !! tail)
          \/ exists row, In row rows /\ row !! 0%nat = Some tail.
Proof.
  induction rows as [|row rest IH]; intros ps ps'; cbn [fold_rows].
  - intros [= <-] tail. split; [auto|]. intros [Hs | (row & [] & _)]. exact Hs.
  - destruct (inspections.add_plane timezone ps row) as [ps1|] eqn:E;
      cbn [bind]; [|discriminate].
    intros Hfold tail. rewrite (IH _ _ Hfold tail).
    apply add_plane_inserts in E as (t0 & p & Ht0 & _ & ->).
    rewrite lookup_insert_is_Some'. split.
    + intros [[<- | Hs] | (r & Hin & Hr)].
      * right. exists row. split; [left; reflexivity | assumption].
      * left. assumption.
      * right. exists r. split; [right; assumption | assumption].
    + intros [Hs | (r & [<- | Hin] & Hr)].
      * left. right. assumption.
      * left. left. congruence.
      * right. exists r. split; assumption.
Qed.

Lemma add_repair_fold_keys (rows : list (list string)) :
  forall plane_state plane_state' : gmap string inspections.plane,
    fold_rows (inspections.add_repair timezone) plane_state rows = Ok plane_state' ->
    forall tail, is_Some (plane_state' !! tail) <-> is_Some (plane_state !! tail).
Proof.
  induction rows as [|row rest IH]; intros ps ps'; cbn [fold_rows].
  - intros [= <-] tail. reflexivity.
  - destruct (inspections.add_repair timezone ps row) as [ps1|] eqn:E;
      cbn [bind]; [|discriminate].
    intros Hfold tail. rewrite (IH _ _ Hfold tail).
    apply add_repair_cases in E
      as (t0 & in_str & _ & _ & [[_ ->] | (p & p' & etype & Hp & _ & _ & ->)]);
      [reflexivity|].
    rewrite lookup_insert_is_Some'. split; [|auto].
    intros [<- | Hs]; [rewrite Hp; eauto | assumption].
Qed.

Lemma add_plane_fold_repairs (P : inspections.event_type * option Z -> Prop)
    (rows : list (list string)) :
  forall plane_state plane_state' : gmap string inspections.plane,
    repairs_all P plane_state ->
    fold_rows (inspections.add_plane timezone) plane_state rows = Ok plane_state' ->
    repairs_all P plane_state'.
Proof.
  induction rows as [|row rest IH]; intros ps ps' Hall; cbn [fold_rows].
  - intros [= <-]. exact Hall.
  - destruct (inspections.add_plane timezone ps row) as [ps1|] eqn:E;
      cbn [bind]; [|discriminate].
    apply IH. apply add_plane_inserts in E as (t0 & p & _ & Hp & ->).
    intros tail q. destruct (decide (t0 = tail)) as [->|Hne].
    + rewrite lookup_insert_eq. intros [= <-]. rewrite Hp. constructor.
    + rewrite lookup_insert_ne by exact Hne. apply Hall.
Qed.

Lemma add_repair_fold_repairs (P : inspections.event_type * option Z -> Prop)
    (rows : list (list string)) :
  (forall row in_str etype,
     In row rows -> row !! 1%nat = Some in_str ->
     etype <> inspections.lesson_event ->
     P (etype, inspections.str_to_instant in_str timezone)) ->
  forall plane_state plane_state' : gmap string inspections.plane,
    repairs_all P plane_state ->
    fold_rows (inspections.add_repair timezone) plane_state rows = Ok plane_state' ->
    repairs_all P plane_state'.
Proof.
  induction rows as [|row rest IH]; intros Hrows ps ps' Hall; cbn [fold_rows].
  - intros [= <-]. exact Hall.
  - destruct (inspections.add_repair timezone ps row) as [ps1|] eqn:E;
      cbn [bind]; [|discriminate].
    apply IH; [intros r i e Hin; apply Hrows; right; exact Hin|].
    apply add_repair_cases in E
      as (t0 & in_str & _ & Hin_str
          & [[_ ->] | (p & p' & etype & Hp & Hetype & Hrep & ->)]);
      [exact Hall|].
    intros tail q. destruct (decide (t0 = tail)) as [->|Hne].
    + rewrite lookup_insert_eq. intros [= <-]. rewrite Hrep.
      apply Forall_app. split; [apply (Hall _ _ Hp)|].
      constructor; [|constructor].
      apply (Hrows row in_str etype); [left; reflexivity | assumption..].
    + rewrite lookup_insert_ne by exact Hne. apply Hall.
Qed.

Lemma lesson_events_spec (rows : list (list string)) :
  forall events,
    inspections.lesson_events timezone rows = Ok events ->
    (forall ev, In ev events ->
       inspections.ev_type ev = inspections.lesson_event /\
       In (inspections.ev_lesson ev) rows /\
       inspections.ev_lesson ev !! 1%nat = Some (inspections.ev_tail ev) /\
       inspections.ev_time ev
       = inspections.str_to_instant (cell (inspections.ev_lesson ev) 3) timezone /\
       inspections.ev_landing ev
       = inspections.str_to_instant (cell (inspections.ev_lesson ev) 4) timezone) /\
    (forall lesson, In lesson rows ->
       exists ev, In ev events /\ inspections.ev_lesson ev = lesson).
Proof.
  induction rows as [|lesson rest IH]; intros events;
    cbn [inspections.lesson_events].
  - intros [= <-]. split; [intros ev [] | intros lesson []].
  - unfold inspections.lesson_to_event.
    destruct (index lesson 1) as [tail|] eqn:E1; cbn [bind]; [|discriminate].
    destruct (index lesson 3) as [takeoff|] eqn:E3; cbn [bind]; [|discriminate].
    destruct (index lesson 4) as [landing|] eqn:E4; cbn [bind]; [|discriminate].
    destruct (inspections.lesson_events timezone rest) as [evs|];
      cbn [bind]; [|discriminate].
    intros [= <-]. destruct (IH evs eq_refl) as [Hevs Hrows].
    apply index_Ok_lookup in E1, E3, E4. split.
    + intros ev [<- | Hin].
      * cbn. unfold cell. rewrite E3, E4. cbn.
        repeat split; auto.
      * destruct (Hevs ev Hin) as (Ht & Hl & Hrest).
        split; [assumption|]. split; [right; assumption | assumption].
    + intros l [<- | Hin].
      * eexists. split; [left; reflexivity | reflexivity].
      * destruct (Hrows l Hin) as (ev & Hev & Hl).
        exists ev. split; [right; assumption | assumption].
Qed.

Lemma lesson_events_returns (rows : list (list string)) :
  Forall (fun row => (5 <= length row)%nat) rows ->
  exists events, inspections.lesson_events timezone rows = Ok events.
Proof.
  induction 1 as [|lesson rest Hlen _ (evs & IH)];
    cbn [inspections.lesson_events]; [eauto|].
  unfold inspections.lesson_to_event.
  rewrite !cell_lookup by lia. cbn [bind]. rewrite IH. cbn [bind]. eauto.
Qed.

Lemma repair_events_spec (plane_state : gmap string inspections.plane)
    (tails : list string) (ev : inspections.event) :
  In ev (inspections.repair_events plane_state tails) ->
  exists p, plane_state !! inspections.ev_tail ev = Some p /\
            In (inspections.ev_type ev, inspections.ev_time ev)
               (inspections.repairs p).
Proof.
  unfold inspections.repair_events. rewrite in_flat_map.
  intros (tail & _ & Hin).
  destruct (plane_state !! tail) as [p|] eqn:Ep; [|destruct Hin].
  apply in_map_iff in Hin as ([etype time] & <- & Hrep).
  exists p. split; [exact Ep | exact Hrep].
Qed.

Lemma inspection_annotation (annual inspection grounded : bool) (label : string) :
  inspections.annotate annual inspection grounded = Some label ->
  In label ["Annual"; "Inspection"; "Grounded"; "Maintenance"].
Proof.
  destruct annual, inspection, grounded; intros [= <-]; simpl; auto.
Qed.

Lemma replay_event_lesson (plane_state : gmap string inspections.plane)
    (st st' : inspections.replay_state) (ev : inspections.event)
    (appended : option (list string)) :
  inspections.replay_event plane_state st ev = Ok (st', appended) ->
  (inspections.ev_type ev = inspections.lesson_event ->
   is_Some (plane_state !! inspections.ev_tail ev)) /\
  (forall row, appended = Some row ->
     inspections.ev_type ev = inspections.lesson_event /\
     exists label, row = (inspections.ev_lesson ev ++ [label])%list /\
                   In label ["Annual"; "Inspection"; "Grounded"; "Maintenance"]).
Proof.
  unfold inspections.replay_event, inspections.lookup_tail. cbv zeta.
  destruct (inspections.ev_type ev).
  - destruct (plane_state !! _); cbn [bind]; [|discriminate].
    destruct (inspections.check_grounded _ _ _); cbn [bind]; [|discriminate].
    destruct (inspections.current_annual st !! _); cbn [bind]; [|discriminate].
    destruct (inspections.check_annual _ _); cbn [bind]; [|discriminate].
    destruct (inspections.current_hours st !! _); cbn [bind]; [|discriminate].
    destruct (inspections.annotate _ _ _) as [label|] eqn:Ea;
      intros [= <- <-]; (split; [eauto|]); intros row [= <-].
    split; [reflexivity|]. exists label.
    split; [reflexivity | apply (inspection_annotation _ _ _ _ Ea)].
  - intros [= <- <-]. split; [discriminate | intros row; discriminate].
  - intros [= <- <-]. split; [discriminate | intros row; discriminate].
Qed.

Lemma replay_spec (plane_state : gmap string inspections.plane)
    (events : list inspections.event) :
  forall st rows,
    inspections.replay plane_state st events = Ok rows ->
    (forall ev, In ev events ->
       inspections.ev_type ev = inspections.lesson_event ->
       is_Some (plane_state !! inspections.ev_tail ev)) /\
    (forall row, In row rows ->
       exists ev label,
         In ev events /\ inspections.ev_type ev = inspections.lesson_event /\
         row = (inspections.ev_lesson ev ++ [label])%list /\
         In label ["Annual"; "Inspection"; "Grounded"; "Maintenance"]).
Proof.
  induction events as [|ev rest IH]; intros st rows; cbn [inspections.replay].
  - intros [= <-]. split; [intros ev [] | intros row []].
  - destruct (inspections.replay_event plane_state st ev)
      as [[st' appended]|] eqn:E; cbn [bind]; [|discriminate].
    destruct (inspections.replay plane_state st' rest) as [violations|] eqn:Er;
      cbn [bind]; [|discriminate].
    intros [= <-]. destruct (IH _ _ Er) as [Hknown Hrows].
    destruct (replay_event_lesson _ _ _ _ _ E) as [Hev Happ]. split.
    + intros e [<- | Hin]; [exact Hev | apply Hknown, Hin].
    + assert (Hold : forall row, In row violations ->
                exists e label,
                  In e (ev :: rest) /\
                  inspections.ev_type e = inspections.lesson_event /\
                  row = (inspections.ev_lesson e ++ [label])%list /\
                  In label ["Annual"; "Inspection"; "Grounded"; "Maintenance"]).
      { intros row Hin. destruct (Hrows row Hin) as (e & label & He & Hrest).
        exists e, label. split; [right; exact He | exact Hrest]. }
      destruct appended as [new|]; [|exact Hold].
      intros row [<- | Hin]; [|apply Hold, Hin].
      destruct (Happ new eq_refl) as (Htype & label & Hrow & Hlabel).
      exists ev, label. split; [left; reflexivity | auto].
Qed.

Lemma no_lesson_among_repairs
    (lessons_csv planes_csv repairs_csv : list (list string))
    (ps0 plane_state : gmap string inspections.plane) :
  fold_rows (inspections.add_plane timezone) ∅ planes_csv = Ok ps0 ->
  fold_rows (inspections.add_repair timezone) ps0 repairs_csv = Ok plane_state ->
  repairs_all (fun rep => fst rep <> inspections.lesson_event) plane_state.
Proof.
  intros Hplanes Hrepairs.
  apply (add_repair_fold_repairs _ repairs_csv) with (plane_state := ps0);
    [intros row in_str etype _ _ Hetype; exact Hetype | | exact Hrepairs].
  apply (add_plane_fold_repairs _ planes_csv) with (plane_state := ∅);
    [|exact Hplanes].
  intros tail p Hp. rewrite lookup_empty in Hp. discriminate.
Qed.

(** X24.  If the inspection scan returns, every lesson of the lessons file
    names an aircraft that is in the fleet file: a lesson on any other tail
    number makes the replay raise, whatever comes before it. *)
Theorem inspection_scan_known_tails
    (lessons_csv planes_csv repairs_csv rows : list (list string)) :
  inspections.list_inspection_violations lessons_csv planes_csv repairs_csv timezone
  = Ok rows ->
  forall lesson, In lesson (tail lessons_csv) ->
    exists plane, In plane (tail planes_csv) /\
                  plane !! 0%nat = lesson !! 1%nat.
Proof.
  unfold inspections.list_inspection_violations.
  destruct (fold_rows (inspections.add_plane timezone) _ _) as [ps0|] eqn:Ep;
    cbn [bind]; [|discriminate].
  destruct (fold_rows (inspections.add_repair timezone) _ _) as [ps|] eqn:Er;
    cbn [bind]; [|discriminate].
  destruct (inspections.lesson_events timezone _) as [from_lessons|] eqn:El;
    cbn [bind]; [|discriminate].
  destruct (inspections.sort_events _) as [sorted|] eqn:Es;
    cbn [bind]; [|discriminate].
  intros Hreplay lesson Hin.
  destruct (lesson_events_spec _ _ El) as [Hevs Hall].
  destruct (Hall lesson Hin) as (ev & Hev & <-).
  destruct (Hevs ev Hev) as (Htype & _ & Htail & _).
  destruct (replay_spec _ _ _ _ Hreplay) as [Hknown _].
  assert (Hsorted : In ev sorted).
  { apply (sort_events_sorted _ _ Es). apply in_or_app. left. exact Hev. }
  pose proof (Hknown ev Hsorted Htype) as Hsome.
  apply (add_repair_fold_keys _ _ _ Er) in Hsome.
  apply (add_plane_fold_keys _ _ _ Ep) in Hsome
    as [Hempty | (plane & Hplane & Hkey)].
  - rewrite lookup_empty in Hempty. destruct Hempty as [? ?]. discriminate.
  - exists plane. split; [exact Hplane | congruence].
Qed.

(** X25.  Whatever the inspection scan returns is made of rows of the
    lessons file (the header apart), each with one of 'Annual',
    'Inspection', 'Grounded', 'Maintenance' appended: the repair events of
    the timeline never contribute a row. *)
Theorem inspection_scan_rows
    (lessons_csv planes_csv repairs_csv rows : list (list string)) :
  inspections.list_inspection_violations lessons_csv planes_csv repairs_csv timezone
  = Ok rows ->
  forall row, In row rows ->
    exists lesson label,
      In lesson (tail lessons_csv) /\ row = (lesson ++ [label])%list /\
      In label ["Annual"; "Inspection"; "Grounded"; "Maintenance"].
Proof.
  unfold inspections.list_inspection_violations.
  destruct (fold_rows (inspections.add_plane timezone) _ _) as [ps0|] eqn:Ep;
    cbn [bind]; [|discriminate].
  destruct (fold_rows (inspections.add_repair timezone) _ _) as [ps|] eqn:Er;
    cbn [bind]; [|discriminate].
  destruct (inspections.lesson_events timezone _) as [from_lessons|] eqn:El;
    cbn [bind]; [|discriminate].
  destruct (inspections.sort_events _) as [sorted|] eqn:Es;
    cbn [bind]; [|discriminate].
  intros Hreplay row Hin.
  destruct (replay_spec _ _ _ _ Hreplay) as [_ Hrows].
  destruct (Hrows row Hin) as (ev & label & Hev & Htype & -> & Hlabel).
  apply (sort_events_sorted _ _ Es) in Hev.
  apply in_app_or in Hev as [Hev | Hev].
  - destruct (lesson_events_spec _ _ El) as [Hevs _].
    destruct (Hevs ev Hev) as (_ & Hlesson & _).
    exists (inspections.ev_lesson ev), label. auto.
  - apply repair_events_spec in Hev as (p & Hp & Hrep).
    pose proof (no_lesson_among_repairs lessons_csv _ _ _ _ Ep Er _ _ Hp) as Hall.
    rewrite List.Forall_forall in Hall. apply Hall in Hrep.
    cbn [fst] in Hrep. contradiction.
Qed.

Lemma add_plane_fold_returns (rows : list (list string)) :
  Forall fleet_row rows ->
  forall plane_state : gmap string inspections.plane,
    exists plane_state',
      fold_rows (inspections.add_plane timezone) plane_state rows = Ok plane_state'.
Proof.
  induction 1 as [|row rest [Hlen Hhours] _ IH]; intros ps; cbn [fold_rows];
    [eauto|].
  unfold inspections.add_plane. rewrite !cell_lookup by lia. cbn [bind].
  destruct Hhours as [-> | [q Hq]].
  - cbn [String.eqb bind]. apply IH.
  - unfold pilots.to_float. rewrite Hq.
    destruct (String.eqb (cell row 6) ""); cbn [bind]; apply IH.
Qed.

Lemma add_repair_fold_returns (rows : list (list string)) :
  Forall (fun row => (4 <= length row)%nat) rows ->
  forall plane_state : gmap string inspections.plane,
    exists plane_state',
      fold_rows (inspections.add_repair timezone) plane_state rows = Ok plane_state'.
Proof.
  induction 1 as [|row rest Hlen _ IH]; intros ps; cbn [fold_rows]; [eauto|].
  unfold inspections.add_repair. rewrite !cell_lookup by lia. cbn [bind].
  destruct (ps !! cell row 0); cbn [bind]; apply IH.
Qed.

Lemma replay_returns (plane_state : gmap string inspections.plane)
    (events : list inspections.event) :
  Forall (fun ev =>
            timed ev /\
            (inspections.ev_type ev = inspections.lesson_event ->
             is_Some (inspections.ev_landing ev) /\
             is_Some (plane_state !! inspections.ev_tail ev))) events ->
  forall st, tracks plane_state st ->
             exists rows, inspections.replay plane_state st events = Ok rows.
Proof.
  induction 1 as [|ev rest [[t Ht] Hev] _ IH]; intros st Htracks;
    cbn [inspections.replay]; [eauto|].
  assert (Hstep : exists st' appended,
            inspections.replay_event plane_state st ev = Ok (st', appended) /\
            tracks plane_state st').
  { unfold inspections.replay_event, inspections.lookup_tail. cbv zeta.
    destruct (inspections.ev_type ev) eqn:Etype.
    - destruct (Hev eq_refl) as [[l Hl] [p Hp]].
      destruct (Htracks _ (ex_intro _ p Hp)) as [[last Hlast] [hours Hhours]].
      destruct (check_grounded_exists t l (inspections.in_shop_periods p))
        as (grounded & Eg & _).
      rewrite Ht, Hl, Hp. cbn [bind]. rewrite Eg. cbn [bind].
      rewrite Hlast. cbn [bind].
      assert (exists annual, inspections.check_annual (Some t) last = Ok annual)
        as [annual ->] by (destruct last; eexists; reflexivity).
      cbn [bind]. rewrite Hhours. cbn [bind].
      eexists _, _. split; [reflexivity|].
      intros tail Hsome. destruct (Htracks tail Hsome) as [Ha Hh].
      cbn [inspections.current_annual inspections.current_hours].
      split; [exact Ha|]. apply lookup_insert_is_Some'. right. exact Hh.
    - eexists _, _. split; [reflexivity|].
      intros tail Hsome. destruct (Htracks tail Hsome) as [Ha Hh].
      cbn [inspections.current_annual inspections.current_hours].
      split; apply lookup_insert_is_Some'; right; assumption.
    - eexists _, _. split; [reflexivity|].
      intros tail Hsome. destruct (Htracks tail Hsome) as [Ha Hh].
      cbn [inspections.current_annual inspections.current_hours].
      split; [exact Ha|]. apply lookup_insert_is_Some'. right. exact Hh. }
  destruct Hstep as (st' & appended & -> & Htracks'). cbn [bind].
  destruct (IH st' Htracks') as [rows ->]. cbn [bind]. eauto.
Qed.

Lemma initial_state_tracks (plane_state : gmap string inspections.plane) :
  tracks plane_state (inspections.initial_state plane_state).
Proof.
  intros tail [p Hp]. unfold inspections.initial_state.
  cbn [inspections.current_annual inspections.current_hours].
  rewrite !lookup_fmap, Hp. split; eexists; reflexivity.
Qed.

(** X26.  The inspection scan returns a list, whatever the records say
    about inspections, on files it can read: fleet rows with their seven
    cells and an hours cell that is empty or a float, repairs rows with
    their four cells and an in-date that parses, and lesson rows with five
    cells, a takeoff and a landing that parse and the tail number of an
    aircraft of the fleet.  A last-annual date or an out-date that does not
    parse is no obstacle. *)
Theorem inspection_scan_returns
    (lessons_csv planes_csv repairs_csv : list (list string)) :
  Forall fleet_row (tail planes_csv) ->
  Forall (repair_row timezone) (tail repairs_csv) ->
  Forall (lesson_row timezone (tail planes_csv)) (tail lessons_csv) ->
  exists rows,
    inspections.list_inspection_violations lessons_csv planes_csv repairs_csv
      timezone = Ok rows.
Proof.
  intros Hfleet Hrepairs Hlessons.
  unfold inspections.list_inspection_violations.
  destruct (add_plane_fold_returns _ Hfleet ∅) as [ps0 Ep].
  rewrite Ep. cbn [bind].
  assert (Hlen : Forall (fun row => (4 <= length row)%nat) (tail repairs_csv))
    by (eapply Forall_impl; [exact Hrepairs | intros row [Hl _]; exact Hl]).
  destruct (add_repair_fold_returns _ Hlen ps0) as [ps Er].
  rewrite Er. cbn [bind].
  assert (Hlen5 : Forall (fun row => (5 <= length row)%nat) (tail lessons_csv))
    by (eapply Forall_impl; [exact Hlessons | intros row [Hl _]; exact Hl]).
  destruct (lesson_events_returns _ Hlen5) as [from_lessons El].
  rewrite El. cbn [bind].
  assert (Htimed_repairs : repairs_all (fun rep => is_Some (snd rep)) ps).
  { apply (add_repair_fold_repairs _ (tail repairs_csv)) with (plane_state := ps0);
      [| |exact Er].
    - intros row in_str etype Hin Hstr _. cbn [snd].
      rewrite List.Forall_forall in Hrepairs.
      destruct (Hrepairs row Hin) as [_ Hparsed].
      unfold cell in Hparsed. rewrite Hstr in Hparsed. exact Hparsed.
    - apply (add_plane_fold_repairs _ (tail planes_csv)) with (plane_state := ∅);
        [|exact Ep].
      intros tl p Hp. rewrite lookup_empty in Hp. discriminate. }
  destruct (lesson_events_spec _ _ El) as [Hevs _].
  assert (Hgood : forall ev,
            In ev (from_lessons
                   ++ inspections.repair_events ps
                        (inspections.tails_in_order (tail planes_csv))) ->
            timed ev /\
            (inspections.ev_type ev = inspections.lesson_event ->
             is_Some (inspections.ev_landing ev) /\
             is_Some (ps !! inspections.ev_tail ev))).
  { intros ev Hin. apply in_app_or in Hin as [Hin | Hin].
    - destruct (Hevs ev Hin) as (_ & Hrow & Htail & Htime & Hland).
      rewrite List.Forall_forall in Hlessons.
      destruct (Hlessons _ Hrow) as (_ & Htk & Hld & plane & Hplane & Hkey).
      unfold timed. rewrite Htime, Hland.
      split; [exact Htk|]. intros _. split; [exact Hld|].
      apply (add_repair_fold_keys _ _ _ Er), (add_plane_fold_keys _ _ _ Ep).
      right. exists plane. split; [exact Hplane|].
      unfold cell in Hkey. rewrite Htail in Hkey. exact Hkey.
    - apply repair_events_spec in Hin as (p & Hp & Hrep).
      pose proof (Htimed_repairs _ _ Hp) as Hall.
      pose proof (no_lesson_among_repairs lessons_csv _ _ _ _ Ep Er _ _ Hp) as Hno.
      rewrite List.Forall_forall in Hall, Hno.
      split; [exact (Hall _ Hrep)|].
      intros Htype. destruct (Hno _ Hrep Htype). }
  assert (Htimed : Forall timed
            (from_lessons
             ++ inspections.repair_events ps
                  (inspections.tails_in_order (tail planes_csv)))).
  { apply List.Forall_forall. intros ev Hin. apply (Hgood ev Hin). }
  destruct (sort_events_returns _ Htimed) as (sorted & Es & _).
  rewrite Es. cbn [bind].
  apply replay_returns; [|apply initial_state_tracks].
  apply List.Forall_forall. intros ev Hin. apply Hgood.
  apply (sort_events_sorted _ _ Es). exact Hin.
Qed.

(** X27.  A row of the repairs file on a tail number that is in no row of
    the fleet file is ignored: with or without it the inspection scan gives
    the same result. *)
Theorem repair_of_unknown_aircraft_ignored
    (lessons_csv planes_csv : list (list string)) (header : list string)
    (before after : list (list string)) (row : list string) :
  (4 <= length row)%nat ->
  unknown_id (cell row 0) (tail planes_csv) ->
  inspections.list_inspection_violations lessons_csv planes_csv
    (header :: before ++ row :: after) timezone
  = inspections.list_inspection_violations lessons_csv planes_csv
      (header :: before ++ after) timezone.
Proof.
  intros Hlen Hunknown. unfold inspections.list_inspection_violations.
  destruct (fold_rows (inspections.add_plane timezone) _ _) as [ps0|] eqn:Ep;
    cbn [bind]; [|reflexivity].
  cbn [tail]. rewrite !fold_rows_app.
  destruct (fold_rows (inspections.add_repair timezone) ps0 before)
    as [ps1|] eqn:Eb; cbn [bind fold_rows]; [|reflexivity].
  assert (Hnone : ps1 !! cell row 0 = None).
  { destruct (ps1 !! cell row 0) as [p|] eqn:E1; [|reflexivity].
    assert (Hs : is_Some (ps1 !! cell row 0)) by eauto.
    apply (add_repair_fold_keys _ _ _ Eb), (add_plane_fold_keys _ _ _ Ep) in Hs
      as [Hempty | (plane & Hplane & Hkey)].
    - rewrite lookup_empty in Hempty. destruct Hempty as [? ?]. discriminate.
    - unfold unknown_id in Hunknown. rewrite List.Forall_forall in Hunknown.
      destruct (Hunknown plane Hplane Hkey). }
  unfold inspections.add_repair at 1. rewrite !cell_lookup by lia.
  cbn [bind]. rewrite Hnone. cbn [bind]. reflexivity.
Qed.

End inspection_scan.

(** ** inspections: what each lesson is checked against *)

Section replay_facts.
Context `{Library}.

Lemma history_cons (tail : string) (ev : inspections.event)
    (rest : list inspections.event) :
  history tail (ev :: rest) = (history tail [ev] ++ history tail rest)%list.
Proof.
  unfold history. cbn [List.filter].
  destruct (String.eqb (inspections.ev_tail ev) tail); reflexivity.
Qed.

Lemma history_app (tail : string) (pre post : list inspections.event) :
  history tail (pre ++ post) = (history tail pre ++ history tail post)%list.
Proof. apply List.filter_app. Qed.

Lemma replay_event_step (plane_state : gmap string inspections.plane)
    (st st' : inspections.replay_state) (ev : inspections.event)
    (appended : option (list string)) (tail : string) (h : Q) (a : option Z) :
  inspections.replay_event plane_state st ev = Ok (st', appended) ->
  inspections.current_hours st !! tail = Some h ->
  inspections.current_annual st !! tail = Some a ->
  inspections.current_hours st' !! tail
  = Some (hours_since_service h (history tail [ev])) /\
  inspections.current_annual st' !! tail
  = Some (last_annual_date a (history tail [ev])).
Proof.
  intros Hstep Hh Ha. revert Hstep.
  unfold inspections.replay_event, inspections.lookup_tail, history,
    hours_since_service, last_annual_date.
  cbv zeta. cbn [List.filter].
  destruct (String.eqb_spec (inspections.ev_tail ev) tail) as [Heq | Hne];
    cbn [fold_left]; destruct (inspections.ev_type ev).
  - rewrite Heq, Hh, Ha.
    destruct (plane_state !! tail); cbn [bind]; [|discriminate].
    destruct (inspections.check_grounded _ _ _); cbn [bind]; [|discriminate].
    destruct (inspections.check_annual _ _); cbn [bind]; [|discriminate].
    intros [= <- <-].
    cbn [inspections.current_annual inspections.current_hours].
    split; [apply lookup_insert_eq | exact Ha].
  - rewrite Heq. intros [= <- <-].
    cbn [inspections.current_annual inspections.current_hours].
    split; apply lookup_insert_eq.
  - rewrite Heq. intros [= <- <-].
    cbn [inspections.current_annual inspections.current_hours].
    split; [apply lookup_insert_eq | exact Ha].
  - destruct (plane_state !! _); cbn [bind]; [|discriminate].
    destruct (inspections.check_grounded _ _ _); cbn [bind]; [|discriminate].
    destruct (inspections.current_annual st !! inspections.ev_tail ev);
      cbn [bind]; [|discriminate].
    destruct (inspections.check_annual _ _); cbn [bind]; [|discriminate].
    destruct (inspections.current_hours st !! inspections.ev_tail ev);
      cbn [bind]; [|discriminate].
    intros [= <- <-].
    cbn [inspections.current_annual inspections.current_hours].
    split; [|exact Ha]. rewrite lookup_insert_ne by exact Hne. exact Hh.
  - intros [= <- <-].
    cbn [inspections.current_annual inspections.current_hours].
    split; rewrite lookup_insert_ne by exact Hne; assumption.
  - intros [= <- <-].
    cbn [inspections.current_annual inspections.current_hours].
    split; [|exact Ha]. rewrite lookup_insert_ne by exact Hne. exact Hh.
Qed.

Lemma state_after_history (plane_state : gmap string inspections.plane)
    (events : list inspections.event) :
  forall (st st' : inspections.replay_state) (tail : string) (h : Q)
         (a : option Z),
    state_after plane_state st events = Ok st' ->
    inspections.current_hours st !! tail = Some h ->
    inspections.current_annual st !! tail = Some a ->
    inspections.current_hours st' !! tail
    = Some (hours_since_service h (history tail events)) /\
    inspections.current_annual st' !! tail
    = Some (last_annual_date a (history tail events)).
Proof.
  induction events as [|ev rest IH]; intros st st' tail h a;
    cbn [state_after].
  - intros [= <-] Hh Ha. split; assumption.
  - destruct (inspections.replay_event plane_state st ev)
      as [[st1 appended]|] eqn:Estep; cbn [bind fst]; [|discriminate].
    intros Hrest Hh Ha.
    destruct (replay_event_step _ _ _ _ _ _ _ _ Estep Hh Ha) as [Hh1 Ha1].
    destruct (IH _ _ _ _ _ Hrest Hh1 Ha1) as [Hh' Ha'].
    rewrite history_cons. unfold hours_since_service, last_annual_date in *.
    rewrite !fold_left_app. split; assumption.
Qed.

Lemma replay_app_inv (plane_state : gmap string inspections.plane)
    (pre post : list inspections.event) :
  forall (st : inspections.replay_state) (rows : list (list string)),
    inspections.replay plane_state st (pre ++ post) = Ok rows ->
    exists rows_pre st' rows_post,
      inspections.replay plane_state st pre = Ok rows_pre /\
      state_after plane_state st pre = Ok st' /\
      inspections.replay plane_state st' post = Ok rows_post /\
      rows = (rows_pre ++ rows_post)%list.
Proof.
  induction pre as [|ev pre IH]; intros st rows;
    cbn [app inspections.replay state_after].
  - intros Hpost. exists [], st, rows. auto.
  - destruct (inspections.replay_event plane_state st ev)
      as [[st1 appended]|]; cbn [bind fst]; [|discriminate].
    destruct (inspections.replay plane_state st1 (pre ++ post))
      as [violations|] eqn:Erest; cbn [bind]; [|discriminate].
    intros [= <-].
    destruct (IH _ _ Erest) as (rows_pre & st' & rows_post & -> & Hst & Hpost & ->).
    cbn [bind].
    exists (match appended with
            | Some row => row :: rows_pre
            | None => rows_pre
            end), st', rows_post.
    split; [reflexivity|]. split; [exact Hst|]. split; [exact Hpost|].
    destruct appended; reflexivity.
Qed.

(** The row of a lesson of the timeline: the replay has looked up the
    aircraft, and the three flags are those of the grounded check, of the
    annual check on the last annual date the earlier events of the aircraft
    leave, and of the 100-hour check on the hours they leave. *)
Lemma replay_verdict (plane_state : gmap string inspections.plane)
    (pre post : list inspections.event) (ev : inspections.event)
    (rows : list (list string)) :
  inspections.replay plane_state (inspections.initial_state plane_state)
    (pre ++ ev :: post) = Ok rows ->
  inspections.ev_type ev = inspections.lesson_event ->
  exists (p : inspections.plane) (rows_pre rows_post : list (list string))
         (annual grounded : bool),
    plane_state !! inspections.ev_tail ev = Some p /\
    inspections.replay plane_state (inspections.initial_state plane_state) pre
    = Ok rows_pre /\
    inspections.check_grounded (inspections.ev_time ev)
      (inspections.ev_landing ev) (inspections.in_shop_periods p)
    = Ok grounded /\
    inspections.check_annual (inspections.ev_time ev)
      (last_annual_date (inspections.last_annual p)
         (history (inspections.ev_tail ev) pre))
    = Ok annual /\
    rows
    = (rows_pre
       ++ appended_row (inspections.ev_lesson ev)
            (inspections.annotate annual
               (inspections.check_inspection
                  (hours_since_service (inspections.hours_since_100 p)
                     (history (inspections.ev_tail ev) pre))
                  (inspections.duration_hours (inspections.ev_time ev)
                     (inspections.ev_landing ev)))
               grounded)
       ++ rows_post)%list.
Proof.
  intros Hreplay Htype.
  destruct (replay_app_inv _ _ _ _ _ Hreplay)
    as (rows_pre & st & rows_rest & Hpre & Hst & Hrest & ->).
  revert Hrest. cbn [inspections.replay].
  unfold inspections.replay_event, inspections.lookup_tail. cbv zeta.
  rewrite Htype.
  destruct (plane_state !! inspections.ev_tail ev) as [p|] eqn:Hp;
    cbn [bind]; [|discriminate].
  assert (Hh0 : inspections.current_hours
                  (inspections.initial_state plane_state)
                !! inspections.ev_tail ev
                = Some (inspections.hours_since_100 p)).
  { unfold inspections.initial_state. cbn [inspections.current_hours].
    rewrite lookup_fmap, Hp. reflexivity. }
  assert (Ha0 : inspections.current_annual
                  (inspections.initial_state plane_state)
                !! inspections.ev_tail ev
                = Some (inspections.last_annual p)).
  { unfold inspections.initial_state. cbn [inspections.current_annual].
    rewrite lookup_fmap, Hp. reflexivity. }
  destruct (state_after_history _ _ _ _ _ _ _ Hst Hh0 Ha0) as [Hh Ha].
  destruct (inspections.check_grounded _ _ _) as [grounded|] eqn:Eg;
    cbn [bind]; [|discriminate].
  rewrite Ha. cbn [bind].
  destruct (inspections.check_annual _ _) as [annual|] eqn:Ea;
    cbn [bind]; [|discriminate].
  rewrite Hh. cbn [bind].
  destruct (inspections.replay plane_state _ post) as [rows_post|];
    cbn [bind]; [|discriminate].
  intros [= <-].
  exists p, rows_pre, rows_post, annual, grounded.
  split; [reflexivity|]. split; [exact Hpre|].
  split; [first [reflexivity | exact Eg]|].
  split; [first [reflexivity | exact Ea]|].
  destruct (inspections.annotate _ _ _); reflexivity.
Qed.

End replay_facts.

(** ** inspections: from the files to the timeline *)

Section scan_facts.
Context `{Library}.
Variable timezone : string.

Lemma scan_unfolds (lessons_csv planes_csv repairs_csv rows : list (list string)) :
  inspections.list_inspection_violations lessons_csv planes_csv repairs_csv
    timezone = Ok rows ->
  exists (plane_state : gmap string inspections.plane)
         (timeline : list inspections.event),
    scan_builds lessons_csv planes_csv repairs_csv timezone plane_state timeline /\
    inspections.replay plane_state (inspections.initial_state plane_state)
      timeline = Ok rows.
Proof.
  unfold inspections.list_inspection_violations, scan_builds.
  destruct (fold_rows (inspections.add_plane timezone) _ _) as [ps0|] eqn:Ep;
    cbn [bind]; [|discriminate].
  destruct (fold_rows (inspections.add_repair timezone) _ _) as [ps|] eqn:Er;
    cbn [bind]; [|discriminate].
  destruct (inspections.lesson_events timezone _) as [from_lessons|] eqn:El;
    cbn [bind]; [|discriminate].
  destruct (inspections.sort_events _) as [timeline|] eqn:Es;
    cbn [bind]; [|discriminate].
  intros Hreplay. exists ps, timeline. split; [|exact Hreplay].
  exists ps0, from_lessons. auto.
Qed.

Lemma add_plane_row (plane_state plane_state' : gmap string inspections.plane)
    (row : list string) :
  inspections.add_plane timezone plane_state row = Ok plane_state' ->
  exists tail p,
    of_fleet_row timezone row tail p /\ inspections.repairs p = [] /\
    plane_state' = <[tail := p]> plane_state.
Proof.
  unfold inspections.add_plane.
  destruct (index row 0) as [tail|] eqn:E0; cbn [bind]; [|discriminate].
  destruct (index row 5) as [annual_str|] eqn:E5; cbn [bind]; [|discriminate].
  destruct (index row 6) as [hours_str|] eqn:E6; cbn [bind]; [|discriminate].
  destruct (if String.eqb hours_str "" then _ else _) as [hours|] eqn:Eh;
    cbn [bind]; [|discriminate].
  intros [= <-]. apply index_Ok_lookup in E0, E5, E6.
  exists tail,
    {| inspections.last_annual := inspections.str_to_instant annual_str timezone;
       inspections.hours_since_100 := hours;
       inspections.in_shop_periods := [];
       inspections.repairs := [] |}.
  split; [|split; reflexivity].
  unfold of_fleet_row, float_cell, cell. rewrite E5, E6.
  cbn [inspections.last_annual inspections.hours_since_100].
  unfold default, from_option, id.
  split; [exact E0|]. split; [reflexivity|].
  revert Eh. destruct (String.eqb hours_str ""); [intros [= <-]; reflexivity|].
  unfold pilots.to_float.
  destruct (float_of_str hours_str); [intros [= <-]; reflexivity | discriminate].
Qed.

Lemma add_repair_row (plane_state plane_state' : gmap string inspections.plane)
    (row : list string) :
  inspections.add_repair timezone plane_state row = Ok plane_state' ->
  exists tail in_str desc,
    row !! 0%nat = Some tail /\ row !! 1%nat = Some in_str /\
    row !! 3%nat = Some desc /\
    ((plane_state !! tail = None /\ plane_state' = plane_state) \/
     exists p p',
       plane_state !! tail = Some p /\
       plane_state' = <[tail := p']> plane_state /\
       inspections.last_annual p' = inspections.last_annual p /\
       inspections.hours_since_100 p' = inspections.hours_since_100 p /\
       inspections.repairs p'
       = (inspections.repairs p
          ++ [(logged_as desc, inspections.str_to_instant in_str timezone)])%list).
Proof.
  unfold inspections.add_repair.
  destruct (index row 0) as [tail|] eqn:E0; cbn [bind]; [|discriminate].
  destruct (index row 1) as [in_str|] eqn:E1; cbn [bind]; [|discriminate].
  destruct (index row 2); cbn [bind]; [|discriminate].
  destruct (index row 3) as [desc|] eqn:E3; cbn [bind]; [|discriminate].
  apply index_Ok_lookup in E0, E1, E3. intros Hres.
  exists tail, in_str, desc. do 3 (split; [assumption|]). revert Hres.
  destruct (plane_state !! tail) as [p|] eqn:Ep.
  - intros [= <-]. right. exists p. eexists.
    split; [reflexivity|]. split; [reflexivity|].
    split; [reflexivity|]. split; reflexivity.
  - intros [= <-]. left. split; reflexivity.
Qed.

(** The aircraft of the fleet file: both loops keep what the fleet row
    said. *)
Lemma add_plane_fold_rows (all rows : list (list string)) :
  (forall row, In row rows -> In row all) ->
  forall plane_state plane_state' : gmap string inspections.plane,
    (forall tail p, plane_state !! tail = Some p ->
       exists row, In row all /\ of_fleet_row timezone row tail p) ->
    fold_rows (inspections.add_plane timezone) plane_state rows = Ok plane_state' ->
    forall tail p, plane_state' !! tail = Some p ->
      exists row, In row all /\ of_fleet_row timezone row tail p.
Proof.
  induction rows as [|row rest IH]; intros Hsub ps ps' Hinv; cbn [fold_rows].
  - intros [= <-]. exact Hinv.
  - destruct (inspections.add_plane timezone ps row) as [ps1|] eqn:E;
      cbn [bind]; [|discriminate].
    apply IH; [intros r Hr; apply Hsub; right; exact Hr|].
    apply add_plane_row in E as (t0 & p0 & Hrow & _ & ->).
    intros tail p. destruct (decide (t0 = tail)) as [->|Hne].
    + rewrite lookup_insert_eq. intros [= <-].
      exists row. split; [apply Hsub; left; reflexivity | exact Hrow].
    + rewrite lookup_insert_ne by exact Hne. apply Hinv.
Qed.

Lemma add_repair_fold_rows (all rows : list (list string)) :
  forall plane_state plane_state' : gmap string inspections.plane,
    (forall tail p, plane_state !! tail = Some p ->
       exists row, In row all /\ of_fleet_row timezone row tail p) ->
    fold_rows (inspections.add_repair timezone) plane_state rows = Ok plane_state' ->
    forall tail p, plane_state' !! tail = Some p ->
      exists row, In row all /\ of_fleet_row timezone row tail p.
Proof.
  induction rows as [|row rest IH]; intros ps ps' Hinv; cbn [fold_rows].
  - intros [= <-]. exact Hinv.
  - destruct (inspections.add_repair timezone ps row) as [ps1|] eqn:E;
      cbn [bind]; [|discriminate].
    apply IH.
    apply add_repair_row in E
      as (t0 & in_str & desc & _ & _ & _
          & [[_ ->] | (p0 & p1 & Hp0 & -> & Hannual & Hhours & _)]);
      [exact Hinv|].
    intros tail p. destruct (decide (t0 = tail)) as [->|Hne].
    + rewrite lookup_insert_eq. intros [= <-].
      destruct (Hinv _ _ Hp0) as (r & Hr & Hkey & Ha & Hh).
      exists r. split; [exact Hr|]. unfold of_fleet_row.
      rewrite Hannual, Hhours. auto.
    + rewrite lookup_insert_ne by exact Hne. apply Hinv.
Qed.

Lemma planes_of_fleet (lessons_csv planes_csv repairs_csv : list (list string))
    (plane_state : gmap string inspections.plane)
    (timeline : list inspections.event) :
  scan_builds lessons_csv planes_csv repairs_csv timezone plane_state timeline ->
  forall tailno p, plane_state !! tailno = Some p ->
    exists row, In row (tail planes_csv) /\ of_fleet_row timezone row tailno p.
Proof.
  intros (ps0 & from_lessons & Ep & Er & _).
  eapply (add_repair_fold_rows (tail planes_csv)); [|exact Er].
  eapply (add_plane_fold_rows (tail planes_csv));
    [intros r Hr; exact Hr | | exact Ep].
  intros tl p Hp. rewrite lookup_empty in Hp. discriminate.
Qed.

(** Every repairs row of an aircraft of the fleet is logged, and stays
    logged. *)
Lemma add_repair_fold_logs (rows : list (list string)) :
  forall plane_state plane_state' : gmap string inspections.plane,
    fold_rows (inspections.add_repair timezone) plane_state rows = Ok plane_state' ->
    (forall tail p rep,
       plane_state !! tail = Some p -> In rep (inspections.repairs p) ->
       exists p', plane_state' !! tail = Some p'
                  /\ In rep (inspections.repairs p')) /\
    (forall row, In row rows ->
       exists tail in_str desc,
         row !! 0%nat = Some tail /\ row !! 1%nat = Some in_str /\
         row !! 3%nat = Some desc /\
         (is_Some (plane_state' !! tail) ->
          exists p, plane_state' !! tail = Some p /\
                    In (logged_as desc,
                        inspections.str_to_instant in_str timezone)
                       (inspections.repairs p))).
Proof.
  induction rows as [|row rest IH]; intros ps ps'; cbn [fold_rows].
  - intros [= <-]. split; [eauto | intros row []].
  - destruct (inspections.add_repair timezone ps row) as [ps1|] eqn:E;
      cbn [bind]; [|discriminate].
    intros Hfold. destruct (IH _ _ Hfold) as [Hmono Hlogs].
    pose proof (add_repair_fold_keys timezone _ _ _ Hfold) as Hkeys.
    apply add_repair_row in E
      as (t0 & in_str & desc & H0 & H1 & H3
          & [[Hnone ->] | (p0 & p1 & Hp0 & -> & _ & _ & Hrep)]).
    + split; [exact Hmono|].
      intros r [<- | Hr]; [|apply Hlogs, Hr].
      exists t0, in_str, desc. do 3 (split; [assumption|]).
      intros Hsome. apply Hkeys in Hsome. rewrite Hnone in Hsome.
      destruct Hsome as [? ?]. discriminate.
    + split.
      * intros tail p rep Hp Hin.
        destruct (decide (t0 = tail)) as [->|Hne].
        -- apply (Hmono tail p1 rep); [apply lookup_insert_eq|].
           rewrite Hrep. apply in_or_app. left. congruence.
        -- apply (Hmono tail p rep); [|exact Hin].
           rewrite lookup_insert_ne by exact Hne. exact Hp.
      * intros r [<- | Hr]; [|apply Hlogs, Hr].
        exists t0, in_str, desc. do 3 (split; [assumption|]).
        intros _. apply (Hmono t0 p1); [apply lookup_insert_eq|].
        rewrite Hrep. apply in_or_app. right. left. reflexivity.
Qed.

(** And every logged repair comes from a row of the repairs file. *)
Lemma add_repair_fold_sources (all rows : list (list string)) :
  (forall row, In row rows -> In row all) ->
  forall plane_state plane_state' : gmap string inspections.plane,
    (forall tail p rep,
       plane_state !! tail = Some p -> In rep (inspections.repairs p) ->
       exists row in_str desc,
         In row all /\ row !! 0%nat = Some tail /\ row !! 1%nat = Some in_str /\
         row !! 3%nat = Some desc /\
         rep = (logged_as desc, inspections.str_to_instant in_str timezone)) ->
    fold_rows (inspections.add_repair timezone) plane_state rows = Ok plane_state' ->
    forall tail p rep,
      plane_state' !! tail = Some p -> In rep (inspections.repairs p) ->
      exists row in_str desc,
        In row all /\ row !! 0%nat = Some tail /\ row !! 1%nat = Some in_str /\
        row !! 3%nat = Some desc /\
        rep = (logged_as desc, inspections.str_to_instant in_str timezone).
Proof.
  induction rows as [|row rest IH]; intros Hsub ps ps' Hinv; cbn [fold_rows].
  - intros [= <-]. exact Hinv.
  - destruct (inspections.add_repair timezone ps row) as [ps1|] eqn:E;
      cbn [bind]; [|discriminate].
    apply IH; [intros r Hr; apply Hsub; right; exact Hr|].
    apply add_repair_row in E
      as (t0 & in_str & desc & H0 & H1 & H3
          & [[_ ->] | (p0 & p1 & Hp0 & -> & _ & _ & Hrep)]);
      [exact Hinv|].
    intros tail p rep. destruct (decide (t0 = tail)) as [->|Hne].
    + rewrite lookup_insert_eq. intros [= <-]. rewrite Hrep.
      intros Hin. apply in_app_or in Hin as [Hin | [<- | []]].
      * apply (Hinv _ _ _ Hp0 Hin).
      * exists row, in_str, desc.
        split; [apply Hsub; left; reflexivity | auto].
    + rewrite lookup_insert_ne by exact Hne. apply Hinv.
Qed.

Lemma first_occurrences_In (tails : list string) :
  forall (seen : list string) (x : string),
    In x tails -> In x seen \/ In x (inspections.first_occurrences seen tails).
Proof.
  induction tails as [|t rest IH]; intros seen x; [intros []|].
  cbn [inspections.first_occurrences]. intros [<- | Hin].
  - destruct (bool_decide (t ∈ seen)) eqn:E.
    + left. apply bool_decide_eq_true in E. apply list_elem_of_In, E.
    + right. left. reflexivity.
  - destruct (bool_decide (t ∈ seen)).
    + apply IH, Hin.
    + destruct (IH (t :: seen) x Hin) as [[<- | Hseen] | Hout].
      * right. left. reflexivity.
      * left. exact Hseen.
      * right. right. exact Hout.
Qed.

Lemma tails_in_order_In (rows : list (list string)) (row : list string)
    (tail : string) :
  In row rows -> row !! 0%nat = Some tail ->
  In tail (inspections.tails_in_order rows).
Proof.
  intros Hrow Hkey. unfold inspections.tails_in_order.
  destruct (first_occurrences_In (omap (fun r => r !! 0%nat) rows) [] tail)
    as [[] | Hin]; [|exact Hin].
  apply list_elem_of_In, list_elem_of_omap. exists row.
  split; [apply list_elem_of_In, Hrow | exact Hkey].
Qed.

Lemma repair_events_In (plane_state : gmap string inspections.plane)
    (tails : list string) (tail : string) (p : inspections.plane)
    (rep : inspections.event_type * option Z) :
  In tail tails -> plane_state !! tail = Some p ->
  In rep (inspections.repairs p) ->
  In {| inspections.ev_tail := tail; inspections.ev_time := snd rep;
        inspections.ev_type := fst rep; inspections.ev_lesson := [];
        inspections.ev_landing := None |}
     (inspections.repair_events plane_state tails).
Proof.
  intros Htail Hp Hrep. unfold inspections.repair_events.
  apply in_flat_map. exists tail. split; [exact Htail|]. rewrite Hp.
  apply in_map_iff. exists rep. split; [reflexivity | exact Hrep].
Qed.

(** The repairs file and the timeline: a row on an aircraft of the fleet
    gives an event of the kind its description says, dated by its in-date;
    and every event that is not a lesson is given by such a row. *)
Lemma repairs_in_timeline (lessons_csv planes_csv repairs_csv : list (list string))
    (plane_state : gmap string inspections.plane)
    (timeline : list inspections.event) :
  scan_builds lessons_csv planes_csv repairs_csv timezone plane_state timeline ->
  (forall row, In row (tail repairs_csv) ->
     exists tail in_str desc,
       row !! 0%nat = Some tail /\ row !! 1%nat = Some in_str /\
       row !! 3%nat = Some desc /\
       (is_Some (plane_state !! tail) ->
        exists e, In e timeline /\ inspections.ev_tail e = tail /\
                  inspections.ev_type e = logged_as desc /\
                  inspections.ev_time e
                  = inspections.str_to_instant in_str timezone)) /\
  (forall e, In e timeline ->
     inspections.ev_type e <> inspections.lesson_event ->
     exists row in_str desc,
       In row (tail repairs_csv) /\
       row !! 0%nat = Some (inspections.ev_tail e) /\
       row !! 1%nat = Some in_str /\ row !! 3%nat = Some desc /\
       inspections.ev_type e = logged_as desc /\
       inspections.ev_time e = inspections.str_to_instant in_str timezone).
Proof.
  intros (ps0 & from_lessons & Ep & Er & El & Es).
  destruct (sort_events_sorted _ _ Es) as [_ Hsame].
  split.
  - intros row Hrow.
    destruct (add_repair_fold_logs _ _ _ Er) as [_ Hlogs].
    destruct (Hlogs row Hrow) as (tl & in_str & desc & H0 & H1 & H3 & Hlogged).
    exists tl, in_str, desc. do 3 (split; [assumption|]).
    intros Hsome. destruct (Hlogged Hsome) as (p & Hp & Hrep).
    assert (Hin : In tl (inspections.tails_in_order (tail planes_csv))).
    { apply (add_repair_fold_keys timezone _ _ _ Er) in Hsome.
      apply (add_plane_fold_keys timezone _ _ _ Ep) in Hsome
        as [Hempty | (plane & Hplane & Hkey)].
      - rewrite lookup_empty in Hempty. destruct Hempty as [? ?]. discriminate.
      - apply (tails_in_order_In _ plane); assumption. }
    eexists. split.
    + apply Hsame, in_or_app. right.
      apply (repair_events_In _ _ _ _ _ Hin Hp Hrep).
    + cbn. auto.
  - intros e He Htype. apply Hsame in He. apply in_app_or in He as [He | He].
    + destruct (lesson_events_spec timezone _ _ El) as [Hevs _].
      destruct (Hevs e He) as (Hlesson & _). contradiction.
    + apply repair_events_spec in He as (p & Hp & Hrep).
      assert (Hsrc : forall tl q rep,
                ps0 !! tl = Some q -> In rep (inspections.repairs q) ->
                exists row in_str desc,
                  In row (tail repairs_csv) /\ row !! 0%nat = Some tl /\
                  row !! 1%nat = Some in_str /\ row !! 3%nat = Some desc /\
                  rep = (logged_as desc,
                         inspections.str_to_instant in_str timezone)).
      { intros tl q rep Hq Hin.
        assert (Hnone : repairs_all (fun _ => False) ps0).
        { apply (add_plane_fold_repairs timezone _ (tail planes_csv) ∅);
            [|exact Ep].
          intros t0 q0 Hq0. rewrite lookup_empty in Hq0. discriminate. }
        pose proof (Hnone _ _ Hq) as Hall.
        rewrite List.Forall_forall in Hall. destruct (Hall _ Hin). }
      destruct (add_repair_fold_sources (tail repairs_csv) (tail repairs_csv)
                  ltac:(auto) _ _ Hsrc Er _ _ _ Hp Hrep)
        as (row & in_str & desc & Hrow & H0 & H1 & H3 & Heq).
      injection Heq as Htype' Htime.
      exists row, in_str, desc. auto 8.
Qed.

Lemma lessons_in_timeline (lessons_csv planes_csv repairs_csv : list (list string))
    (plane_state : gmap string inspections.plane)
    (timeline : list inspections.event) :
  scan_builds lessons_csv planes_csv repairs_csv timezone plane_state timeline ->
  forall lesson, In lesson (tail lessons_csv) ->
    exists ev, In ev timeline /\
      inspections.ev_type ev = inspections.lesson_event /\
      inspections.ev_lesson ev = lesson /\
      lesson !! 1%nat = Some (inspections.ev_tail ev) /\
      inspections.ev_time ev
      = inspections.str_to_instant (cell lesson 3) timezone /\
      inspections.ev_landing ev
      = inspections.str_to_instant (cell lesson 4) timezone.
Proof.
  intros (ps0 & from_lessons & Ep & Er & El & Es) lesson Hlesson.
  destruct (sort_events_sorted _ _ Es) as [_ Hsame].
  destruct (lesson_events_spec timezone _ _ El) as [Hevs Hall].
  destruct (Hall lesson Hlesson) as (ev & Hev & <-).
  destruct (Hevs ev Hev) as (Htype & _ & Htail & Htime & Hland).
  exists ev. split; [apply Hsame, in_or_app; left; exact Hev | auto].
Qed.

Lemma sorted_split (pre post : list inspections.event) (ev : inspections.event) :
  StronglySorted key_le (pre ++ ev :: post) ->
  Forall (fun e => key_le e ev) pre /\ Forall (key_le ev) post.
Proof.
  induction pre as [|x pre IH]; cbn [app]; intros Hsorted;
    apply StronglySorted_inv in Hsorted as [Hrest Hx].
  - split; [constructor | exact Hx].
  - destruct (IH Hrest) as [Hpre Hpost]. split; [|exact Hpost].
    constructor; [|exact Hpre].
    rewrite List.Forall_forall in Hx. apply Hx, in_or_app. right. left.
    reflexivity.
Qed.

(** In the sorted timeline the events of an aircraft come by date: what is
    dated strictly before a lesson of the aircraft is replayed before it,
    and nothing replayed before it is dated after it. *)
Lemma timeline_by_date (events timeline pre post : list inspections.event)
    (ev : inspections.event) (t : Z) :
  inspections.sort_events events = Ok timeline ->
  timeline = (pre ++ ev :: post)%list ->
  inspections.ev_time ev = Some t ->
  (forall e x, In e timeline ->
     inspections.ev_tail e = inspections.ev_tail ev ->
     inspections.ev_time e = Some x -> x < t ->
     In e (history (inspections.ev_tail ev) pre)) /\
  (forall e x, In e (history (inspections.ev_tail ev) pre) ->
     inspections.ev_time e = Some x -> x <= t).
Proof.
  intros Hsort -> Ht.
  destruct (sort_events_sorted _ _ Hsort) as [Hsorted _].
  destruct (sorted_split _ _ _ Hsorted) as [Hpre Hpost].
  rewrite List.Forall_forall in Hpre, Hpost. split.
  - intros e x Hin Htail Hx Hlt. unfold history.
    apply List.filter_In. split; [|apply String.eqb_eq, Htail].
    apply in_app_or in Hin as [Hin | [<- | Hin]]; [exact Hin | |].
    + rewrite Ht in Hx. injection Hx as <-. lia.
    + pose proof (Hpost e Hin) as Hle. unfold key_le, inspections.key_lt in Hle.
      rewrite Htail, String.eqb_refl, Hx, Ht in Hle. cbn [negb] in Hle.
      injection Hle as Hle. apply Z.ltb_ge in Hle. lia.
  - intros e x Hin Hx. unfold history in Hin.
    apply List.filter_In in Hin as [Hin Htail]. apply String.eqb_eq in Htail.
    pose proof (Hpre e Hin) as Hle. unfold key_le, inspections.key_lt in Hle.
    rewrite Htail, String.eqb_refl, Hx, Ht in Hle. cbn [negb] in Hle.
    injection Hle as Hle. apply Z.ltb_ge in Hle. exact Hle.
Qed.

End scan_facts.

(** ** inspections: the annual check and the 100-hour check *)

Section inspection_flags.
Context `{Library}.

(** More than 365 whole days: the 366th day is complete. *)
Lemma check_annual_whole_days (time last : option Z) (annual : bool) :
  inspections.check_annual time last = Ok annual ->
  (last = None -> annual = false) /\
  (forall a, last = Some a ->
     exists t, time = Some t /\
               (annual = true <-> 366 * 86400000000 <= t - a)).
Proof.
  unfold inspections.check_annual.
  destruct last as [a|]; [|intros [= <-]; split; [reflexivity | discriminate]].
  destruct time as [t|]; [|discriminate].
  intros [= <-]. split; [discriminate|].
  intros a' [= <-]. exists t. split; [reflexivity|].
  unfold inspections.days_between, inspections.MICROSECONDS_PER_DAY.
  rewrite Z.ltb_lt.
  pose proof (Z.div_mod (t - a) 86400000000 ltac:(lia)) as Hdiv.
  pose proof (Z.mod_pos_bound (t - a) 86400000000 ltac:(lia)) as Hmod.
  lia.
Qed.

(** The dates [last_annual_date] picks: the date of the last annual
    inspection of the past, and the date of the fleet file when there is
    none. *)
Lemma last_annual_date_latest (a0 : option Z)
    (before later : list inspections.event) (e : inspections.event) :
  inspections.ev_type e = inspections.annual_event ->
  Forall (fun e' => inspections.ev_type e' <> inspections.annual_event) later ->
  last_annual_date a0 (before ++ e :: later) = inspections.ev_time e.
Proof.
  intros He Hlater. unfold last_annual_date.
  rewrite fold_left_app. cbn [fold_left]. rewrite He.
  generalize (inspections.ev_time e) as a.
  induction Hlater as [|x later Hx _ IH]; intros a; cbn [fold_left];
    [reflexivity|].
  destruct (inspections.ev_type x); [apply IH | contradiction | apply IH].
Qed.

Lemma last_annual_date_none (a0 : option Z) (past : list inspections.event) :
  Forall (fun e' => inspections.ev_type e' <> inspections.annual_event) past ->
  last_annual_date a0 past = a0.
Proof.
  unfold last_annual_date. intros Hpast. revert a0.
  induction Hpast as [|x past Hx _ IH]; intros a0; cbn [fold_left];
    [reflexivity|].
  destruct (inspections.ev_type x); [apply IH | contradiction | apply IH].
Qed.

End inspection_flags.

(** ** inspections: the two claims on the scan *)

Section inspection_claims.
Context `{Library}.

(** C4.  Whenever the inspection scan returns, it has replayed the sorted
    timeline of the lessons and of the repairs of the fleet, every lesson
    row being one of its lesson events, and for every lesson event of the
    timeline: the aircraft is one of the fleet file; the hours since
    service at takeoff are the hours of the fleet row carried through the
    earlier events of the aircraft (each earlier lesson adding its
    duration, each repair starting again from zero), the events other than
    lessons being the repairs rows of the aircraft of the fleet, dated by
    their in-dates, and everything of the aircraft dated strictly before
    the takeoff being earlier in the timeline and nothing dated after it;
    the 100-hour flag of the lesson is set if and only if those hours are
    at or over 100, or those hours plus the duration of the flight are
    strictly over 100, the sum being the float sum of the code and the
    duration the float quotient of the seconds from takeoff to landing by
    3600; a flight that brings hours under 100 to exactly 100 is not
    flagged; a flagged lesson is put out with 'Inspection' (with
    'Maintenance' when another check flags it too); and the sum is what the
    next lesson of the aircraft starts from, the check of this one having
    used the hours before it. *)
Theorem hundred_hour_check (lessons_csv planes_csv repairs_csv : list (list string))
    (timezone : string) (rows : list (list string)) :
  inspections.list_inspection_violations lessons_csv planes_csv repairs_csv
    timezone = Ok rows ->
  exists (plane_state : gmap string inspections.plane)
         (timeline : list inspections.event),
    scan_builds lessons_csv planes_csv repairs_csv timezone plane_state timeline /\
    inspections.replay plane_state (inspections.initial_state plane_state)
      timeline = Ok rows /\
    (forall tailno p, plane_state !! tailno = Some p ->
       exists row, In row (tail planes_csv)
                   /\ of_fleet_row timezone row tailno p) /\
    (forall lesson, In lesson (tail lessons_csv) ->
       exists ev, In ev timeline /\
         inspections.ev_type ev = inspections.lesson_event /\
         inspections.ev_lesson ev = lesson /\
         lesson !! 1%nat = Some (inspections.ev_tail ev) /\
         inspections.ev_time ev
         = inspections.str_to_instant (cell lesson 3) timezone /\
         inspections.ev_landing ev
         = inspections.str_to_instant (cell lesson 4) timezone) /\
    (forall row, In row (tail repairs_csv) ->
       exists tailno in_str desc,
         row !! 0%nat = Some tailno /\ row !! 1%nat = Some in_str /\
         row !! 3%nat = Some desc /\
         (is_Some (plane_state !! tailno) ->
          exists e, In e timeline /\ inspections.ev_tail e = tailno /\
                    inspections.ev_type e <> inspections.lesson_event /\
                    inspections.ev_time e
                    = inspections.str_to_instant in_str timezone)) /\
    (forall e, In e timeline ->
       inspections.ev_type e <> inspections.lesson_event ->
       exists row in_str,
         In row (tail repairs_csv) /\
         row !! 0%nat = Some (inspections.ev_tail e) /\
         row !! 1%nat = Some in_str /\
         inspections.ev_time e = inspections.str_to_instant in_str timezone) /\
    forall (pre post : list inspections.event) (ev : inspections.event),
      timeline = (pre ++ ev :: post)%list ->
      inspections.ev_type ev = inspections.lesson_event ->
      exists (p : inspections.plane) (rows_pre rows_post : list (list string))
             (annual inspection grounded : bool),
        plane_state !! inspections.ev_tail ev = Some p /\
        inspections.replay plane_state
          (inspections.initial_state plane_state) pre = Ok rows_pre /\
        rows
        = (rows_pre
           ++ appended_row (inspections.ev_lesson ev)
                (inspections.annotate annual inspection grounded)
           ++ rows_post)%list /\
        (forall t, inspections.ev_time ev = Some t ->
           (forall e x, In e timeline ->
              inspections.ev_tail e = inspections.ev_tail ev ->
              inspections.ev_time e = Some x -> x < t ->
              In e (history (inspections.ev_tail ev) pre)) /\
           (forall e x, In e (history (inspections.ev_tail ev) pre) ->
              inspections.ev_time e = Some x -> x <= t)) /\
        inspections.check_annual (inspections.ev_time ev)
          (last_annual_date (inspections.last_annual p)
             (history (inspections.ev_tail ev) pre)) = Ok annual /\
        inspections.check_grounded (inspections.ev_time ev)
          (inspections.ev_landing ev) (inspections.in_shop_periods p)
        = Ok grounded /\
        let hours :=
          hours_since_service (inspections.hours_since_100 p)
            (history (inspections.ev_tail ev) pre) in
        let duration :=
          inspections.duration_hours (inspections.ev_time ev)
            (inspections.ev_landing ev) in
        (forall t l, inspections.ev_time ev = Some t ->
                     inspections.ev_landing ev = Some l ->
                     duration = fdiv (truediv (l - t) 1000000) 3600) /\
        (inspection = true
         <-> (100 <= hours)%Q \/ (100 < fadd hours duration)%Q) /\
        ((hours < 100)%Q -> (fadd hours duration == 100)%Q ->
         inspection = false) /\
        (inspection = true ->
         inspections.annotate annual inspection grounded
         = Some (if annual || grounded then "Maintenance" else "Inspection")) /\
        hours_since_service (inspections.hours_since_100 p)
          (history (inspections.ev_tail ev) (pre ++ [ev]))
        = fadd hours duration.
Proof.
  intros Hscan.
  destruct (scan_unfolds timezone _ _ _ _ Hscan)
    as (plane_state & timeline & Hbuilds & Hreplay).
  destruct (repairs_in_timeline timezone _ _ _ _ _ Hbuilds)
    as [Hrepairs Hevents].
  exists plane_state, timeline.
  split; [exact Hbuilds|]. split; [exact Hreplay|].
  split; [exact (planes_of_fleet timezone _ _ _ _ _ Hbuilds)|].
  split; [exact (lessons_in_timeline timezone _ _ _ _ _ Hbuilds)|].
  split; [|split].
  { intros row Hrow.
    destruct (Hrepairs row Hrow) as (tl & in_str & desc & H0 & H1 & H3 & Hev).
    exists tl, in_str, desc. do 3 (split; [assumption|]).
    intros Hsome. destruct (Hev Hsome) as (e & He & Htail & Htype & Htime).
    exists e. do 2 (split; [assumption|]). split; [|exact Htime].
    rewrite Htype. unfold logged_as. destruct (String.eqb _ _); discriminate. }
  { intros e He Htype.
    destruct (Hevents e He Htype)
      as (row & in_str & desc & Hrow & H0 & H1 & _ & _ & Htime).
    exists row, in_str. auto. }
  intros pre post ev Hsplit Htype.
  assert (Horder : forall t, inspections.ev_time ev = Some t ->
            (forall e x, In e timeline ->
               inspections.ev_tail e = inspections.ev_tail ev ->
               inspections.ev_time e = Some x -> x < t ->
               In e (history (inspections.ev_tail ev) pre)) /\
            (forall e x, In e (history (inspections.ev_tail ev) pre) ->
               inspections.ev_time e = Some x -> x <= t)).
  { intros t Ht. destruct Hbuilds as (ps0 & fl & _ & _ & _ & Es).
    apply (timeline_by_date _ _ _ _ _ _ Es Hsplit Ht). }
  subst timeline.
  destruct (replay_verdict _ _ _ _ _ Hreplay Htype)
    as (p & rows_pre & rows_post & annual & grounded
        & Hp & Hpre & Hgrounded & Hannual & Hrows).
  exists p, rows_pre, rows_post, annual,
    (inspections.check_inspection
       (hours_since_service (inspections.hours_since_100 p)
          (history (inspections.ev_tail ev) pre))
       (inspections.duration_hours (inspections.ev_time ev)
          (inspections.ev_landing ev))),
    grounded.
  split; [exact Hp|]. split; [exact Hpre|]. split; [exact Hrows|].
  split; [exact Horder|].
  split; [exact Hannual|]. split; [exact Hgrounded|].
  cbv zeta. split; [|split; [|split; [|split]]].
  - intros t l -> ->. reflexivity.
  - apply check_inspection_iff.
  - intros Hlt Heq. apply not_true_is_false. intros Hflag.
    apply check_inspection_iff in Hflag as [Hge | Hgt].
    + apply (Qlt_not_le _ _ Hlt Hge).
    + rewrite Heq in Hgt. apply (Qlt_irrefl _ Hgt).
  - intros ->. apply annotate_inspection.
  - assert (Hown : history (inspections.ev_tail ev) [ev] = [ev])
      by (unfold history; cbn [List.filter]; rewrite String.eqb_refl;
          reflexivity).
    rewrite history_app, Hown. unfold hours_since_service.
    rewrite fold_left_app. cbn [fold_left]. rewrite Htype. reflexivity.
Qed.

(** C6.  Whenever the inspection scan returns, it has replayed the sorted
    timeline of the lessons and of the repairs of the fleet, in which a
    repairs row on an aircraft of the fleet whose description, stripped and
    in lower case, is 'annual inspection' is an annual event dated by its
    in-date (and every annual event is such a row), and for every lesson
    event of the timeline: the current last-annual date of the aircraft is
    the date of the latest annual event of the aircraft among the earlier
    events, and the date of the fleet row when there is none; everything of
    the aircraft dated strictly before the takeoff is among those earlier
    events and nothing dated after it is; with no current date the lesson
    is not flagged; with one, the annual flag is set if and only if more
    than 365 whole days lie between it and the takeoff, that is, the
    takeoff is at least 366 times 24 hours after it: exactly 365 days (and
    anything short of 366) is compliant; and a flagged lesson is put out
    with 'Annual' or 'Maintenance'. *)
Theorem annual_check_and_reset (lessons_csv planes_csv repairs_csv : list (list string))
    (timezone : string) (rows : list (list string)) :
  inspections.list_inspection_violations lessons_csv planes_csv repairs_csv
    timezone = Ok rows ->
  exists (plane_state : gmap string inspections.plane)
         (timeline : list inspections.event),
    scan_builds lessons_csv planes_csv repairs_csv timezone plane_state timeline /\
    inspections.replay plane_state (inspections.initial_state plane_state)
      timeline = Ok rows /\
    (forall tailno p, plane_state !! tailno = Some p ->
       exists row, In row (tail planes_csv)
                   /\ of_fleet_row timezone row tailno p) /\
    (forall lesson, In lesson (tail lessons_csv) ->
       exists ev, In ev timeline /\
         inspections.ev_type ev = inspections.lesson_event /\
         inspections.ev_lesson ev = lesson /\
         lesson !! 1%nat = Some (inspections.ev_tail ev) /\
         inspections.ev_time ev
         = inspections.str_to_instant (cell lesson 3) timezone /\
         inspections.ev_landing ev
         = inspections.str_to_instant (cell lesson 4) timezone) /\
    (forall row tailno in_str desc,
       In row (tail repairs_csv) ->
       row !! 0%nat = Some tailno -> row !! 1%nat = Some in_str ->
       row !! 3%nat = Some desc ->
       lower (strip desc) = "annual inspection" ->
       is_Some (plane_state !! tailno) ->
       exists e, In e timeline /\ inspections.ev_tail e = tailno /\
                 inspections.ev_type e = inspections.annual_event /\
                 inspections.ev_time e
                 = inspections.str_to_instant in_str timezone) /\
    (forall e, In e timeline ->
       inspections.ev_type e = inspections.annual_event ->
       exists row in_str desc,
         In row (tail repairs_csv) /\
         row !! 0%nat = Some (inspections.ev_tail e) /\
         row !! 1%nat = Some in_str /\ row !! 3%nat = Some desc /\
         lower (strip desc) = "annual inspection" /\
         inspections.ev_time e = inspections.str_to_instant in_str timezone) /\
    forall (pre post : list inspections.event) (ev : inspections.event),
      timeline = (pre ++ ev :: post)%list ->
      inspections.ev_type ev = inspections.lesson_event ->
      exists (p : inspections.plane) (rows_pre rows_post : list (list string))
             (annual inspection grounded : bool),
        plane_state !! inspections.ev_tail ev = Some p /\
        inspections.replay plane_state
          (inspections.initial_state plane_state) pre = Ok rows_pre /\
        rows
        = (rows_pre
           ++ appended_row (inspections.ev_lesson ev)
                (inspections.annotate annual inspection grounded)
           ++ rows_post)%list /\
        inspection
        = inspections.check_inspection
            (hours_since_service (inspections.hours_since_100 p)
               (history (inspections.ev_tail ev) pre))
            (inspections.duration_hours (inspections.ev_time ev)
               (inspections.ev_landing ev)) /\
        inspections.check_grounded (inspections.ev_time ev)
          (inspections.ev_landing ev) (inspections.in_shop_periods p)
        = Ok grounded /\
        let past := history (inspections.ev_tail ev) pre in
        let last := last_annual_date (inspections.last_annual p) past in
        (forall before later e,
           past = (before ++ e :: later)%list ->
           inspections.ev_type e = inspections.annual_event ->
           Forall (fun e' => inspections.ev_type e'
                             <> inspections.annual_event) later ->
           last = inspections.ev_time e) /\
        (Forall (fun e' => inspections.ev_type e'
                           <> inspections.annual_event) past ->
         last = inspections.last_annual p) /\
        (forall t, inspections.ev_time ev = Some t ->
           (forall e x, In e timeline ->
              inspections.ev_tail e = inspections.ev_tail ev ->
              inspections.ev_time e = Some x -> x < t -> In e past) /\
           (forall e x, In e past -> inspections.ev_time e = Some x ->
                        x <= t)) /\
        (last = None -> annual = false) /\
        (forall a, last = Some a ->
           exists t, inspections.ev_time ev = Some t /\
             (annual = true <-> 366 * 86400000000 <= t - a) /\
             (t - a = 365 * 86400000000 -> annual = false) /\
             (t - a = 366 * 86400000000 - 1 -> annual = false) /\
             (t - a = 366 * 86400000000 -> annual = true)) /\
        (annual = true ->
         inspections.annotate annual inspection grounded
         = Some (if inspection || grounded then "Maintenance" else "Annual")).
Proof.
  intros Hscan.
  destruct (scan_unfolds timezone _ _ _ _ Hscan)
    as (plane_state & timeline & Hbuilds & Hreplay).
  destruct (repairs_in_timeline timezone _ _ _ _ _ Hbuilds) as [Hrows Hevents].
  exists plane_state, timeline.
  split; [exact Hbuilds|]. split; [exact Hreplay|].
  split; [exact (planes_of_fleet timezone _ _ _ _ _ Hbuilds)|].
  split; [exact (lessons_in_timeline timezone _ _ _ _ _ Hbuilds)|].
  split; [|split].
  - intros row tailno in_str desc Hrow H0 H1 H3 Hdesc Hsome.
    destruct (Hrows row Hrow) as (tl & i & d & H0' & H1' & H3' & Hev).
    assert (tl = tailno) as -> by congruence.
    assert (i = in_str) as -> by congruence.
    assert (d = desc) as -> by congruence.
    destruct (Hev Hsome) as (e & He & Htail & Htype & Htime).
    exists e. do 2 (split; [assumption|]). split; [|exact Htime].
    rewrite Htype. unfold logged_as. rewrite Hdesc. reflexivity.
  - intros e He Htype.
    destruct (Hevents e He ltac:(congruence))
      as (row & in_str & desc & Hrow & H0 & H1 & H3 & Hlog & Htime).
    exists row, in_str, desc. do 4 (split; [assumption|]).
    split; [|exact Htime].
    rewrite Htype in Hlog. unfold logged_as in Hlog.
    destruct (String.eqb_spec (lower (strip desc)) "annual inspection");
      [assumption | discriminate].
  - intros pre post ev Hsplit Htype. subst timeline.
    destruct (replay_verdict _ _ _ _ _ Hreplay Htype)
      as (p & rows_pre & rows_post & annual & grounded
          & Hp & Hpre & Hgrounded & Hannual & Hrows').
    eexists p, rows_pre, rows_post, annual, _, grounded.
    split; [exact Hp|]. split; [exact Hpre|]. split; [exact Hrows'|].
    split; [reflexivity|]. split; [exact Hgrounded|].
    cbv zeta.
    destruct (check_annual_whole_days _ _ _ Hannual) as [Hnone Hsome].
    split; [|split; [|split; [|split; [|split]]]].
    + intros before later e -> He Hlater.
      apply last_annual_date_latest; assumption.
    + apply last_annual_date_none.
    + intros t Ht. destruct Hbuilds as (ps0 & fl & _ & _ & _ & Es).
      apply (timeline_by_date _ _ _ _ _ _ Es eq_refl Ht).
    + exact Hnone.
    + intros a Ha. destruct (Hsome a Ha) as (t & Ht & Hiff).
      exists t. split; [exact Ht|]. split; [exact Hiff|].
      split; [|split].
      * intros Heq. apply not_true_is_false. rewrite Hiff. lia.
      * intros Heq. apply not_true_is_false. rewrite Hiff. lia.
      * intros Heq. apply Hiff. lia.
    + intros ->.
      destruct (inspections.check_inspection _ _), grounded; reflexivity.
Qed.

End inspection_claims.

(** ** app *)

Section app_facts.
Context `{Library}.

Lemma pretty_N_go_head (x : N) :
  forall s, (x = 0%N /\ pretty_N_go x s = s) \/
            exists d rest, pretty_N_go x s = String (pretty_N_char d) rest.
Proof.
  induction (N.lt_wf_0 x) as [x _ IH]; intros s.
  destruct (decide (x = 0%N)) as [->|Hne].
  - left. split; [reflexivity | apply pretty_N_go_0].
  - right. rewrite pretty_N_go_step by lia.
    assert (Hlt : (N.div x 10 < x)%N) by (apply N.div_lt; lia).
    destruct (IH _ Hlt (String (pretty_N_char (N.modulo x 10)) s))
      as [[_ ->] | Hd]; eauto.
Qed.

Lemma pretty_nat_head (n : nat) :
  exists d rest, pretty n = String (pretty_N_char d) rest.
Proof.
  unfold pretty, pretty_nat, pretty, pretty_N.
  destruct (decide (N.of_nat n = 0%N)) as [_|Hne].
  - exists 0%N, "". reflexivity.
  - destruct (pretty_N_go_head (N.of_nat n) "") as [[Hz _] | Hd];
      [contradiction | exact Hd].
Qed.

Lemma count_message_not_none (n : nat) :
  pretty n ++ " violations found." <> "No violations found.".
Proof.
  destruct (pretty_nat_head n) as (d & rest & ->). cbn [String.append].
  intros [= Hd _]. revert Hd. unfold pretty_N_char.
  repeat case_match; discriminate.
Qed.

(** X28.  [discover_violations] returns only when the three scans do; the
    table it writes is the header followed by the weather, the inspection
    and the endorsement rows, in that order, so a lesson may be listed once
    per scan; it prints 'No violations found.' exactly when the three
    scans found nothing; and the line it prints does not depend on whether
    an output file is named. *)
Theorem discover_violations_report (dir : app.directory) (output : option string)
    (r : app.report) :
  app.discover_violations dir output = Ok r ->
  exists weather inspection endorsement : list (list string),
    violations.list_weather_violations (app.lessons_file dir)
      (app.students_file dir) (app.minimums_file dir) (app.weather_file dir)
      (app.daycycle_file dir) = Ok weather /\
    inspections.list_inspection_violations (app.lessons_file dir)
      (app.fleet_file dir) (app.repairs_file dir)
      (default "UTC" (utils.dc_timezone (app.daycycle_file dir)))
    = Ok inspection /\
    endorsements.list_endorsement_violations (app.lessons_file dir)
      (app.students_file dir) (app.instructors_file dir) (app.fleet_file dir)
    = Ok endorsement /\
    app.written r
    = (fun _ => app.HEADER :: weather ++ inspection ++ endorsement)%list
        <$> output /\
    (app.printed r = "No violations found."
     <-> weather = [] /\ inspection = [] /\ endorsement = []) /\
    forall output' : option string,
      exists r', app.discover_violations dir output' = Ok r' /\
                 app.printed r' = app.printed r.
Proof.
  unfold app.discover_violations.
  destruct (violations.list_weather_violations _ _ _ _ _) as [weather|];
    cbn [bind]; [|discriminate].
  destruct (inspections.list_inspection_violations _ _ _ _) as [inspection|];
    cbn [bind]; [|discriminate].
  destruct (endorsements.list_endorsement_violations _ _ _ _) as [endorsement|];
    cbn [bind]; [|discriminate].
  intros [= <-]. exists weather, inspection, endorsement.
  do 3 (split; [reflexivity|]). cbn [app.written app.printed].
  split; [destruct output; reflexivity|]. split.
  - split.
    + destruct (weather ++ inspection ++ endorsement)%list
        as [|row1 [|row2 rest]] eqn:Eall; cbn [length].
      * intros _. apply app_eq_nil in Eall as [-> Eall].
        apply app_eq_nil in Eall as [-> ->]. auto.
      * discriminate.
      * intros Hmsg. destruct (count_message_not_none _ Hmsg).
    + intros (-> & -> & ->). reflexivity.
  - intros output'. eexists. split; reflexivity.
Qed.

(** X29.  [execute] audits a data set only on one or two arguments, never
    takes '--test' for the data set or for the output file, runs the test
    suite on the single argument '--test' only, and prints the usage line
    on every other command line. *)
Theorem execute_dispatch (args : list string) :
  (forall dataset output,
     app.execute args = app.audit dataset output ->
     dataset <> "--test" /\ output <> Some "--test" /\
     args = dataset :: from_option (fun file => [file]) [] output) /\
  (app.execute args = app.run_tests <-> args = ["--test"]) /\
  (app.execute args = app.usage
   <-> length args <> 1%nat /\ (length args = 2%nat -> In "--test" args)).
Proof.
  unfold app.execute.
  destruct args as [|a [|b [|c rest]]]; cbn [existsb length In].
  - split; [discriminate|]. split; [split; discriminate|].
    split; [intros _; split; [lia | lia] | reflexivity].
  - destruct (String.eqb a "--test") eqn:Ea;
      [apply String.eqb_eq in Ea as -> | apply String.eqb_neq in Ea].
    + split; [discriminate|]. split; [split; reflexivity|].
      split; [discriminate | intros [Hlen _]; lia].
    + split; [intros d o [= <- <-]; auto|].
      split; [split; [discriminate | intros [= ->]; contradiction]|].
      split; [discriminate | intros [Hlen _]; lia].
  - rewrite orb_false_r.
    destruct (String.eqb_spec "--test" a) as [Ea|Ea],
      (String.eqb_spec "--test" b) as [Eb|Eb]; cbn [orb].
    1-3: split; [discriminate|]; split; [split; discriminate|];
         split; [intros _; split; [lia | intros _; auto] | reflexivity].
    split; [intros d o [= <- <-]; repeat split; congruence|].
    split; [split; discriminate|].
    split; [discriminate|]. intros [_ Hin].
    destruct (Hin eq_refl) as [-> | [-> | []]]; contradiction.
  - split; [discriminate|]. split; [split; discriminate|].
    split; [intros _; split; [lia | lia] | reflexivity].
Qed.

End app_facts.

(** ** The further properties at concrete inputs *)

Section further_on_the_fixture.
Import Fixture.

Ltac other_rows :=
  repeat constructor; try discriminate;
  try (let Heq := fresh in intros Heq; vm_compute in Heq; discriminate).

Lemma get_for_id_first_match_witness :
  utils.get_for_id "S00002" students
  = Ok (Some ["S00002"; "Poe"; "John"; "2015-01-01T00:00:00-05:00";
              "2016-01-01T00:00:00-05:00"; ""; ""; ""; ""; ""]).
Proof.
  destruct (get_for_id_first_match "S00002"
              [ ["ID"; "LASTNAME"; "FIRSTNAME"; "JOINED"; "SOLO"; "LICENSE";
                 "50 HOURS"; "INSTRUMENT"; "ADVANCED"; "MULTIENGINE"];
                ["S00001"; "Doe"; "Jane"; "2016-01-01T00:00:00-05:00"; ""; "";
                 ""; ""; ""; ""] ]) as [Hfound _].
  - other_rows.
  - exact (Hfound ["S00002"; "Poe"; "John"; "2015-01-01T00:00:00-05:00";
                   "2016-01-01T00:00:00-05:00"; ""; ""; ""; ""; ""] [] eq_refl).
Defined.

Lemma duplicate_id_first_and_last_witness :
  utils.get_for_id "S00001"
    [ ["ID"; "LASTNAME"]; ["S00001"; "Doe"]; ["S00002"; "Poe"]; ["S00001"; "Roe"] ]
  = Ok (Some ["S00001"; "Doe"]) /\
  exists d : gmap string (list string),
    dict_of_table
      [ ["ID"; "LASTNAME"]; ["S00001"; "Doe"]; ["S00002"; "Poe"]; ["S00001"; "Roe"] ]
    = Ok d /\
    d !! "S00001" = Some ["S00001"; "Roe"].
Proof.
  apply (duplicate_id_first_and_last "S00001" ["S00001"; "Doe"] ["S00001"; "Roe"]
           [ ["ID"; "LASTNAME"] ] [ ["S00002"; "Poe"] ] []).
  - other_rows.
  - other_rows.
  - constructor.
  - reflexivity.
  - reflexivity.
Defined.

Lemma dated_qualifications_inclusive_witness :
  pilots.has_instrument_rating (Some (Aware 1483884000000000 EST))
    ["S00003"; "Moe"; "Max"; "2015-01-01T00:00:00-05:00";
     "2016-01-01T00:00:00-05:00"; ""; ""; "2017-01-08T09:00:00-05:00"; "";
     "2017-01-08T11:00:00-05:00"]
  = Ok true /\
  pilots.has_multiengine_endorsement (Some (Aware 1483884000000000 EST))
    ["S00003"; "Moe"; "Max"; "2015-01-01T00:00:00-05:00";
     "2016-01-01T00:00:00-05:00"; ""; ""; "2017-01-08T09:00:00-05:00"; "";
     "2017-01-08T11:00:00-05:00"]
  = Ok false.
Proof.
  destruct (dated_qualifications_inclusive (Aware 1483884000000000 EST)
              ["S00003"; "Moe"; "Max"; "2015-01-01T00:00:00-05:00";
               "2016-01-01T00:00:00-05:00"; ""; "";
               "2017-01-08T09:00:00-05:00"; ""; "2017-01-08T11:00:00-05:00"]
              "2017-01-08T09:00:00-05:00" "" "2017-01-08T11:00:00-05:00"
              eq_refl eq_refl eq_refl) as (Hinstrument & _ & Hmulti & _).
  split; [rewrite Hinstrument | rewrite Hmulti]; reflexivity.
Defined.

Lemma get_certification_mixed_zones_raise_witness :
  pilots.get_certification (Some (Naive 1483860000000000))
    ["S00001"; "Doe"; "Jane"; "2016-01-01T00:00:00-05:00"; ""; ""; ""; ""; "";
     ""]
  = Raise TypeError.
Proof.
  apply (get_certification_mixed_zones_raise 1483860000000000 _
           "2016-01-01T00:00:00-05:00" 1451624400000000 EST).
  - simpl. lia.
  - reflexivity.
  - discriminate.
  - reflexivity.
Defined.

Lemma get_certification_without_takeoff_witness :
  pilots.get_certification None
    ["S00009"; "Noe"; "Nan"; ""; ""; ""; ""; ""; ""; ""]
  = Ok pilots.PILOT_INVALID /\
  pilots.get_certification None
    ["S00001"; "Doe"; "Jane"; "2016-01-01T00:00:00-05:00"; ""; ""; ""; ""; "";
     ""]
  = Raise AttributeError.
Proof.
  split.
  - rewrite (get_certification_without_takeoff
               ["S00009"; "Noe"; "Nan"; ""; ""; ""; ""; ""; ""; ""]
               ltac:(simpl; lia)).
    reflexivity.
  - rewrite (get_certification_without_takeoff
               ["S00001"; "Doe"; "Jane"; "2016-01-01T00:00:00-05:00"; ""; "";
                ""; ""; ""; ""]
               ltac:(simpl; lia)).
    reflexivity.
Defined.

Lemma get_certification_highest_met_witness :
  pilots.get_certification (Some (Aware 1483884000000000 EST))
    ["S00002"; "Poe"; "John"; "2015-01-01T00:00:00-05:00";
     "2016-01-01T00:00:00-05:00"; ""; ""; ""; ""; ""]
  = Ok pilots.PILOT_STUDENT.
Proof.
  pose proof (get_certification_highest_met 1483884000000000 EST
                ["S00002"; "Poe"; "John"; "2015-01-01T00:00:00-05:00";
                 "2016-01-01T00:00:00-05:00"; ""; ""; ""; ""; ""]
                ltac:(simpl; lia)) as Hcert.
  cbv zeta in Hcert.
  destruct Hcert as (tier & Hres & _ & _ & _ & _ & Hstudent & _).
  rewrite Hres. f_equal. apply Hstudent. vm_compute. auto.
Defined.

Lemma get_best_value_extremes_witness :
  exists lowest highest : Q,
    pilots.get_best_value (tail minimums) 4 false = Ok lowest /\
    pilots.get_best_value (tail minimums) 4 true = Ok highest /\
    (lowest <= highest)%Q.
Proof.
  destruct (get_best_value_extremes (tail minimums) 4)
    as [(values & lowest & highest & _ & Hlow & Hhigh & _ & _ & Hle) _].
  - discriminate.
  - repeat (constructor;
            [eexists _, _; split; [reflexivity | vm_compute; reflexivity]|]).
    constructor.
  - exists lowest, highest. auto.
Defined.

Lemma policy_rows_of_the_fixture : Forall policy_row (tail minimums).
Proof.
  repeat constructor; try reflexivity;
    intros i Hi;
    do 8 (destruct i as [|i]; [first [lia | eexists; vm_compute; reflexivity]|]);
    lia.
Qed.

Lemma instructor_never_tightens_witness :
  exists c v w x : Q,
    pilots.get_minimums pilots.PILOT_STUDENT "Pattern" true true true minimums
    = Ok (Some [c; v; w; x]) /\
    (c <= 2000)%Q /\ (v <= 5)%Q /\ (20 <= w)%Q /\ (8 <= x)%Q.
Proof.
  apply (instructor_never_tightens pilots.PILOT_STUDENT "Pattern" true true
           minimums 2000 5 20 8).
  - exact policy_rows_of_the_fixture.
  - vm_compute. reflexivity.
Defined.

Lemma higher_tier_never_tightens_witness :
  exists c v w x : Q,
    pilots.get_minimums pilots.PILOT_CERTIFIED "Pattern" false true true minimums
    = Ok (Some [c; v; w; x]) /\
    (c <= 2000)%Q /\ (v <= 5)%Q /\ (20 <= w)%Q /\ (8 <= x)%Q.
Proof.
  apply (higher_tier_never_tightens pilots.PILOT_STUDENT pilots.PILOT_CERTIFIED
           "Pattern" false true true minimums 2000 5 20 8).
  - vm_compute. split; discriminate.
  - exact policy_rows_of_the_fixture.
  - vm_compute. reflexivity.
Defined.

Lemma bad_winds_exceeds_witness :
  violations.bad_winds
    (PDict [("speed", PNum 20); ("crosswind", PNum 8); ("units", PStr "KT")])
    20 8
  = Ok false /\
  violations.bad_winds (PDict [("speed", PNum 25); ("units", PStr "MPS")])
    (round_double (48596 # 1000)) 8
  = Ok true /\
  violations.bad_winds (PDict [("speed", PNum 9); ("units", PStr "MPS")])
    (fmul 9 violations.MPS_TO_KT) 8
  = Ok false.
Proof.
  split; [|split].
  - pose proof (bad_winds_exceeds
                  [("speed", PNum 20); ("crosswind", PNum 8);
                   ("units", PStr "KT")]
                  20 None (Some 8%Q) 20 8 eq_refl eq_refl eq_refl
                  eq_refl I eq_refl) as Hwinds.
    cbv zeta in Hwinds. destruct Hwinds as [(b & Hb & Hiff) _].
    rewrite Hb. f_equal. destruct b; [|reflexivity].
    destruct (proj1 Hiff eq_refl) as [Hc | [Hc | Hc]];
      vm_compute in Hc; discriminate.
  - pose proof (bad_winds_exceeds
                  [("speed", PNum 25); ("units", PStr "MPS")]
                  25 None None (round_double (48596 # 1000)) 8
                  eq_refl eq_refl eq_refl eq_refl I I) as Hwinds.
    cbv zeta in Hwinds. destruct Hwinds as [(b & Hb & Hiff) _].
    rewrite Hb. f_equal. apply Hiff. left. vm_compute. reflexivity.
  - pose proof (bad_winds_exceeds
                  [("speed", PNum 9); ("units", PStr "MPS")]
                  9 None None (fmul 9 violations.MPS_TO_KT) 8
                  eq_refl eq_refl eq_refl eq_refl I I) as Hwinds.
    cbv zeta in Hwinds. destruct Hwinds as [(b & Hb & Hiff) _].
    rewrite Hb. f_equal. destruct b; [|reflexivity].
    destruct (proj1 Hiff eq_refl) as [Hc | [Hc | Hc]];
      vm_compute in Hc; discriminate.
Defined.

Lemma bad_ceiling_lowest_layer_witness :
  violations.bad_ceiling
    (PList [ PDict [("type", PStr "a few"); ("height", PNum 500);
                    ("units", PStr "FT")];
             PDict [("type", PStr "overcast"); ("height", PNum 1500);
                    ("units", PStr "FT")] ])
    2000
  = Ok true.
Proof.
  destruct (bad_ceiling_lowest_layer
              [ PDict [("type", PStr "a few"); ("height", PNum 500);
                       ("units", PStr "FT")];
                PDict [("type", PStr "overcast"); ("height", PNum 1500);
                       ("units", PStr "FT")] ]
              2000 eq_refl) as (b & Hb & Hiff).
  rewrite Hb. f_equal. apply Hiff.
  eexists _, 1500%Q. split; [right; left; reflexivity|].
  split; [reflexivity|]. split; [reflexivity|]. vm_compute. reflexivity.
Defined.

Lemma weather_scan_rows_witness :
  exists (lesson : list string) (label : string),
    In lesson [dual_ifr] /\
    (dual_ifr ++ ["Visibility"])%list = (lesson ++ [label])%list /\
    In label ["Visibility"; "Winds"; "Ceiling"; "Weather"; "Unknown"].
Proof.
  assert (Hscan : violations.list_weather_violations [lessons_header; dual_ifr]
                    students minimums fog daycycle
                  = Ok [(dual_ifr ++ ["Visibility"])%list])
    by (vm_compute; reflexivity).
  destruct (weather_scan_rows _ _ _ _ _ _ Hscan
              (dual_ifr ++ ["Visibility"])%list (or_introl eq_refl))
    as (lesson & label & Hin & _ & Hrow & Hlabel).
  exists lesson, label. auto.
Defined.

Lemma weather_scan_unparsed_takeoff_witness :
  violations.list_weather_violations
    [ lessons_header;
      ["S00002"; "446BU"; "I077"; "sometime in the morning";
       "2017-01-08T11:00:00-05:00"; "IFR"; "Pattern"];
      dual_ifr ]
    students minimums weather daycycle
  = Raise AttributeError.
Proof.
  apply (weather_scan_unparsed_takeoff students minimums weather daycycle
           lessons_header
           ["S00002"; "446BU"; "I077"; "sometime in the morning";
            "2017-01-08T11:00:00-05:00"; "IFR"; "Pattern"]
           ["S00002"; "Poe"; "John"; "2015-01-01T00:00:00-05:00";
            "2016-01-01T00:00:00-05:00"; ""; ""; ""; ""; ""]
           [] [dual_ifr]).
  - simpl. lia.
  - vm_compute. reflexivity.
  - reflexivity.
  - exists []. vm_compute. reflexivity.
Defined.

Lemma bad_endorsement_cases_witness :
  endorsements.bad_endorsement (Some (Aware 1483884000000000 EST))
    ["S00002"; "Poe"; "John"; "2015-01-01T00:00:00-05:00";
     "2016-01-01T00:00:00-05:00"; ""; ""; ""; ""; ""]
    (Some ["I077"; "Roe"; "Rick"; "Yes"; "No"; "No"])
    ["446BU"; "Piper Seminole"; "IFR"; "Yes"; "Yes";
     "2016-01-01T00:00:00-05:00"; "10"]
  = Ok true.
Proof.
  destruct (bad_endorsement_cases (Aware 1483884000000000 EST)
              ["S00002"; "Poe"; "John"; "2015-01-01T00:00:00-05:00";
               "2016-01-01T00:00:00-05:00"; ""; ""; ""; ""; ""]
              ["446BU"; "Piper Seminole"; "IFR"; "Yes"; "Yes";
               "2016-01-01T00:00:00-05:00"; "10"]
              "Yes" "Yes" "" "" eq_refl eq_refl eq_refl eq_refl)
    as [Hdual _].
  rewrite (Hdual ["I077"; "Roe"; "Rick"; "Yes"; "No"; "No"] "No" eq_refl).
  reflexivity.
Defined.

Lemma bad_ifr_cases_witness :
  endorsements.bad_ifr (Some (Aware 1483884000000000 EST))
    ["S00002"; "Poe"; "John"; "2015-01-01T00:00:00-05:00";
     "2016-01-01T00:00:00-05:00"; ""; ""; ""; ""; ""]
    None
    ["446BU"; "Piper Seminole"; "IFR"; "Yes"; "Yes";
     "2016-01-01T00:00:00-05:00"; "10"]
  = Ok true.
Proof.
  destruct (bad_ifr_cases (Aware 1483884000000000 EST)
              ["S00002"; "Poe"; "John"; "2015-01-01T00:00:00-05:00";
               "2016-01-01T00:00:00-05:00"; ""; ""; ""; ""; ""]
              ["446BU"; "Piper Seminole"; "IFR"; "Yes"; "Yes";
               "2016-01-01T00:00:00-05:00"; "10"]
              "IFR" "" eq_refl eq_refl)
    as [_ Halone].
  rewrite (Halone None (or_intror eq_refl)). reflexivity.
Defined.

Lemma unknown_instructor_never_solo_witness :
  exists row : list string,
    endorsements.endorsement_pass
      {[ "S00002" := ["S00002"; "Poe"; "John"; "2015-01-01T00:00:00-05:00";
                      "2016-01-01T00:00:00-05:00"; ""; ""; ""; ""; ""] ]}
      ∅
      {[ "446BU" := ["446BU"; "Piper Seminole"; "IFR"; "Yes"; "Yes";
                     "2016-01-01T00:00:00-05:00"; "10"] ]}
      ["S00002"; "446BU"; "I999"; "2017-01-08T09:00:00-05:00";
       "2017-01-08T11:00:00-05:00"; "IFR"; "Pattern"]
    = Ok (Some row) /\
    (row = ["S00002"; "446BU"; "I999"; "2017-01-08T09:00:00-05:00";
            "2017-01-08T11:00:00-05:00"; "IFR"; "Pattern"; "Endorsement"]
     \/ row = ["S00002"; "446BU"; "I999"; "2017-01-08T09:00:00-05:00";
               "2017-01-08T11:00:00-05:00"; "IFR"; "Pattern"; "IFR"]).
Proof.
  assert (Hpass :
    endorsements.endorsement_pass
      {[ "S00002" := ["S00002"; "Poe"; "John"; "2015-01-01T00:00:00-05:00";
                      "2016-01-01T00:00:00-05:00"; ""; ""; ""; ""; ""] ]}
      ∅
      {[ "446BU" := ["446BU"; "Piper Seminole"; "IFR"; "Yes"; "Yes";
                     "2016-01-01T00:00:00-05:00"; "10"] ]}
      ["S00002"; "446BU"; "I999"; "2017-01-08T09:00:00-05:00";
       "2017-01-08T11:00:00-05:00"; "IFR"; "Pattern"]
    = Ok (Some ["S00002"; "446BU"; "I999"; "2017-01-08T09:00:00-05:00";
                "2017-01-08T11:00:00-05:00"; "IFR"; "Pattern"; "Endorsement"]))
    by (vm_compute; reflexivity).
  eexists. split; [exact Hpass|].
  refine (unknown_instructor_never_solo _ _ _ _ _ _ _ _ Hpass).
  - simpl. lia.
  - intros Heq. vm_compute in Heq. discriminate.
  - apply lookup_empty.
Defined.

Lemma endorsement_scan_rows_witness :
  exists (lesson student plane : list string) (label : string),
    In lesson [lessons_header; dual_ifr] /\
    (dual_ifr ++ ["Endorsement"])%list = (lesson ++ [label])%list /\
    In label ["Credentials"; "Solo"; "Endorsement"; "IFR"] /\
    In student students /\ student !! 0%nat = lesson !! 0%nat /\
    In plane fleet /\ plane !! 0%nat = lesson !! 1%nat.
Proof.
  assert (Hscan : endorsements.list_endorsement_violations
                    [lessons_header; dual_ifr] students instructors fleet
                  = Ok [(dual_ifr ++ ["Endorsement"])%list])
    by (vm_compute; reflexivity).
  exact (endorsement_scan_rows _ _ _ _ _ Hscan
           (dual_ifr ++ ["Endorsement"])%list (or_introl eq_refl)).
Defined.

Lemma sort_events_stable_permutation_witness :
  Permutation
    [ {| inspections.ev_tail := "446BU"; inspections.ev_time := Some 2;
         inspections.ev_type := inspections.lesson_event;
         inspections.ev_lesson := dual_ifr; inspections.ev_landing := Some 3 |};
      {| inspections.ev_tail := "446BU"; inspections.ev_time := Some 1;
         inspections.ev_type := inspections.annual_event;
         inspections.ev_lesson := []; inspections.ev_landing := None |} ]
    [ {| inspections.ev_tail := "446BU"; inspections.ev_time := Some 1;
         inspections.ev_type := inspections.annual_event;
         inspections.ev_lesson := []; inspections.ev_landing := None |};
      {| inspections.ev_tail := "446BU"; inspections.ev_time := Some 2;
         inspections.ev_type := inspections.lesson_event;
         inspections.ev_lesson := dual_ifr; inspections.ev_landing := Some 3 |} ].
Proof.
  match goal with
  | |- Permutation ?events ?sorted =>
      exact (proj1 (sort_events_stable_permutation events sorted eq_refl))
  end.
Defined.

Lemma replay_event_frame_witness :
  inspections.current_hours
    {| inspections.current_annual := <["446BU" := Some 1]> ∅;
       inspections.current_hours := <["446BU" := 0%Q]> ∅ |}
  !! "446BU" = Some 0%Q.
Proof.
  apply (replay_event_frame ∅
           {| inspections.current_annual := ∅; inspections.current_hours := ∅ |}
           {| inspections.current_annual := <["446BU" := Some 1]> ∅;
              inspections.current_hours := <["446BU" := 0%Q]> ∅ |}
           {| inspections.ev_tail := "446BU"; inspections.ev_time := Some 1;
              inspections.ev_type := inspections.annual_event;
              inspections.ev_lesson := []; inspections.ev_landing := None |}
           None eq_refl).
  discriminate.
Defined.

Lemma inspection_scan_known_tails_witness :
  exists plane : list string,
    In plane (tail fleet) /\ plane !! 0%nat = dual_ifr !! 1%nat.
Proof.
  assert (Hscan : inspections.list_inspection_violations
                    [lessons_header; dual_ifr] fleet repairs NEW_YORK
                  = Ok [(dual_ifr ++ ["Annual"])%list])
    by (vm_compute; reflexivity).
  exact (inspection_scan_known_tails NEW_YORK _ _ _ _ Hscan dual_ifr
           (or_introl eq_refl)).
Defined.

Lemma inspection_scan_rows_witness :
  exists (lesson : list string) (label : string),
    In lesson [dual_ifr] /\
    (dual_ifr ++ ["Annual"])%list = (lesson ++ [label])%list /\
    In label ["Annual"; "Inspection"; "Grounded"; "Maintenance"].
Proof.
  assert (Hscan : inspections.list_inspection_violations
                    [lessons_header; dual_ifr] fleet repairs NEW_YORK
                  = Ok [(dual_ifr ++ ["Annual"])%list])
    by (vm_compute; reflexivity).
  exact (inspection_scan_rows NEW_YORK _ _ _ _ Hscan
           (dual_ifr ++ ["Annual"])%list (or_introl eq_refl)).
Defined.

Lemma inspection_scan_returns_witness :
  exists rows,
    inspections.list_inspection_violations
      [lessons_header; dual_ifr; novice_alone] fleet
      [ ["TAILNO"; "IN-DATE"; "OUT-DATE"; "DESCRIPTION"];
        ["446BU"; "2017-01-01T00:00:00-05:00"; "not yet known";
         "Annual Inspection"] ]
      NEW_YORK
    = Ok rows.
Proof.
  apply inspection_scan_returns.
  - repeat (constructor;
            [split; [simpl; lia | right; eexists; vm_compute; reflexivity]|]).
    constructor.
  - repeat (constructor;
            [split; [simpl; lia | eexists; vm_compute; reflexivity]|]).
    constructor.
  - constructor; [|constructor; [|constructor]].
    + split; [simpl; lia|].
      split; [eexists; vm_compute; reflexivity|].
      split; [eexists; vm_compute; reflexivity|].
      eexists. split; [right; left; reflexivity | reflexivity].
    + split; [simpl; lia|].
      split; [eexists; vm_compute; reflexivity|].
      split; [eexists; vm_compute; reflexivity|].
      eexists. split; [left; reflexivity | reflexivity].
Defined.

Lemma repair_of_unknown_aircraft_ignored_witness :
  inspections.list_inspection_violations [lessons_header; dual_ifr] fleet
    [ ["TAILNO"; "IN-DATE"; "OUT-DATE"; "DESCRIPTION"];
      ["999ZZ"; "2017-01-01T00:00:00-05:00"; "2017-01-08T09:00:00-05:00";
       "Oil change"] ]
    NEW_YORK
  = inspections.list_inspection_violations [lessons_header; dual_ifr] fleet
      [ ["TAILNO"; "IN-DATE"; "OUT-DATE"; "DESCRIPTION"] ]
      NEW_YORK.
Proof.
  apply (repair_of_unknown_aircraft_ignored NEW_YORK [lessons_header; dual_ifr]
           fleet ["TAILNO"; "IN-DATE"; "OUT-DATE"; "DESCRIPTION"] [] []
           ["999ZZ"; "2017-01-01T00:00:00-05:00"; "2017-01-08T09:00:00-05:00";
            "Oil change"]).
  - simpl. lia.
  - other_rows.
Defined.

Lemma discover_violations_report_witness :
  exists from_weather from_inspection from_endorsement : list (list string),
    violations.list_weather_violations [lessons_header; dual_ifr] students
      minimums weather daycycle = Ok from_weather /\
    inspections.list_inspection_violations [lessons_header; dual_ifr] fleet
      repairs NEW_YORK = Ok from_inspection /\
    endorsements.list_endorsement_violations [lessons_header; dual_ifr] students
      instructors fleet = Ok from_endorsement /\
    Some (app.HEADER :: from_weather ++ from_inspection ++ from_endorsement)%list
    = Some [ app.HEADER; (dual_ifr ++ ["Annual"])%list;
             (dual_ifr ++ ["Endorsement"])%list ].
Proof.
  assert (Hreport :
    app.discover_violations
      {| app.lessons_file := [lessons_header; dual_ifr];
         app.students_file := students;
         app.instructors_file := instructors;
         app.fleet_file := fleet;
         app.repairs_file := repairs;
         app.minimums_file := minimums;
         app.weather_file := weather;
         app.daycycle_file := daycycle |}
      (Some "violations.csv")
    = Ok {| app.written :=
              Some [ app.HEADER; (dual_ifr ++ ["Annual"])%list;
                     (dual_ifr ++ ["Endorsement"])%list ];
            app.printed := "2 violations found." |})
    by (vm_compute; reflexivity).
  destruct (discover_violations_report _ _ _ Hreport)
    as (w & i & e & Hw & Hi & He & Hwritten & _).
  exists w, i, e. split; [exact Hw|]. split; [exact Hi|]. split; [exact He|].
  symmetry. exact Hwritten.
Defined.

(** The floats of the examples, to the last bit: the float nearest to one
    tenth, the float [1.94384], the product [25 * 1.94384], which is
    [48.596000000000004] and so above the float [48.596], and the hours of
    an aircraft at 99.5 after three lessons of ten minutes, which are
    [100.00000000000001] and not 100. *)
Lemma floats_of_the_examples :
  round_double (1 # 10) = 3602879701896397 # 36028797018963968 /\
  violations.MPS_TO_KT = 8754277099667865 # 4503599627370496 /\
  fmul 25 violations.MPS_TO_KT = 106863734126805 # 2199023255552 /\
  round_double (48596 # 1000) = 6839278984115519 # 140737488355328 /\
  inspections.duration_hours (Some 1483884000000000) (Some 1483884600000000)
  = 6004799503160661 # 36028797018963968 /\
  fadd (fadd (fadd (995 # 10) (6004799503160661 # 36028797018963968))
          (6004799503160661 # 36028797018963968))
    (6004799503160661 # 36028797018963968)
  = 7036874417766401 # 70368744177664.
Proof. repeat split; vm_compute; reflexivity. Qed.

(** A two-hour lesson on an aircraft at 98 hours lands at exactly 100 and is
    not reported; from 98.5 hours it crosses 100 and is; at 100 hours it is
    reported whatever its length. *)
Lemma exactly_100_hours_example :
  inspections.list_inspection_violations [lessons_header; dual_ifr]
    (fleet_with_hours "98") repairs NEW_YORK
  = Ok [] /\
  inspections.list_inspection_violations [lessons_header; dual_ifr]
    (fleet_with_hours "98.5") repairs NEW_YORK
  = Ok [(dual_ifr ++ ["Inspection"])%list] /\
  inspections.list_inspection_violations [lessons_header; dual_ifr]
    (fleet_with_hours "100") repairs NEW_YORK
  = Ok [(dual_ifr ++ ["Inspection"])%list].
Proof. repeat split; vm_compute; reflexivity. Qed.

Lemma hundred_hour_check_witness :
  inspections.list_inspection_violations
    [lessons_header; first_hop; second_hop; third_hop] fleet_at_99_5 repairs
    NEW_YORK
  = Ok [(third_hop ++ ["Inspection"])%list] /\
  exists (plane_state : gmap string inspections.plane)
         (timeline : list inspections.event),
    scan_builds [lessons_header; first_hop; second_hop; third_hop]
      fleet_at_99_5 repairs NEW_YORK plane_state timeline /\
    inspections.replay plane_state (inspections.initial_state plane_state)
      timeline
    = Ok [(third_hop ++ ["Inspection"])%list].
Proof.
  assert (Hscan :
    inspections.list_inspection_violations
      [lessons_header; first_hop; second_hop; third_hop] fleet_at_99_5 repairs
      NEW_YORK
    = Ok [(third_hop ++ ["Inspection"])%list]) by (vm_compute; reflexivity).
  split; [exact Hscan|].
  destruct (hundred_hour_check _ _ _ _ _ Hscan)
    as (plane_state & timeline & Hbuilds & Hreplay & _).
  exists plane_state, timeline. split; assumption.
Defined.

Lemma annual_check_and_reset_witness :
  exists (plane_state : gmap string inspections.plane)
         (timeline : list inspections.event) (e : inspections.event),
    inspections.replay plane_state (inspections.initial_state plane_state)
      timeline = Ok [] /\
    In e timeline /\ inspections.ev_tail e = "548QR" /\
    inspections.ev_type e = inspections.annual_event /\
    inspections.ev_time e = Some 1483246800000000.
Proof.
  assert (Hscan :
    inspections.list_inspection_violations [lessons_header; novice_alone] fleet
      (repairs ++ [["548QR"; "2017-01-01T00:00:00-05:00"; "2017-01-08T07:20";
                    " Annual Inspection"]])%list
      NEW_YORK
    = Ok []) by (vm_compute; reflexivity).
  destruct (annual_check_and_reset _ _ _ _ _ Hscan)
    as (plane_state & timeline & _ & Hreplay & _ & Hlessons & Hannual & _
        & Hverdict).
  destruct (Hlessons novice_alone (or_introl eq_refl))
    as (ev & Hev & Htype & _ & Htail & _).
  apply in_split in Hev as (pre & post & Hsplit).
  destruct (Hverdict pre post ev Hsplit Htype) as (p & _ & _ & _ & _ & _ & Hp & _).
  injection Htail as Htail. rewrite <- Htail in Hp.
  destruct (Hannual
              ["548QR"; "2017-01-01T00:00:00-05:00"; "2017-01-08T07:20";
               " Annual Inspection"]
              "548QR" "2017-01-01T00:00:00-05:00" " Annual Inspection"
              (or_introl eq_refl) eq_refl eq_refl eq_refl eq_refl
              (ex_intro _ p Hp))
    as (e & He & Hetail & Hetype & Hetime).
  exists plane_state, timeline, e. auto.
Defined.

End further_on_the_fixture.
